(** * Chat backend: authorization and data-consistency layer

    A shallow embedding of the conversation, participant and message
    handlers (controllers), of the authorization service they call and of
    the relational store they read and write.  Tables are lists of rows,
    handlers are computations in a state-and-exception monad over the
    store, and the values that reach the handlers from the router keep
    their JavaScript representation, so that strict comparisons behave as
    they do in the program. *)

From Stdlib Require Import ZArith List String Ascii Bool Lia.
From Stdlib Require Import DecimalString Permutation Sorted.
Import ListNotations.

Local Open Scope string_scope.
Local Open Scope list_scope.
Local Open Scope Z_scope.

(** ** JavaScript values that reach the handlers *)

Module Js.

(** A primitive value: a number (integers only are modelled) or a
    string.  Route parameters ([params.id], [params.userId]) are
    delivered as strings: [start/routes.ts] declares no matcher that
    casts them.  Validated body fields declared [vine.number()] and
    columns read back from integer columns are numbers. *)
Inductive value : Type :=
| Num (n : Z)
| Str (s : string).

(** [a === b]: no coercion, values of different types are different. *)
Definition strict_eq (a b : value) : bool :=
  match a, b with
  | Num x, Num y => x =? y
  | Str x, Str y => String.eqb x y
  | _, _ => false
  end.

(** [a !== b] *)
Definition strict_neq (a b : value) : bool := negb (strict_eq a b).

(** Truthiness of a number: [0] is falsy. *)
Definition truthy (n : Z) : bool := negb (n =? 0).

(** [hay.includes(needle)] *)
Definition includes (hay needle : string) : bool :=
  match String.index 0 needle hay with
  | Some _ => true
  | None => false
  end.

(** Strings are held as their UTF-8 bytes.  [String.prototype.trim]
    removes the white space and the line terminators of the language at
    both ends: U+0009 to U+000D and U+0020 (one byte each), U+00A0 (two
    bytes), and U+1680, U+2000 to U+200A, U+2028, U+2029, U+202F, U+205F,
    U+3000 and U+FEFF (three bytes each). *)
Definition is_space (c : ascii) : bool :=
  let n := nat_of_ascii c in
  (((9 <=? n) && (n <=? 13)) || (n =? 32))%nat.

(** U+00A0 is [C2 A0]. *)
Definition is_space2 (c d : ascii) : bool :=
  ((nat_of_ascii c =? 194) && (nat_of_ascii d =? 160))%nat.

(** U+1680 is [E1 9A 80]; U+2000 to U+200A, U+2028, U+2029 and U+202F are
    [E2 80 80] to [E2 80 8A], [E2 80 A8], [E2 80 A9] and [E2 80 AF];
    U+205F is [E2 81 9F]; U+3000 is [E3 80 80]; U+FEFF is [EF BB BF]. *)
Definition is_space3 (c d e : ascii) : bool :=
  let c := nat_of_ascii c in
  let d := nat_of_ascii d in
  let e := nat_of_ascii e in
  (((c =? 225) && (d =? 154) && (e =? 128))
   || ((c =? 226) && (d =? 128)
       && (((128 <=? e) && (e <=? 138)) || (e =? 168) || (e =? 169) || (e =? 175)))
   || ((c =? 226) && (d =? 129) && (e =? 159))
   || ((c =? 227) && (d =? 128) && (e =? 128))
   || ((c =? 239) && (d =? 187) && (e =? 191)))%nat.

Fixpoint trimStart (s : string) : string :=
  match s with
  | EmptyString => EmptyString
  | String c r =>
      if is_space c then trimStart r
      else
        match r with
        | String d r2 =>
            if is_space2 c d then trimStart r2
            else
              match r2 with
              | String e r3 => if is_space3 c d e then trimStart r3 else s
              | EmptyString => s
              end
        | EmptyString => s
        end
  end.

(** What is left of [s], whose first character is kept when something
    other than white space follows it. *)
Fixpoint trimEnd (s : string) : string :=
  match s with
  | EmptyString => EmptyString
  | String c r =>
      let kept := String c (trimEnd r) in
      let unless_last (rest : string) :=
        match rest with
        | EmptyString => EmptyString
        | _ => kept
        end in
      if is_space c then unless_last (trimEnd r)
      else
        match r with
        | String d r2 =>
            if is_space2 c d then unless_last (trimEnd r2)
            else
              match r2 with
              | String e r3 =>
                  if is_space3 c d e then unless_last (trimEnd r3) else kept
              | EmptyString => kept
              end
        | EmptyString => kept
        end
  end.

Definition trim (s : string) : string := trimEnd (trimStart s).

End Js.

(** ** Rows of the four tables (the Lucid models) *)

Module User.
Record t : Type := mk
  { id : Z;
    fullName : option string;
    email : string;
    password : string }.
End User.

Module Conversation.
Record t : Type := mk
  { id : Z;
    name : option string;
    description : option string;
    createdBy : Z;
    createdAt : Z;
    updatedAt : option Z }.
End Conversation.

Module ConversationParticipant.
Record t : Type := mk
  { id : Z;
    conversationId : Z;
    userId : Z;
    joinedAt : Z;
    createdAt : Z;
    updatedAt : option Z }.
End ConversationParticipant.

Module Message.
Record t : Type := mk
  { id : Z;
    conversationId : Z;
    userId : Z;
    content : string;
    replyToId : option Z;
    editedAt : option Z;
    createdAt : Z;
    updatedAt : option Z }.
End Message.

(** ** The store *)

(** The persistent state: the four tables, in insertion order, and the
    auto-increment sequences of the three tables the handlers insert
    into ([table.increments('id')]). *)
Record Db : Type := mkDb
  { users : list User.t;
    conversations : list Conversation.t;
    conversation_participants : list ConversationParticipant.t;
    messages : list Message.t;
    next_conversation_id : Z;
    next_participant_id : Z;
    next_message_id : Z }.

Definition set_conversations (l : list Conversation.t) (db : Db) : Db :=
  mkDb (users db) l (conversation_participants db) (messages db)
       (next_conversation_id db) (next_participant_id db) (next_message_id db).

Definition set_participants (l : list ConversationParticipant.t) (db : Db) : Db :=
  mkDb (users db) (conversations db) l (messages db)
       (next_conversation_id db) (next_participant_id db) (next_message_id db).

Definition set_messages (l : list Message.t) (db : Db) : Db :=
  mkDb (users db) (conversations db) (conversation_participants db) l
       (next_conversation_id db) (next_participant_id db) (next_message_id db).

(** ** Exceptions and the handler monad *)

(** Errors raised by the persistence layer. *)
Inductive dberror : Type :=
| UniqueViolation        (* a [table.unique] constraint refused an insert *)
| ForeignKeyViolation    (* a [references(..).inTable(..)] constraint did *)
| InvalidTextRepresentation (text : string)
                         (* [text], bound to an integer column, is no integer *)
| NumericValueOutOfRange (* a value bound to an integer column is beyond it *)
| InvalidQuery.          (* an offset or a limit the database refuses *)

(** What a handler can throw. *)
Inductive exn : Type :=
| Error (message : string)          (* [new Error(message)] *)
| E_VALIDATION_ERROR                (* raised by [request.validateUsing] *)
| E_ROW_NOT_FOUND                   (* raised by [findOrFail] *)
| E_INVALID_DATE_COLUMN_VALUE (column : string)
                                    (* raised by [save] on a [dateTime] column
                                       that holds no luxon [DateTime] *)
| DatabaseError (e : dberror).      (* raised by the database driver *)

(** The message of an error of the database.  The driver puts the text
    of the query before it, which holds none of the texts the program
    looks for in a message. *)
Definition dberror_message (e : dberror) : string :=
  match e with
  | UniqueViolation => "duplicate key value violates unique constraint"
  | ForeignKeyViolation => "violates foreign key constraint"
  | InvalidTextRepresentation text =>
      "invalid input syntax for type integer: " ++ text
  | NumericValueOutOfRange => "is out of range for type integer"
  | InvalidQuery => "OFFSET must not be negative"
  end.

(** [error.message] (the quotation marks some messages hold are left
    out) *)
Definition message_of (e : exn) : string :=
  match e with
  | Error message => message
  | E_VALIDATION_ERROR => "Validation failure"
  | E_ROW_NOT_FOUND => "Row not found"
  | E_INVALID_DATE_COLUMN_VALUE column =>
      "The value for " ++ column ++ " must be an instance of luxon.DateTime"
  | DatabaseError e => dberror_message e
  end.

Inductive outcome (A : Type) : Type :=
| Ret (a : A)
| Throw (e : exn).
Arguments Ret {A} a.
Arguments Throw {A} e.

(** A handler step reads and writes the store and returns or throws.
    Writes made before a throw stay: nothing here is transactional unless
    said otherwise. *)
Definition M (A : Type) : Type := Db -> outcome A * Db.

Definition ret {A} (a : A) : M A := fun db => (Ret a, db).

Definition throw {A} (e : exn) : M A := fun db => (Throw e, db).

Definition bind {A B} (m : M A) (k : A -> M B) : M B :=
  fun db =>
    match m db with
    | (Ret a, db') => k a db'
    | (Throw e, db') => (Throw e, db')
    end.

(** [try { m } catch (error) { h error }] *)
Definition try_catch {A} (m : M A) (h : exn -> M A) : M A :=
  fun db =>
    match m db with
    | (Ret a, db') => (Ret a, db')
    | (Throw e, db') => h e db'
    end.

Definition get : M Db := fun db => (Ret db, db).

Definition modify (f : Db -> Db) : M unit := fun db => (Ret tt, f db).

Declare Scope handler_scope.
Delimit Scope handler_scope with handler.
Notation "x <- c1 ;; c2" := (bind c1 (fun x => c2))
  (at level 61, c1 at next level, right associativity) : handler_scope.
Notation "c1 ;; c2" := (bind c1 (fun _ => c2))
  (at level 61, right associativity) : handler_scope.
Local Open Scope handler_scope.

(** [error.message === s] in a catch block *)
Definition message_is (e : exn) (s : string) : bool :=
  String.eqb (message_of e) s.

(** ** Binding values to integer columns *)

(** The ids are columns of 32-bit integers ([increments], [integer]). *)
Definition int4b (n : Z) : bool := (-2147483648 <=? n) && (n <=? 2147483647).

Definition int4 (n : Z) : Prop := -2147483648 <= n <= 2147483647.

(** A route parameter is a string: the database reads it as a decimal
    integer and refuses any other string, and an integer beyond the
    range of the column.  A number that the program holds (the id of
    the user of the session, a column of a row it has read) is a value
    of its column and is bound as it is; the numbers that the body of a
    request brings go through [bind_number] first. *)
Definition sql_int (v : Js.value) : option Z :=
  match v with
  | Js.Num n => Some n
  | Js.Str s =>
      match option_map Z.of_int (NilZero.int_of_string s) with
      | Some n => if int4b n then Some n else None
      | None => None
      end
  end.

(** What the database answers to a value it does not bind. *)
Definition refusal (v : Js.value) : dberror :=
  match v with
  | Js.Num _ => NumericValueOutOfRange
  | Js.Str s =>
      match NilZero.int_of_string s with
      | Some _ => NumericValueOutOfRange
      | None => InvalidTextRepresentation s
      end
  end.

Definition bind_int (v : Js.value) : M Z :=
  match sql_int v with
  | Some n => ret n
  | None => throw (DatabaseError (refusal v))
  end.

(** A field of the body declared [vine.number()] reaches the queries as
    it was sent: no validator bounds it, and the database refuses it when
    it is beyond the range of the column it is compared with.  The stores
    of the model hold their ids in [Z] and are not bounded, while a store
    of the database holds values of its columns only; so the refusal is
    that of a number beyond the range which no row holds ([held]), which
    on a store of the database is every number beyond the range. *)
Definition bound (held : Z -> bool) (n : Z) : bool := int4b n || held n.

Definition bind_number (held : Db -> Z -> bool) (n : Z) : M Js.value :=
  db <- get ;;
  if bound (held db) n then ret (Js.Num n)
  else throw (DatabaseError NumericValueOutOfRange).

(** ** Queries of the models *)

Definition has_conversation (db : Db) (c : Z) : bool :=
  existsb (fun r => Conversation.id r =? c) (conversations db).

Definition has_user (db : Db) (u : Z) : bool :=
  existsb (fun r => User.id r =? u) (users db).

Definition has_message (db : Db) (m : Z) : bool :=
  existsb (fun r => Message.id r =? m) (messages db).

Arguments has_conversation : simpl never.
Arguments has_user : simpl never.
Arguments has_message : simpl never.

(** The rows of [conversation_participants] for one (conversation, user)
    pair. *)
Definition is_pair (c u : Z) (p : ConversationParticipant.t) : bool :=
  (ConversationParticipant.conversationId p =? c)
  && (ConversationParticipant.userId p =? u).

(** [User.find(id)] *)
Definition User_find (id : Js.value) : M (option User.t) :=
  n <- bind_int id ;;
  db <- get ;;
  ret (find (fun r => User.id r =? n) (users db)).

(** [User.query().whereIn('id', ids)], the ids being numbers of the
    body: each is bound to the id column. *)
Definition User_whereIn (ids : list Z) : M (list User.t) :=
  db <- get ;;
  if forallb (bound (has_user db)) ids
  then ret (filter (fun r => existsb (Z.eqb (User.id r)) ids) (users db))
  else throw (DatabaseError NumericValueOutOfRange).

(** [Conversation.find(id)] *)
Definition Conversation_find (id : Js.value) : M (option Conversation.t) :=
  n <- bind_int id ;;
  db <- get ;;
  ret (find (fun r => Conversation.id r =? n) (conversations db)).

(** [Conversation.findOrFail(id)] *)
Definition Conversation_findOrFail (id : Js.value) : M Conversation.t :=
  c <- Conversation_find id ;;
  match c with
  | Some c => ret c
  | None => throw E_ROW_NOT_FOUND
  end.

(** Modelled from the spec: the migration that creates the
    [conversations] table is not among the sources.  The spec (section 3:
    the creator reference is a user) and the database schema of the
    README give the table one reference, [created_by] to [users]. *)
Definition conversation_references_ok (db : Db) (createdBy : Z) : bool :=
  has_user db createdBy.

(** [Conversation.create({ name, description, createdBy })]: the row gets
    the next id of the sequence. *)
Definition Conversation_create (name description : option string)
    (createdBy now : Z) : M Conversation.t :=
  db <- get ;;
  if negb (conversation_references_ok db createdBy)
  then throw (DatabaseError ForeignKeyViolation)
  else
    let row := Conversation.mk (next_conversation_id db) name description
                 createdBy now (Some now) in
    modify (fun db =>
      mkDb (users db) (conversations db ++ [row])
           (conversation_participants db) (messages db)
           (next_conversation_id db + 1) (next_participant_id db)
           (next_message_id db)) ;;
    ret row.

(** Equality of two optional strings. *)
Definition same_text (a b : option string) : bool :=
  match a, b with
  | Some x, Some y => String.eqb x y
  | None, None => true
  | _, _ => false
  end.

(** [$isDirty]: an attribute of the model differs from what was read.
    [merge] sets the name and the description only. *)
Definition dirty (original c : Conversation.t) : bool :=
  negb (same_text (Conversation.name original) (Conversation.name c))
  || negb (same_text (Conversation.description original) (Conversation.description c)).

(** [conversation.save()] after [merge], [original] being the row as it
    was read.  When an attribute differs the row with that id is
    rewritten and its [updatedAt] refreshed ([autoUpdate]); when none
    does, no query is sent and the row stays as it is. *)
Definition Conversation_save (original c : Conversation.t) (now : Z)
  : M Conversation.t :=
  if dirty original c
  then
    let row := Conversation.mk (Conversation.id c) (Conversation.name c)
                 (Conversation.description c) (Conversation.createdBy c)
                 (Conversation.createdAt c) (Some now) in
    modify (fun db =>
      set_conversations
        (map (fun r => if Conversation.id r =? Conversation.id c then row else r)
             (conversations db)) db) ;;
    ret row
  else ret c.

(** [ConversationParticipant.query().where('conversation_id', c)
      .where('user_id', u).first()] *)
Definition ConversationParticipant_first (conversationId userId : Js.value)
  : M (option ConversationParticipant.t) :=
  c <- bind_int conversationId ;;
  u <- bind_int userId ;;
  db <- get ;;
  ret (find (is_pair c u) (conversation_participants db)).

(** [ConversationParticipant.create({ conversationId, userId, joinedAt })],
    under the constraints of the migration: [unique(['conversation_id',
    'user_id'])] and the two foreign keys.  [next_participant_id] counts
    the rows inserted: the value of the sequence that a refused insert
    uses up is not modelled, so after a refused insert the database
    gives the next row a greater id than the model does. *)
Definition ConversationParticipant_create (conversationId : Js.value)
    (userId now : Z) : M ConversationParticipant.t :=
  c <- bind_int conversationId ;;
  db <- get ;;
  if existsb (is_pair c userId) (conversation_participants db)
  then throw (DatabaseError UniqueViolation)
  else if negb (has_conversation db c && has_user db userId)
  then throw (DatabaseError ForeignKeyViolation)
  else
    let row := ConversationParticipant.mk (next_participant_id db) c userId
                 now now (Some now) in
    modify (fun db =>
      mkDb (users db) (conversations db)
           (conversation_participants db ++ [row]) (messages db)
           (next_conversation_id db) (next_participant_id db + 1)
           (next_message_id db)) ;;
    ret row.

Fixpoint createMany_rows (conversationId : Js.value) (userIds : list Z)
    (now : Z) : M (list ConversationParticipant.t) :=
  match userIds with
  | [] => ret []
  | u :: rest =>
      p <- ConversationParticipant_create conversationId u now ;;
      ps <- createMany_rows conversationId rest now ;;
      ret (p :: ps)
  end.

(** [ConversationParticipant.createMany(rows)]: the rows are inserted one
    after the other inside one transaction of the ORM; a failing insert
    undoes the ones before it. *)
Definition ConversationParticipant_createMany (conversationId : Js.value)
    (userIds : list Z) (now : Z) : M (list ConversationParticipant.t) :=
  fun db =>
    match createMany_rows conversationId userIds now db with
    | (Ret ps, db') => (Ret ps, db')
    | (Throw e, _) => (Throw e, db)
    end.

(** [participant.delete()]: [DELETE ... WHERE id = participant.id]. *)
Definition ConversationParticipant_delete (p : ConversationParticipant.t) : M unit :=
  modify (fun db =>
    set_participants
      (filter (fun r => negb (ConversationParticipant.id r =? ConversationParticipant.id p))
              (conversation_participants db)) db).

(** [Message.find(id)] *)
Definition Message_find (id : Js.value) : M (option Message.t) :=
  n <- bind_int id ;;
  db <- get ;;
  ret (find (fun r => Message.id r =? n) (messages db)).

(** Modelled from the spec: the migration that creates the [messages]
    table is not among the sources.  The spec (section 3, and the
    database schema of the README) gives the table three references:
    [conversation_id] to [conversations], [user_id] to [users] and
    [reply_to_id] to [messages]. *)
Definition message_references_ok (db : Db) (c u : Z) (r : option Z) : bool :=
  has_conversation db c && has_user db u
  && match r with Some t => has_message db t | None => true end.

(** [Message.create({ conversationId, userId, content, replyToId })]: the
    row gets the next id of the sequence and the conversation id as the
    database reads it. *)
Definition Message_create (conversationId : Js.value) (userId : Z)
    (content : string) (replyToId : option Z) (now : Z) : M Message.t :=
  c <- bind_int conversationId ;;
  db <- get ;;
  if negb (message_references_ok db c userId replyToId)
  then throw (DatabaseError ForeignKeyViolation)
  else
    let row := Message.mk (next_message_id db) c userId content replyToId
                 None now (Some now) in
    modify (fun db =>
      mkDb (users db) (conversations db) (conversation_participants db)
           (messages db ++ [row])
           (next_conversation_id db) (next_participant_id db)
           (next_message_id db + 1)) ;;
    ret row.

(** What the program assigns to a [dateTime] attribute: a luxon
    [DateTime], or a [Date] of JavaScript. *)
Inductive assigned : Type :=
| LuxonDateTime (t : Z)
| JsDate (t : Z).

(** [message.save()], [editedAt] being what was assigned to
    [message.editedAt] since the row was read, if anything.  The column is
    declared [@column.dateTime()]: before the query is sent its value is
    prepared, and a value that is no luxon [DateTime] is refused with an
    exception.  Otherwise the row with that id is rewritten and its
    [updatedAt] refreshed ([autoUpdate]). *)
Definition Message_save (m : Message.t) (editedAt : option assigned) (now : Z)
  : M Message.t :=
  match editedAt with
  | Some (JsDate _) => throw (E_INVALID_DATE_COLUMN_VALUE "Message.editedAt")
  | _ =>
      let row := Message.mk (Message.id m) (Message.conversationId m)
                   (Message.userId m) (Message.content m) (Message.replyToId m)
                   (match editedAt with
                    | Some (LuxonDateTime t) => Some t
                    | _ => Message.editedAt m
                    end)
                   (Message.createdAt m) (Some now) in
      modify (fun db =>
        set_messages
          (map (fun r => if Message.id r =? Message.id m then row else r)
               (messages db)) db) ;;
      ret row
  end.

(** The reference of a reply to a removed message is cleared. *)
Definition clear_reply (gone : Z -> bool) (r : Message.t) : Message.t :=
  match Message.replyToId r with
  | Some t =>
      if gone t
      then Message.mk (Message.id r) (Message.conversationId r)
             (Message.userId r) (Message.content r) None
             (Message.editedAt r) (Message.createdAt r) (Message.updatedAt r)
      else r
  | None => r
  end.

(** Modelled from the spec: the migration that creates the [messages]
    table is not among the sources.  The spec (section 3) and the design
    notes of the repository ([onDelete('SET NULL')] on [reply_to_id])
    say what the store does when rows of [messages] go: the rows are
    removed and every other row that replied to one of them stays, with
    its reference cleared. *)
Definition delete_messages (gone : Message.t -> bool) (l : list Message.t)
  : list Message.t :=
  let removed := filter gone l in
  map (clear_reply (fun t => existsb (fun r => Message.id r =? t) removed))
      (filter (fun r => negb (gone r)) l).

(** [message.delete()]: [DELETE ... WHERE id = message.id]. *)
Definition Message_delete (m : Message.t) : M unit :=
  modify (fun db =>
    set_messages
      (delete_messages (fun r => Message.id r =? Message.id m) (messages db)) db).

(** Modelled from the spec: the migration that creates the [messages]
    table is not among the sources.  The spec (section 3) says that the
    deletion of a conversation cascades to its messages. *)
Definition cascade_messages (cid : Z) (l : list Message.t) : list Message.t :=
  delete_messages (fun r => Message.conversationId r =? cid) l.

(** [conversation.delete()]: the row goes, and with it its participants
    ([onDelete('CASCADE')] in the participants migration) and its
    messages. *)
Definition Conversation_delete (c : Conversation.t) : M unit :=
  let cid := Conversation.id c in
  modify (fun db =>
    mkDb (users db)
         (filter (fun r => negb (Conversation.id r =? cid)) (conversations db))
         (filter (fun r => negb (ConversationParticipant.conversationId r =? cid))
                 (conversation_participants db))
         (cascade_messages cid (messages db))
         (next_conversation_id db) (next_participant_id db)
         (next_message_id db)).

(** ** The authorization service *)

Module ConversationAuthorizationService.

Definition isParticipant (conversationId : Js.value) (userId : Z) : M bool :=
  participant <- ConversationParticipant_first conversationId (Js.Num userId) ;;
  ret (match participant with Some _ => true | None => false end).

(** [conversation?.createdBy === userId]: [undefined] is no user id. *)
Definition isCreator (conversationId : Js.value) (userId : Z) : M bool :=
  conversation <- Conversation_find conversationId ;;
  ret (match conversation with
       | Some c => Js.strict_eq (Js.Num (Conversation.createdBy c)) (Js.Num userId)
       | None => false
       end).

Definition ensureParticipant (conversationId : Js.value) (userId : Z) : M unit :=
  isParticipant <- isParticipant conversationId userId ;;
  if negb isParticipant
  then throw (Error "User is not a participant in this conversation")
  else ret tt.

Definition ensureCreator (conversationId : Js.value) (userId : Z) : M unit :=
  isCreator <- isCreator conversationId userId ;;
  if negb isCreator
  then throw (Error "User is not the creator of this conversation")
  else ret tt.

Definition getConversationForUser (conversationId : Js.value) (userId : Z)
  : M Conversation.t :=
  conversation <- Conversation_find conversationId ;;
  match conversation with
  | None => throw (Error "Conversation not found")
  | Some c =>
      ensureParticipant conversationId userId ;;
      ret c
  end.

End ConversationAuthorizationService.

(** ** Responses *)

(** [select('id', 'email', 'fullName')] of a user *)
Module UserSummary.
Record t : Type := mk
  { id : Z;
    email : string;
    fullName : option string }.
End UserSummary.

(** [select('id', 'content', 'user_id')] of the message replied to, with
    its preloaded author: one level only. *)
Module ReplySummary.
Record t : Type := mk
  { id : Z;
    content : string;
    userId : Z;
    user : option UserSummary.t }.
End ReplySummary.

(** A relation of a serialized model: absent when it was not loaded,
    [null] when loaded and the referenced row is not there. *)
Inductive relation (A : Type) : Type :=
| NotLoaded
| Loaded (v : option A).
Arguments NotLoaded {A}.
Arguments Loaded {A} v.

Module MessageJson.
Record t : Type := mk
  { row : Message.t;
    user : option UserSummary.t;
    replyTo : relation ReplySummary.t }.
End MessageJson.

Module ConversationJson.
Record t : Type := mk
  { row : Conversation.t;
    creator : option UserSummary.t;
    participants : list (ConversationParticipant.t * option UserSummary.t) }.
End ConversationJson.

(** The result of [paginate(page, limit)]. *)
Module Paginator.
Record t : Type := mk
  { total : Z;
    perPage : Z;
    currentPage : Z;
    data : list MessageJson.t }.
End Paginator.

Inductive body : Type :=
| Empty
| JsonText (message : string)             (* [{ message: '...' }] *)
| JsonMessage (m : MessageJson.t)
| JsonPage (p : Paginator.t)
| JsonConversation (c : ConversationJson.t).

Record response : Type := mkResponse
  { status : Z;
    payload : body }.

Definition ok (b : body) : response := mkResponse 200 b.
Definition created (b : body) : response := mkResponse 201 b.
Definition noContent : response := mkResponse 204 Empty.
Definition badRequest (b : body) : response := mkResponse 400 b.
Definition forbidden (b : body) : response := mkResponse 403 b.
Definition notFound (b : body) : response := mkResponse 404 b.

(** ** Loading relations *)

Definition summary (u : User.t) : UserSummary.t :=
  UserSummary.mk (User.id u) (User.email u) (User.fullName u).

Definition user_summary (db : Db) (userId : Z) : option UserSummary.t :=
  option_map summary (find (fun r => User.id r =? userId) (users db)).

Definition reply_summary (db : Db) (replyToId : option Z) : option ReplySummary.t :=
  match replyToId with
  | None => None
  | Some t =>
      option_map
        (fun m => ReplySummary.mk (Message.id m) (Message.content m)
                    (Message.userId m) (user_summary db (Message.userId m)))
        (find (fun r => Message.id r =? t) (messages db))
  end.

(** [x || null] and [if (x)] on an optional number. *)
Definition or_null (x : option Z) : option Z :=
  match x with
  | Some n => if Js.truthy n then Some n else None
  | None => None
  end.

Arguments or_null : simpl never.

(** [message.load('user', ..)] and, [if (message.replyToId)],
    [message.load('replyTo', ..)] *)
Definition load_message (m : Message.t) : M MessageJson.t :=
  db <- get ;;
  ret (MessageJson.mk m (user_summary db (Message.userId m))
         (match or_null (Message.replyToId m) with
          | Some t => Loaded (reply_summary db (Some t))
          | None => NotLoaded
          end)).

(** [.preload('user', ..).preload('replyTo', ..)] on a query *)
Definition preload_message (db : Db) (m : Message.t) : MessageJson.t :=
  MessageJson.mk m (user_summary db (Message.userId m))
    (Loaded (reply_summary db (Message.replyToId m))).

(** [conversation.load('creator', ..)] and
    [conversation.load('participants', ..)] *)
Definition load_conversation (c : Conversation.t) : M ConversationJson.t :=
  db <- get ;;
  ret (ConversationJson.mk c (user_summary db (Conversation.createdBy c))
         (map (fun p => (p, user_summary db (ConversationParticipant.userId p)))
              (filter (fun p => ConversationParticipant.conversationId p
                                =? Conversation.id c)
                      (conversation_participants db)))).

(** ** Ordering and pagination of messages *)

Fixpoint insert_desc (m : Message.t) (l : list Message.t) : list Message.t :=
  match l with
  | [] => [m]
  | x :: r =>
      if Message.createdAt x <=? Message.createdAt m
      then m :: l
      else x :: insert_desc m r
  end.

(** [.orderBy('created_at', 'desc')].  Rows created at the same time are
    kept in the order of the table; the database leaves their order
    open. *)
Definition orderBy_created_at_desc (l : list Message.t) : list Message.t :=
  fold_right insert_desc [] l.

(** [Message.query().where('conversation_id', c).preload(..)
      .orderBy('created_at', 'desc').paginate(page, limit)]:
    the rows from offset [(page - 1) * limit], at most [limit] of them.
    The database refuses a negative offset or limit, and one beyond its
    64-bit integers. *)
Definition Message_paginate (conversationId : Js.value) (page limit : Z)
  : M Paginator.t :=
  c <- bind_int conversationId ;;
  db <- get ;;
  let rows := orderBy_created_at_desc
                (filter (fun r => Message.conversationId r =? c) (messages db)) in
  if (page <? 1) || (limit <? 0)
     || (9223372036854775807 <? limit)
     || (9223372036854775807 <? (page - 1) * limit)
  then throw (DatabaseError InvalidQuery)
  else
    ret (Paginator.mk (Z.of_nat (List.length rows)) limit page
           (map (preload_message db)
                (firstn (Z.to_nat limit)
                        (skipn (Z.to_nat ((page - 1) * limit)) rows)))).

(** ** Validators *)

Module CreateMessage.
Record t : Type := mk
  { content : string;
    replyToId : option Z }.
End CreateMessage.

Module UpdateMessage.
Record t : Type := mk
  { content : string }.
End UpdateMessage.

Module CreateConversation.
Record t : Type := mk
  { name : option string;
    description : option string;
    participantIds : list Z }.
End CreateConversation.

Module UpdateConversation.
Record t : Type := mk
  { name : option string;
    description : option string }.
End UpdateConversation.

(** [content: vine.string().trim().minLength(1)] *)
Definition valid_content (content : string) : M string :=
  let content := Js.trim content in
  if (String.length content <? 1)%nat then throw E_VALIDATION_ERROR
  else ret content.

Definition createMessageValidator (b : CreateMessage.t) : M CreateMessage.t :=
  content <- valid_content (CreateMessage.content b) ;;
  ret (CreateMessage.mk content (CreateMessage.replyToId b)).

Definition updateMessageValidator (b : UpdateMessage.t) : M UpdateMessage.t :=
  content <- valid_content (UpdateMessage.content b) ;;
  ret (UpdateMessage.mk content).

(** [participantIds: vine.array(vine.number()).minLength(1)] *)
Definition createConversationValidator (b : CreateConversation.t)
  : M CreateConversation.t :=
  if (List.length (CreateConversation.participantIds b) <? 1)%nat
  then throw E_VALIDATION_ERROR
  else ret b.

Definition updateConversationValidator (b : UpdateConversation.t)
  : M UpdateConversation.t := ret b.

(** ** The exception handler ([app/exceptions/handler.ts]) *)

(** What the framework answers to an error the handler does not know. *)
Definition internalServerError : response := mkResponse 500 Empty.

(** [if (error instanceof Error)]: the answer is chosen by what the
    message holds. *)
Definition by_message (message : string) : response :=
  if Js.includes message "not found"
  then mkResponse 404 (JsonText message)
  else if Js.includes message "not a participant"
          || Js.includes message "not the creator"
  then mkResponse 403 (JsonText message)
  else if Js.includes message "can only"
  then mkResponse 403 (JsonText message)
  else internalServerError.

(** The errors of the validator and of [findOrFail] are known by their
    class and their code; every other error is an [Error], those of the
    ORM and of the database driver too, and is answered by its
    message. *)
Definition handle (error : exn) : response :=
  match error with
  | E_VALIDATION_ERROR => mkResponse 422 (JsonText "Validation failed")
  | E_ROW_NOT_FOUND => mkResponse 404 (JsonText "Resource not found")
  | _ => by_message (message_of error)
  end.

(** A request: the route's handler runs and what it throws goes to the
    exception handler. *)
Definition serve (h : M response) (db : Db) : response * Db :=
  match h db with
  | (Ret r, db') => (r, db')
  | (Throw e, db') => (handle e, db')
  end.

(** ** Answers with a body of their own *)

(** [select('id', 'name')] of a conversation *)
Module ConversationSummary.
Record t : Type := mk
  { id : Z;
    name : option string }.
End ConversationSummary.

(** A message as [GET /messages/:id] serializes it: with its author, its
    conversation and, when it is a reply, the message replied to. *)
Module MessageDetail.
Record t : Type := mk
  { message : MessageJson.t;
    conversation : option ConversationSummary.t }.
End MessageDetail.

(** What a handler answers when its body on success is a value of type
    [A]: that value with its status, or one of the plain responses. *)
Inductive answer (A : Type) : Type :=
| Json (status : Z) (payload : A)
| Plain (r : response).
Arguments Json {A} status payload.
Arguments Plain {A} r.

(** A request to such a handler. *)
Definition serve_answer {A} (h : M (answer A)) (db : Db) : answer A * Db :=
  match h db with
  | (Ret a, db') => (a, db')
  | (Throw e, db') => (Plain (handle e), db')
  end.

(** [preload('creator', ..)] and [preload('participants', ..)] on a query
    of conversations: what [load] gives on one conversation. *)
Definition conversation_json (db : Db) (c : Conversation.t) : ConversationJson.t :=
  ConversationJson.mk c (user_summary db (Conversation.createdBy c))
    (map (fun p => (p, user_summary db (ConversationParticipant.userId p)))
         (filter (fun p => ConversationParticipant.conversationId p
                           =? Conversation.id c)
                 (conversation_participants db))).

Fixpoint insert_conversation_desc (c : Conversation.t) (l : list Conversation.t)
  : list Conversation.t :=
  match l with
  | [] => [c]
  | x :: r =>
      if Conversation.createdAt x <=? Conversation.createdAt c
      then c :: l
      else x :: insert_conversation_desc c r
  end.

(** [.orderBy('created_at', 'desc')] on conversations; rows created at
    the same time are kept in the order of the table. *)
Definition orderBy_conversation_created_at_desc (l : list Conversation.t)
  : list Conversation.t :=
  fold_right insert_conversation_desc [] l.

(** [.whereHas('participants', (query) => query.where('user_id', u))]:
    the conversation has a roster row of the user. *)
Definition has_participant (db : Db) (u : Z) (c : Conversation.t) : bool :=
  existsb (fun p => (ConversationParticipant.conversationId p =? Conversation.id c)
                    && (ConversationParticipant.userId p =? u))
          (conversation_participants db).

(** ** The message controller *)

Module MessageController.

Import ConversationAuthorizationService.

(** The [catch] block shared by the handlers that call
    [ensureParticipant]. *)
Definition not_participant_catch (error : exn) : M response :=
  if message_is error "User is not a participant in this conversation"
  then ret (forbidden (JsonText "You are not a participant in this conversation"))
  else throw error.

(** [page] and [limit] are [request.input('page', 1)] and
    [request.input('limit', 50)], as numbers. *)
Definition index (user : User.t) (conversationId : Js.value)
    (page limit : option Z) : M response :=
  try_catch
    (ensureParticipant conversationId (User.id user) ;;
     let page := match page with Some p => p | None => 1 end in
     let limit := match limit with Some l => l | None => 50 end in
     messages <- Message_paginate conversationId page limit ;;
     ret (ok (JsonPage messages)))
    not_participant_catch.

(** The check of the reply target: [Some] response when the handler
    returns early, [None] when it goes on to the insert. *)
Definition check_reply (conversationId : Js.value) (replyToId : option Z)
  : M (option response) :=
  match or_null replyToId with
  | Some r =>
      id <- bind_number has_message r ;;
      replyToMessage <- Message_find id ;;
      match replyToMessage with
      | None => ret (Some (notFound (JsonText "Message to reply to not found")))
      | Some m =>
          if Js.strict_neq (Js.Num (Message.conversationId m)) conversationId
          then ret (Some (badRequest
                 (JsonText "Cannot reply to a message from a different conversation")))
          else ret None
      end
  | None => ret None
  end.

Definition store (user : User.t) (conversationId : Js.value)
    (body : CreateMessage.t) (now : Z) : M response :=
  payload <- createMessageValidator body ;;
  try_catch
    (ensureParticipant conversationId (User.id user) ;;
     early <- check_reply conversationId (CreateMessage.replyToId payload) ;;
     match early with
     | Some r => ret r
     | None =>
         message <- Message_create conversationId (User.id user)
                      (CreateMessage.content payload)
                      (or_null (CreateMessage.replyToId payload)) now ;;
         json <- load_message message ;;
         ret (created (JsonMessage json))
     end)
    not_participant_catch.

(** [message.content = payload.content], [message.editedAt = new Date()]
    and [message.save()]: what is assigned to [editedAt] is a [Date] of
    JavaScript. *)
Definition update (user : User.t) (messageId : Js.value)
    (body : UpdateMessage.t) (now : Z) : M response :=
  payload <- updateMessageValidator body ;;
  message <- Message_find messageId ;;
  match message with
  | None => ret (notFound (JsonText "Message not found"))
  | Some m =>
      if Js.strict_neq (Js.Num (Message.userId m)) (Js.Num (User.id user))
      then ret (forbidden (JsonText "You can only edit your own messages"))
      else
        let m' := Message.mk (Message.id m) (Message.conversationId m)
                    (Message.userId m) (UpdateMessage.content payload)
                    (Message.replyToId m) (Message.editedAt m)
                    (Message.createdAt m) (Message.updatedAt m) in
        saved <- Message_save m' (Some (JsDate now)) now ;;
        json <- load_message saved ;;
        ret (ok (JsonMessage json))
  end.

Definition destroy (user : User.t) (messageId : Js.value) : M response :=
  message <- Message_find messageId ;;
  match message with
  | None => ret (notFound (JsonText "Message not found"))
  | Some m =>
      if Js.strict_neq (Js.Num (Message.userId m)) (Js.Num (User.id user))
      then ret (forbidden (JsonText "You can only delete your own messages"))
      else
        Message_delete m ;;
        ret noContent
  end.

(** [message.load('conversation', ..)] with [select('id', 'name')] *)
Definition conversation_summary (db : Db) (conversationId : Z)
  : option ConversationSummary.t :=
  option_map (fun c => ConversationSummary.mk (Conversation.id c) (Conversation.name c))
             (find (fun r => Conversation.id r =? conversationId) (conversations db)).

Definition show (user : User.t) (messageId : Js.value) : M (answer MessageDetail.t) :=
  message <- Message_find messageId ;;
  match message with
  | None => ret (Plain (notFound (JsonText "Message not found")))
  | Some m =>
      try_catch
        (ensureParticipant (Js.Num (Message.conversationId m)) (User.id user) ;;
         json <- load_message m ;;
         db <- get ;;
         ret (Json 200
                (MessageDetail.mk json
                   (conversation_summary db (Message.conversationId m)))))
        (fun error =>
           if message_is error "User is not a participant in this conversation"
           then ret (Plain (forbidden
                  (JsonText "You are not a participant in this conversation")))
           else throw error)
  end.

End MessageController.

(** ** The conversation controller *)

Module ConversationController.

Import ConversationAuthorizationService.

(** [payload.participantIds.filter((id) => id !== user.id)] *)
Definition others (user : User.t) (participantIds : list Z) : list Z :=
  filter (fun id => Js.strict_neq (Js.Num id) (Js.Num (User.id user)))
         participantIds.

Definition store (user : User.t) (body : CreateConversation.t) (now : Z)
  : M response :=
  payload <- createConversationValidator body ;;
  conversation <- Conversation_create (CreateConversation.name payload)
                    (CreateConversation.description payload)
                    (User.id user) now ;;
  ConversationParticipant_create (Js.Num (Conversation.id conversation))
    (User.id user) now ;;
  let participantIds := others user (CreateConversation.participantIds payload) in
  early <- (if (0 <? List.length participantIds)%nat
            then
              users <- User_whereIn participantIds ;;
              if negb (List.length users =? List.length participantIds)%nat
              then ret (Some (badRequest
                     (JsonText "One or more participant IDs are invalid")))
              else
                ConversationParticipant_createMany
                  (Js.Num (Conversation.id conversation)) participantIds now ;;
                ret None
            else ret None) ;;
  match early with
  | Some r => ret r
  | None =>
      json <- load_conversation conversation ;;
      ret (created (JsonConversation json))
  end.

(** [conversation.merge(payload)]: only the fields given are set. *)
Definition merge (c : Conversation.t) (p : UpdateConversation.t) : Conversation.t :=
  Conversation.mk (Conversation.id c)
    (match UpdateConversation.name p with
     | Some n => Some n
     | None => Conversation.name c
     end)
    (match UpdateConversation.description p with
     | Some d => Some d
     | None => Conversation.description c
     end)
    (Conversation.createdBy c) (Conversation.createdAt c)
    (Conversation.updatedAt c).

Definition update (user : User.t) (conversationId : Js.value)
    (body : UpdateConversation.t) (now : Z) : M response :=
  payload <- updateConversationValidator body ;;
  try_catch
    (ensureCreator conversationId (User.id user) ;;
     conversation <- Conversation_findOrFail conversationId ;;
     saved <- Conversation_save conversation (merge conversation payload) now ;;
     json <- load_conversation saved ;;
     ret (ok (JsonConversation json)))
    (fun error =>
       if message_is error "User is not the creator of this conversation"
       then ret (forbidden (JsonText "Only the creator can update this conversation"))
       else throw error).

Definition destroy (user : User.t) (conversationId : Js.value) : M response :=
  try_catch
    (ensureCreator conversationId (User.id user) ;;
     conversation <- Conversation_findOrFail conversationId ;;
     Conversation_delete conversation ;;
     ret noContent)
    (fun error =>
       if message_is error "User is not the creator of this conversation"
       then ret (forbidden (JsonText "Only the creator can delete this conversation"))
       else throw error).

Definition not_participant_catch (error : exn) : M response :=
  if message_is error "User is not a participant in this conversation"
  then ret (forbidden (JsonText "You are not a participant in this conversation"))
  else throw error.

Definition addParticipant (user : User.t) (conversationId : Js.value)
    (userId now : Z) : M response :=
  try_catch
    (ensureParticipant conversationId (User.id user) ;;
     id <- bind_number has_user userId ;;
     existingParticipant <- ConversationParticipant_first conversationId id ;;
     match existingParticipant with
     | Some _ => ret (badRequest (JsonText "User is already a participant"))
     | None =>
         targetUser <- User_find id ;;
         match targetUser with
         | None => ret (notFound (JsonText "User not found"))
         | Some _ =>
             ConversationParticipant_create conversationId userId now ;;
             ret (ok (JsonText "Participant added successfully"))
         end
     end)
    not_participant_catch.

Definition removeParticipant (user : User.t) (conversationId userId : Js.value)
  : M response :=
  try_catch
    (ensureParticipant conversationId (User.id user) ;;
     participant <- ConversationParticipant_first conversationId userId ;;
     match participant with
     | None => ret (notFound (JsonText "Participant not found"))
     | Some p =>
         ConversationParticipant_delete p ;;
         ret (ok (JsonText "Participant removed successfully"))
     end)
    not_participant_catch.

(** The conversations that have a roster row of the user, newest-created
    first, each with its creator and its roster. *)
Definition index (user : User.t) : M (answer (list ConversationJson.t)) :=
  db <- get ;;
  ret (Json 200
         (map (conversation_json db)
              (orderBy_conversation_created_at_desc
                 (filter (has_participant db (User.id user)) (conversations db))))).

Definition show (user : User.t) (conversationId : Js.value) : M response :=
  try_catch
    (conversation <- getConversationForUser conversationId (User.id user) ;;
     json <- load_conversation conversation ;;
     ret (ok (JsonConversation json)))
    (fun error =>
       if message_is error "Conversation not found"
       then ret (notFound (JsonText "Conversation not found"))
       else if message_is error "User is not a participant in this conversation"
       then ret (forbidden (JsonText "You are not a participant in this conversation"))
       else throw error).

End ConversationController.

(** ** The routes ([start/routes.ts]) *)

Module Router.

(** A request to one of the routes of the group behind the [auth]
    middleware: the parameters of its path and what its body or its
    query string holds. *)
Inductive request : Type :=
| GetConversations
| PostConversations (body : CreateConversation.t)
| GetConversation (id : Js.value)
| PutConversation (id : Js.value) (body : UpdateConversation.t)
| DeleteConversation (id : Js.value)
| PostParticipants (id : Js.value) (userId : Z)
| DeleteParticipant (id userId : Js.value)
| GetMessages (id : Js.value) (page limit : option Z)
| PostMessages (id : Js.value) (body : CreateMessage.t)
| GetMessage (id : Js.value)
| PutMessage (id : Js.value) (body : UpdateMessage.t)
| DeleteMessage (id : Js.value).

(** What is sent back. *)
Inductive reply : Type :=
| Response (r : response)
| Conversations (a : answer (list ConversationJson.t))
| Detail (a : answer MessageDetail.t).

Definition status_of (r : reply) : Z :=
  match r with
  | Response r => status r
  | Conversations (Json s _) => s
  | Conversations (Plain r) => status r
  | Detail (Json s _) => s
  | Detail (Plain r) => status r
  end.

(** The handler of the route, called for the user the middleware found,
    at time [now]. *)
Definition handler (user : User.t) (now : Z) (q : request) : M reply :=
  match q with
  | GetConversations =>
      a <- ConversationController.index user ;; ret (Conversations a)
  | PostConversations body =>
      r <- ConversationController.store user body now ;; ret (Response r)
  | GetConversation id =>
      r <- ConversationController.show user id ;; ret (Response r)
  | PutConversation id body =>
      r <- ConversationController.update user id body now ;; ret (Response r)
  | DeleteConversation id =>
      r <- ConversationController.destroy user id ;; ret (Response r)
  | PostParticipants id userId =>
      r <- ConversationController.addParticipant user id userId now ;; ret (Response r)
  | DeleteParticipant id userId =>
      r <- ConversationController.removeParticipant user id userId ;; ret (Response r)
  | GetMessages id page limit =>
      r <- MessageController.index user id page limit ;; ret (Response r)
  | PostMessages id body =>
      r <- MessageController.store user id body now ;; ret (Response r)
  | GetMessage id =>
      a <- MessageController.show user id ;; ret (Detail a)
  | PutMessage id body =>
      r <- MessageController.update user id body now ;; ret (Response r)
  | DeleteMessage id =>
      r <- MessageController.destroy user id ;; ret (Response r)
  end.

(** A request is served: what its handler throws goes to the exception
    handler. *)
Definition dispatch (user : User.t) (now : Z) (q : request) (db : Db) : reply * Db :=
  match handler user now q db with
  | (Ret r, db') => (r, db')
  | (Throw e, db') => (Response (handle e), db')
  end.

(** Requests served one after the other, each for its user and at its
    time. *)
Fixpoint dispatch_all (qs : list (User.t * Z * request)) (db : Db) : Db :=
  match qs with
  | [] => db
  | (user, now, q) :: rest => dispatch_all rest (snd (dispatch user now q db))
  end.

(** The routes that read: the [GET] ones. *)
Definition reads (q : request) : bool :=
  match q with
  | GetConversations | GetConversation _ | GetMessages _ _ _ | GetMessage _ => true
  | _ => false
  end.

End Router.

(** ** Concurrent requests to add a participant *)

(** The handlers run on one thread and give way to one another at every
    [await]: a request is a sequence of steps, one query each, and the
    steps of two requests in flight interleave in any order.  A query is
    one atomic access to the store. *)
Module Concurrent.

Import ConversationAuthorizationService.

(** Where a request of [addParticipant] stands: before one of its four
    queries, or answered; an answered request remembers whether it got
    as far as the insert. *)
Inductive stage : Type :=
| AtEnsure
| AtExisting
| AtFind
| AtInsert
| Answered (r : response) (inserting : bool).

(** The request ends on what the [try] block threw: its [catch] block
    runs, and what that throws goes to the exception handler. *)
Definition thrown (inserting : bool) (e : exn) (db : Db) : stage * Db :=
  let (r, db') := serve (ConversationController.not_participant_catch e) db in
  (Answered r inserting, db').

(** One step of a request: the query it stands before, and the code of
    [addParticipant] up to the next query. *)
Definition step (user : User.t) (conversationId : Js.value) (userId now : Z)
    (s : stage) (db : Db) : stage * Db :=
  match s with
  | AtEnsure =>
      match ensureParticipant conversationId (User.id user) db with
      | (Ret _, db') => (AtExisting, db')
      | (Throw e, db') => thrown false e db'
      end
  | AtExisting =>
      match (id <- bind_number has_user userId ;;
             ConversationParticipant_first conversationId id) db with
      | (Ret (Some _), db') =>
          (Answered (badRequest (JsonText "User is already a participant")) false, db')
      | (Ret None, db') => (AtFind, db')
      | (Throw e, db') => thrown false e db'
      end
  | AtFind =>
      match User_find (Js.Num userId) db with
      | (Ret None, db') => (Answered (notFound (JsonText "User not found")) false, db')
      | (Ret (Some _), db') => (AtInsert, db')
      | (Throw e, db') => thrown false e db'
      end
  | AtInsert =>
      match ConversationParticipant_create conversationId userId now db with
      | (Ret _, db') =>
          (Answered (ok (JsonText "Participant added successfully")) true, db')
      | (Throw e, db') => thrown true e db'
      end
  | Answered r inserting => (Answered r inserting, db)
  end.

(** The four steps of one request, one after the other. *)
Definition alone (user : User.t) (conversationId : Js.value) (userId now : Z)
    (db : Db) : stage * Db :=
  let (s1, db1) := step user conversationId userId now AtEnsure db in
  let (s2, db2) := step user conversationId userId now s1 db1 in
  let (s3, db3) := step user conversationId userId now s2 db2 in
  step user conversationId userId now s3 db3.

(** Two requests to add the same user to the same conversation.  The
    schedule says whose step is next: [true] for the first request,
    [false] for the second. *)
Fixpoint run (user1 user2 : User.t) (conversationId : Js.value)
    (userId now1 now2 : Z) (schedule : list bool) (s1 s2 : stage) (db : Db)
  : stage * stage * Db :=
  match schedule with
  | [] => (s1, s2, db)
  | true :: rest =>
      let (s1', db') := step user1 conversationId userId now1 s1 db in
      run user1 user2 conversationId userId now1 now2 rest s1' s2 db'
  | false :: rest =>
      let (s2', db') := step user2 conversationId userId now2 s2 db in
      run user1 user2 conversationId userId now1 now2 rest s1 s2' db'
  end.

(** The checks of both requests, then the insert of both. *)
Definition checks_first : list bool :=
  [true; true; true; false; false; false; true; false].

End Concurrent.

(** ** A small store used in the examples *)

Module Sample.

Definition alice : User.t := User.mk 1 (Some "Alice") "alice@example.com" "h1".
Definition bob : User.t := User.mk 2 (Some "Bob") "bob@example.com" "h2".
Definition carol : User.t := User.mk 3 None "carol@example.com" "h3".

Definition hello : Message.t := Message.mk 1 1 1 "hello" None None 100 (Some 100).
Definition other : Message.t := Message.mk 2 2 3 "other" None None 110 (Some 110).

(** Conversation 1 (created by Alice) has Alice and Bob; conversation 2
    (created by Bob) has Bob and Carol. *)
Definition db : Db :=
  mkDb [alice; bob; carol]
       [Conversation.mk 1 (Some "X") None 1 10 (Some 10);
        Conversation.mk 2 (Some "Y") None 2 20 (Some 20)]
       [ConversationParticipant.mk 1 1 1 10 10 (Some 10);
        ConversationParticipant.mk 2 1 2 10 10 (Some 10);
        ConversationParticipant.mk 3 2 2 20 20 (Some 20);
        ConversationParticipant.mk 4 2 3 20 20 (Some 20)]
       [hello; other]
       3 5 3.

End Sample.

(** * Vocabulary of the properties *)

(** ** What holds of a store *)

(** A Participant row exists for the pair. *)
Definition participant (db : Db) (c u : Z) : bool :=
  existsb (is_pair c u) (conversation_participants db).

(** The number of Participant rows of a (conversation, user) pair. *)
Definition rows_of (db : Db) (c u : Z) : nat :=
  List.length (filter (is_pair c u) (conversation_participants db)).

Definition pair_of (p : ConversationParticipant.t) : Z * Z :=
  (ConversationParticipant.conversationId p, ConversationParticipant.userId p).

(** What the participants migration guarantees of the table: [id] is its
    primary key and [(conversation_id, user_id)] is unique. *)
Definition participants_unique (db : Db) : Prop :=
  NoDup (map ConversationParticipant.id (conversation_participants db))
  /\ NoDup (map pair_of (conversation_participants db)).

(** User ids are a primary key. *)
Definition users_unique (db : Db) : Prop := NoDup (map User.id (users db)).

(** Every roster row references a conversation
    ([references('id').inTable('conversations')]). *)
Definition roster_references (db : Db) : Prop :=
  Forall (fun p => has_conversation db (ConversationParticipant.conversationId p) = true)
         (conversation_participants db).

(** The ids of the conversations all come from the sequence. *)
Definition conversation_ids_issued (db : Db) : Prop :=
  Forall (fun r => Conversation.id r < next_conversation_id db) (conversations db).

(** The ids of the roster rows all come from the sequence. *)
Definition participant_ids_issued (db : Db) : Prop :=
  Forall (fun p => ConversationParticipant.id p < next_participant_id db)
         (conversation_participants db).

(** The invariants of the store the properties below rely on. *)
Definition store_ok (db : Db) : Prop :=
  participants_unique db /\ participant_ids_issued db /\ users_unique db
  /\ roster_references db /\ conversation_ids_issued db.

(** A step that keeps a property of the store, whatever it returns or
    throws. *)
Definition keeps (P : Db -> Prop) {A} (m : M A) : Prop :=
  forall db, P db -> P (snd (m db)).

(** ** What holds of a request *)

(** The content passes [trim().minLength(1)]. *)
Definition content_ok (content : string) : Prop :=
  (1 <= String.length (Js.trim content))%nat.

(** ** Rows and stores written by the handlers *)

(** A message with its reply reference cleared. *)
Definition unthreaded (r : Message.t) : Message.t :=
  Message.mk (Message.id r) (Message.conversationId r) (Message.userId r)
    (Message.content r) None (Message.editedAt r) (Message.createdAt r)
    (Message.updatedAt r).






(** The row written by [addParticipant], and the store with it. *)
Definition added_row (db : Db) (c t now : Z) : ConversationParticipant.t :=
  ConversationParticipant.mk (next_participant_id db) c t now now (Some now).

Definition after_add (db : Db) (c t now : Z) : Db :=
  mkDb (users db) (conversations db)
       (conversation_participants db ++ [added_row db c t now]) (messages db)
       (next_conversation_id db) (next_participant_id db + 1) (next_message_id db).

(** ** Two requests in flight *)

Definition added : response := ok (JsonText "Participant added successfully").

Definition already_participant : response :=
  badRequest (JsonText "User is already a participant").

(** The request has not been answered yet. *)
Definition waiting (s : Concurrent.stage) : bool :=
  match s with
  | Concurrent.Answered _ _ => false
  | _ => true
  end.

(** Where a request goes from [s] while the user is not in the roster,
    and once the other request has put the user there. *)
Definition next_before (s : Concurrent.stage) : Concurrent.stage :=
  match s with
  | Concurrent.AtEnsure => Concurrent.AtExisting
  | Concurrent.AtExisting => Concurrent.AtFind
  | Concurrent.AtFind => Concurrent.AtInsert
  | Concurrent.AtInsert => Concurrent.Answered added true
  | Concurrent.Answered r b => Concurrent.Answered r b
  end.

Definition next_after (s : Concurrent.stage) : Concurrent.stage :=
  match s with
  | Concurrent.AtEnsure => Concurrent.AtExisting
  | Concurrent.AtExisting => Concurrent.Answered already_participant false
  | Concurrent.AtFind => Concurrent.AtInsert
  | Concurrent.AtInsert => Concurrent.Answered internalServerError true
  | Concurrent.Answered r b => Concurrent.Answered r b
  end.

(** The request that did not insert first: still on its way, or refused
    by its own check, or refused by the insert. *)
Definition lost (s : Concurrent.stage) : Prop :=
  waiting s = true
  \/ s = Concurrent.Answered already_participant false
  \/ s = Concurrent.Answered internalServerError true.

(** What holds at every moment of a run of two requests that add user
    [t] to conversation [c], started on [db]: nothing is written yet and
    both are on their way, or one has inserted its row and the other has
    lost. *)
Definition race_invariant (db : Db) (c t now1 now2 : Z)
    (s1 s2 : Concurrent.stage) (d : Db) : Prop :=
  (d = db /\ waiting s1 = true /\ waiting s2 = true)
  \/ (d = after_add db c t now1 /\ s1 = Concurrent.Answered added true /\ lost s2)
  \/ (d = after_add db c t now2 /\ s2 = Concurrent.Answered added true /\ lost s1).

(** ** The listing of a conversation *)

(** Newest-created first. *)
Definition newer_first (a b : Message.t) : Prop :=
  Message.createdAt b <= Message.createdAt a.

(** The messages of a conversation, in the order of the listing. *)
Definition listing (db : Db) (c : Z) : list Message.t :=
  orderBy_created_at_desc
    (filter (fun r => Message.conversationId r =? c) (messages db)).

(** ** More stores used in the examples *)

Module AuthorLeft.

(** The sample store after Alice, the author of message 1, has left
    conversation 1. *)
Definition db : Db :=
  snd (ConversationController.removeParticipant Sample.alice
         (Js.Str "1") (Js.Str "1") Sample.db).

End AuthorLeft.

Module Thread.

(** Bob's reply to message 1, added to the sample store. *)
Definition reply : Message.t :=
  Message.mk 3 1 2 "hi Alice" (Some 1) None 120 (Some 120).

Definition db : Db :=
  mkDb (users Sample.db) (conversations Sample.db)
       (conversation_participants Sample.db)
       (messages Sample.db ++ [reply]) 3 5 4.

End Thread.

Module Busy.

(** Message [i] of conversation 1, created at time [1000 + i], written
    by Alice and Bob in turn. *)
Definition message (i : nat) : Message.t :=
  Message.mk (Z.of_nat i) 1 (if Nat.even i then 2 else 1) "m" None None
    (1000 + Z.of_nat i) (Some (1000 + Z.of_nat i)).

(** The sample store with 120 messages in conversation 1 and one in
    conversation 2. *)
Definition db : Db :=
  mkDb (users Sample.db) (conversations Sample.db)
       (conversation_participants Sample.db)
       (map message (seq 1 60)
        ++ [Message.mk 121 2 3 "other" None None 1030 (Some 1030)]
        ++ map message (seq 61 60))
       3 5 122.

(** The ids of the messages of a page. *)
Definition ids (o : outcome response * Db) : list Z :=
  match fst o with
  | Ret (mkResponse _ (JsonPage p)) =>
      map (fun j => Message.id (MessageJson.row j)) (Paginator.data p)
  | _ => []
  end.

End Busy.

(** ** Rows written by the handlers of a conversation *)

(** The fields of [patch] change something of [c]. *)
Definition changes (c : Conversation.t) (patch : UpdateConversation.t) : bool :=
  dirty c (ConversationController.merge c patch).

(** The row after a successful update of [c] with the fields of [patch]:
    rewritten at time [now] when they change something, and as it was
    otherwise. *)
Definition updated (c : Conversation.t) (patch : UpdateConversation.t) (now : Z)
  : Conversation.t :=
  let merged := ConversationController.merge c patch in
  if changes c patch
  then Conversation.mk (Conversation.id c) (Conversation.name merged)
         (Conversation.description merged) (Conversation.createdBy c)
         (Conversation.createdAt c) (Some now)
  else merged.

(** The store after that update. *)
Definition after_update (db : Db) (c : Conversation.t) (patch : UpdateConversation.t)
    (now : Z) : Db :=
  if changes c patch
  then set_conversations
         (map (fun r => if Conversation.id r =? Conversation.id c
                        then updated c patch now else r)
              (conversations db)) db
  else db.

(** ** Rows written by the handlers of a message *)




(** The content does not pass [trim().minLength(1)]. *)
Definition blank (content : string) : Prop :=
  String.length (Js.trim content) = 0%nat.

(** ** The list of the conversations of a user *)

(** Newest-created first. *)
Definition newer_conversation_first (a b : Conversation.t) : Prop :=
  Conversation.createdAt b <= Conversation.createdAt a.

(** ** What holds of a handler *)

(** The exceptions a step lets out all are of the kind [Q]. *)
Definition escapes (Q : exn -> Prop) {A} (m : M A) : Prop :=
  forall db e db', m db = (Throw e, db') -> Q e.

(** An exception that is not one of the [Error]s the authorization
    service throws. *)
Definition not_of_service (e : exn) : Prop :=
  match e with
  | Error _ => False
  | _ => True
  end.

(** A step that writes nothing. *)
Definition unchanged {A} (m : M A) : Prop :=
  forall db, snd (m db) = db.

(** A step that writes nothing when it throws or returns an answer of
    status 400 or more, [st] being the status of what it returns. *)
Definition clean {A} (st : A -> Z) (m : M A) : Prop :=
  forall db,
    match m db with
    | (Ret a, db') => 400 <= st a -> db' = db
    | (Throw _, db') => db' = db
    end.

(** A step that returns, with a status under 400. *)
Definition succeeds {A} (st : A -> Z) (m : M A) : Prop :=
  forall db, exists a db', m db = (Ret a, db') /\ st a < 400.

(** An exception that is not of the service, or an [Error] of the
    service with one of the messages [ms]. *)
Definition service_or (ms : list string) (e : exn) : Prop :=
  not_of_service e \/ exists m, In m ms /\ e = Error m.


(** [Number.MAX_SAFE_INTEGER]: up to it a JavaScript number is an exact
    integer, written in digits when it is sent to the database. *)
Definition MAX_SAFE_INTEGER : Z := 9007199254740991.

(** No number of the list occurs twice. *)
Fixpoint distinct (l : list Z) : bool :=
  match l with
  | [] => true
  | x :: r => negb (existsb (Z.eqb x) r) && distinct r
  end.

(** * Properties *)

(** ** Running the steps of a handler *)

Lemma find_is_existsb {A} (f : A -> bool) (l : list A) :
  match find f l with Some _ => true | None => false end = existsb f l.
Proof.
  induction l as [|x l IH]; simpl; [reflexivity|].
  destruct (f x); simpl; [reflexivity | exact IH].
Qed.

Lemma find_message_id (n : Z) (l : list Message.t) (m : Message.t) :
  find (fun r => Message.id r =? n) l = Some m -> Message.id m = n.
Proof.
  intros H. apply find_some in H. destruct H as [_ H].
  now apply Z.eqb_eq in H.
Qed.

Lemma bind_int_run (v : Js.value) (n : Z) (db : Db) :
  sql_int v = Some n -> bind_int v db = (Ret n, db).
Proof. intros H. unfold bind_int. now rewrite H. Qed.

Lemma int4b_spec (n : Z) : int4b n = true <-> int4 n.
Proof. unfold int4b, int4. rewrite andb_true_iff, !Z.leb_le. tauto. Qed.

Lemma int4_of_b (n : Z) : int4b n = true -> int4 n.
Proof. apply int4b_spec. Qed.

Lemma bound_int4 (held : Z -> bool) (n : Z) : int4 n -> bound held n = true.
Proof. intros H. unfold bound. now rewrite (proj2 (int4b_spec n) H). Qed.

Lemma bound_held (held : Z -> bool) (n : Z) : held n = true -> bound held n = true.
Proof. intros H. unfold bound. rewrite H. apply orb_true_r. Qed.

Lemma bind_number_run (held : Db -> Z -> bool) (n : Z) (db : Db) :
  bound (held db) n = true ->
  bind_number held n db = (Ret (Js.Num n), db).
Proof. intros H. unfold bind_number, bind, get, ret. now rewrite H. Qed.

Lemma bind_number_refused (held : Db -> Z -> bool) (n : Z) (db : Db) :
  bound (held db) n = false ->
  bind_number held n db = (Throw (DatabaseError NumericValueOutOfRange), db).
Proof. intros H. unfold bind_number, bind, get, throw. now rewrite H. Qed.

(** A message that is found is held by the table. *)
Lemma found_message_held (db : Db) (r : Z) (m : Message.t) :
  find (fun x => Message.id x =? r) (messages db) = Some m ->
  has_message db r = true.
Proof.
  intros H. unfold has_message. apply existsb_exists. exists m.
  apply find_some in H. exact H.
Qed.

Lemma bind_ret_run {A B} (m : M A) (k : A -> M B) (db db' : Db) (a : A) :
  m db = (Ret a, db') -> bind m k db = k a db'.
Proof. intros H. unfold bind. now rewrite H. Qed.

Lemma bind_throw_run {A B} (m : M A) (k : A -> M B) (db db' : Db) (e : exn) :
  m db = (Throw e, db') -> bind m k db = (Throw e, db').
Proof. intros H. unfold bind. now rewrite H. Qed.

Lemma try_ret_run {A} (m : M A) (h : exn -> M A) (db db' : Db) (a : A) :
  m db = (Ret a, db') -> try_catch m h db = (Ret a, db').
Proof. intros H. unfold try_catch. now rewrite H. Qed.

Lemma try_throw_run {A} (m : M A) (h : exn -> M A) (db db' : Db) (e : exn) :
  m db = (Throw e, db') -> try_catch m h db = h e db'.
Proof. intros H. unfold try_catch. now rewrite H. Qed.

Lemma isParticipant_run (v : Js.value) (c u : Z) (db : Db) :
  sql_int v = Some c ->
  ConversationAuthorizationService.isParticipant v u db = (Ret (participant db c u), db).
Proof.
  intros H.
  unfold ConversationAuthorizationService.isParticipant,
    ConversationParticipant_first, bind.
  rewrite (bind_int_run _ _ _ H). simpl.
  unfold ret. now rewrite find_is_existsb.
Qed.

Lemma ensureParticipant_run (v : Js.value) (c u : Z) (db : Db) :
  sql_int v = Some c ->
  ConversationAuthorizationService.ensureParticipant v u db =
  (if participant db c u then Ret tt
   else Throw (Error "User is not a participant in this conversation"), db).
Proof.
  intros H. unfold ConversationAuthorizationService.ensureParticipant, bind.
  rewrite (isParticipant_run _ _ _ _ H).
  now destruct (participant db c u).
Qed.

Lemma valid_content_run (content : string) (db : Db) :
  content_ok content -> valid_content content db = (Ret (Js.trim content), db).
Proof.
  unfold content_ok, valid_content. intros H.
  destruct (Nat.ltb_spec (String.length (Js.trim content)) 1); [lia | reflexivity].
Qed.

(** A number never is strictly equal to a string. *)
Lemma strict_neq_num_str (n : Z) (s : string) :
  Js.strict_neq (Js.Num n) (Js.Str s) = true.
Proof. reflexivity. Qed.

(** A value that denotes another conversation than [n] is different from
    [n], whatever its type. *)
Lemma strict_neq_other (n c : Z) (v : Js.value) :
  sql_int v = Some c -> n <> c -> Js.strict_neq (Js.Num n) v = true.
Proof.
  intros Hv Hne. destruct v as [k|s]; [|reflexivity].
  simpl in Hv. injection Hv as ->.
  unfold Js.strict_neq. simpl. now apply negb_true_iff, Z.eqb_neq.
Qed.

Lemma strict_neq_same (n : Z) : Js.strict_neq (Js.Num n) (Js.Num n) = false.
Proof. unfold Js.strict_neq. simpl. now rewrite Z.eqb_refl. Qed.

Lemma or_null_nonzero (r : Z) : r <> 0 -> or_null (Some r) = Some r.
Proof.
  intros H. unfold or_null, Js.truthy.
  now destruct (Z.eqb_spec r 0).
Qed.

(** ** The exception handler and the validators, on examples *)

Example handle_not_a_participant :
  handle (Error "User is not a participant in this conversation")
  = mkResponse 403 (JsonText "User is not a participant in this conversation").
Proof. reflexivity. Qed.

Example handle_conversation_not_found :
  handle (Error "Conversation not found")
  = mkResponse 404 (JsonText "Conversation not found").
Proof. reflexivity. Qed.

Example handle_unique_violation :
  handle (DatabaseError UniqueViolation) = internalServerError.
Proof. reflexivity. Qed.

Example trim_both_ends : Js.trim "  hello world  " = "hello world".
Proof. reflexivity. Qed.

Example blank_content_refused :
  fst (serve (MessageController.store Sample.bob (Js.Str "1")
                (CreateMessage.mk "   " None) 200) Sample.db)
  = mkResponse 422 (JsonText "Validation failed").
Proof. reflexivity. Qed.

Example route_parameter_bound : sql_int (Js.Str "42") = Some 42.
Proof. reflexivity. Qed.

Example route_parameter_refused : sql_int (Js.Str "4x2") = None.
Proof. reflexivity. Qed.

(** ** Replies *)

(** The check of the reply target, run on a message of another
    conversation. *)
Lemma check_reply_other (v : Js.value) (c r : Z) (m : Message.t) (db : Db) :
  sql_int v = Some c ->
  r <> 0 ->
  find (fun x => Message.id x =? r) (messages db) = Some m ->
  Message.conversationId m <> c ->
  MessageController.check_reply v (Some r) db =
  (Ret (Some (badRequest
     (JsonText "Cannot reply to a message from a different conversation"))), db).
Proof.
  intros Hv Hr Hm Hc. unfold MessageController.check_reply.
  rewrite (or_null_nonzero _ Hr).
  rewrite (bind_ret_run _ _ _ _ _
             (bind_number_run has_message r db
                (bound_held _ _ (found_message_held db r m Hm)))).
  unfold Message_find, bind, bind_int, get, ret. simpl. rewrite Hm.
  now rewrite (strict_neq_other _ _ _ Hv Hc).
Qed.

(** C5, as amended: a reply to a message of another conversation is
    refused as a cross-conversation reply when the caller is a participant
    of the conversation written to, whether or not the caller is a
    participant of the target's conversation; a caller who is not a
    participant of the conversation written to is refused as such, before
    the reply target is looked at.  In both cases nothing is written.
    The conversation written to is named by an id within the range of the
    id column, and the content passes the validator (it is not blank once
    trimmed, as [String.prototype.trim] trims). *)
Theorem C5_cross_conversation_reply (db : Db) (user : User.t)
    (conversationId : Js.value) (c : Z) (content : string) (r : Z)
    (m : Message.t) (now : Z) :
  sql_int conversationId = Some c ->
  int4 c ->
  content_ok content ->
  r <> 0 ->
  find (fun x => Message.id x =? r) (messages db) = Some m ->
  Message.conversationId m <> c ->
  MessageController.store user conversationId (CreateMessage.mk content (Some r)) now db
  = (Ret (if participant db c (User.id user)
          then badRequest
                 (JsonText "Cannot reply to a message from a different conversation")
          else forbidden
                 (JsonText "You are not a participant in this conversation")),
     db).
Proof.
  intros Hv _ Hcontent Hr Hm Hc.
  unfold MessageController.store, createMessageValidator, bind at 1 2.
  simpl. rewrite (valid_content_run _ _ Hcontent). simpl.
  unfold try_catch, bind.
  rewrite (ensureParticipant_run _ _ _ _ Hv).
  destruct (participant db c (User.id user)).
  - now rewrite (check_reply_other _ _ _ _ _ Hv Hr Hm Hc).
  - reflexivity.
Qed.

Lemma C5_cross_conversation_reply_witness :
  MessageController.store Sample.bob (Js.Str "1")
    (CreateMessage.mk "hi" (Some 2)) 200 Sample.db
  = (Ret (if participant Sample.db 1 (User.id Sample.bob)
          then badRequest
                 (JsonText "Cannot reply to a message from a different conversation")
          else forbidden
                 (JsonText "You are not a participant in this conversation")),
     Sample.db).
Proof.
  apply (C5_cross_conversation_reply Sample.db Sample.bob (Js.Str "1") 1 "hi" 2
           Sample.other 200).
  - reflexivity.
  - unfold int4. lia.
  - unfold content_ok. simpl. lia.
  - lia.
  - reflexivity.
  - simpl. lia.
Defined.

(** Carol is in conversation 2 only; her reply, written to conversation 1,
    to a message of conversation 2 is refused because she is not a
    participant of conversation 1, not as a cross-conversation reply. *)
Lemma C5_counterexample :
  participant Sample.db 1 (User.id Sample.carol) = false /\
  find (fun x => Message.id x =? 2) (messages Sample.db) = Some Sample.other /\
  Message.conversationId Sample.other <> 1 /\
  fst (MessageController.store Sample.carol (Js.Str "1")
         (CreateMessage.mk "hi" (Some 2)) 200 Sample.db)
  = Ret (forbidden (JsonText "You are not a participant in this conversation")) /\
  fst (MessageController.store Sample.carol (Js.Str "1")
         (CreateMessage.mk "hi" (Some 2)) 200 Sample.db)
  <> Ret (badRequest
            (JsonText "Cannot reply to a message from a different conversation")).
Proof.
  repeat split; try reflexivity; vm_compute; discriminate.
Qed.

(** C1, on the program: Bob is a participant of conversation 1 and
    message 1 ("hello", by Alice) belongs to conversation 1; Bob's reply to
    it through [POST /conversations/1/messages] is refused as a reply to a
    message of a different conversation, and nothing is written.  The
    route parameter is the string ["1"], the column read back is the
    number [1], and [!==] tells them apart. *)
Theorem C1_reply_in_same_conversation_refused :
  participant Sample.db 1 (User.id Sample.bob) = true /\
  find (fun x => Message.id x =? 1) (messages Sample.db) = Some Sample.hello /\
  Message.conversationId Sample.hello = 1 /\
  sql_int (Js.Str "1") = Some 1 /\
  MessageController.store Sample.bob (Js.Str "1")
    (CreateMessage.mk "hi" (Some 1)) 200 Sample.db
  = (Ret (badRequest
            (JsonText "Cannot reply to a message from a different conversation")),
     Sample.db).
Proof. repeat split. Qed.

(** The refusal above does not depend on the store: with the conversation
    id taken from the route, no reply to a message ever is created. *)
Lemma store_reply_route_param (db : Db) (user : User.t) (s content : string)
    (r : positive) (now : Z) :
  exists o,
    MessageController.store user (Js.Str s)
      (CreateMessage.mk content (Some (Z.pos r))) now db = (o, db)
    /\ forall j, o <> Ret (created j).
Proof.
  unfold MessageController.store, createMessageValidator, valid_content,
    bind at 1 2. simpl.
  destruct (String.length (Js.trim content) <? 1)%nat; simpl.
  { eexists. split; [reflexivity | discriminate]. }
  unfold try_catch, bind at 1.
  unfold ConversationAuthorizationService.ensureParticipant,
    ConversationAuthorizationService.isParticipant,
    ConversationParticipant_first, bind at 1 2 3 4, bind_int.
  destruct (sql_int (Js.Str s)) as [c|]; simpl.
  2:{ destruct (NilZero.int_of_string s);
        eexists; (split; [reflexivity | discriminate]). }
  destruct (find (is_pair c (User.id user)) (conversation_participants db)); simpl.
  2:{ eexists. split; [reflexivity | discriminate]. }
  unfold bind, MessageController.check_reply, bind_number, Message_find, bind,
    bind_int, get, ret, throw. simpl.
  destruct (bound (has_message db) (Z.pos r)); simpl.
  2:{ eexists. split; [reflexivity | discriminate]. }
  destruct (find (fun x => Message.id x =? Z.pos r) (messages db)) as [m|] eqn:Hm;
    simpl; eexists; (split; [reflexivity | discriminate]).
Qed.

Lemma find_app_some {A} (f : A -> bool) (l l' : list A) (x : A) :
  find f l = Some x -> find f (l ++ l') = Some x.
Proof.
  induction l as [|y l IH]; simpl; [discriminate|].
  destruct (f y); [trivial | exact IH].
Qed.

(** When the conversation id reaches the handler as a number, the reply
    is created and the response carries the content and the author of the
    message replied to. *)
Lemma store_reply_numeric_id (db : Db) (user : User.t) (c : Z)
    (content : string) (r : Z) (m : Message.t) (now : Z) :
  content_ok content ->
  participant db c (User.id user) = true ->
  has_conversation db c = true ->
  has_user db (User.id user) = true ->
  r <> 0 ->
  find (fun x => Message.id x =? r) (messages db) = Some m ->
  Message.conversationId m = c ->
  let row := Message.mk (next_message_id db) c (User.id user) (Js.trim content)
               (Some r) None now (Some now) in
  MessageController.store user (Js.Num c) (CreateMessage.mk content (Some r)) now db
  = (Ret (created (JsonMessage
       (MessageJson.mk row (user_summary db (User.id user))
          (Loaded (Some (ReplySummary.mk r (Message.content m) (Message.userId m)
                           (user_summary db (Message.userId m)))))))),
     mkDb (users db) (conversations db) (conversation_participants db)
          (messages db ++ [row])
          (next_conversation_id db) (next_participant_id db)
          (next_message_id db + 1)).
Proof.
  intros Hcontent Hp Hc Hu Hr Hm Hmc row.
  assert (Hhas : has_message db r = true).
  { unfold has_message. apply existsb_exists. exists m.
    apply find_some in Hm. exact Hm. }
  unfold MessageController.store, createMessageValidator.
  rewrite (bind_ret_run _ _ _ _ _
             (bind_ret_run _ _ _ _ _ (valid_content_run _ _ Hcontent))).
  unfold ret at 1. cbn [CreateMessage.content CreateMessage.replyToId].
  apply try_ret_run.
  rewrite (bind_ret_run _ _ db db tt).
  2:{ rewrite (ensureParticipant_run (Js.Num c) c _ _ eq_refl). now rewrite Hp. }
  rewrite (bind_ret_run _ _ db db None).
  2:{ unfold MessageController.check_reply. rewrite (or_null_nonzero _ Hr).
      rewrite (bind_ret_run _ _ _ _ _
                 (bind_number_run has_message r db (bound_held _ _ Hhas))).
      rewrite (bind_ret_run _ _ db db (Some m)).
      2:{ unfold Message_find, bind, bind_int, get, ret. simpl. now rewrite Hm. }
      rewrite Hmc. unfold Js.strict_neq. simpl. now rewrite Z.eqb_refl. }
  rewrite (or_null_nonzero _ Hr).
  erewrite bind_ret_run.
  2:{ unfold Message_create, bind, bind_int, get, ret, modify. simpl.
      unfold message_references_ok. rewrite Hc, Hu, Hhas. simpl. reflexivity. }
  unfold load_message, bind, get, ret.
  cbn [Message.replyToId Message.userId messages users].
  rewrite (or_null_nonzero _ Hr). unfold reply_summary, user_summary.
  cbn [messages users].
  rewrite (find_app_some _ _ _ _ Hm). simpl.
  rewrite (find_message_id _ _ _ Hm). reflexivity.
Qed.

(** ** Editing and deleting a message *)

Lemma find_message_replace (n : Z) (l : list Message.t) (m m' : Message.t) :
  find (fun r => Message.id r =? n) l = Some m ->
  Message.id m' = n ->
  find (fun r => Message.id r =? n)
       (map (fun r => if Message.id r =? Message.id m then m' else r) l)
  = Some m'.
Proof.
  intros Hfind Hid. pose proof (find_message_id _ _ _ Hfind) as Hm.
  rewrite Hm. clear Hm.
  induction l as [|x l IH]; simpl in *; [discriminate|].
  destruct (Message.id x =? n) eqn:Hx.
  - simpl. now rewrite Hid, Z.eqb_refl.
  - simpl. rewrite Hx. now apply IH.
Qed.

(** [update] and [destroy] never read the roster: run on a store with any
    other roster, they answer the same and write the same. *)
Lemma update_ignores_roster (user : User.t) (messageId : Js.value)
    (body : UpdateMessage.t) (now : Z) (db : Db)
    (roster : list ConversationParticipant.t) :
  MessageController.update user messageId body now (set_participants roster db)
  = (fst (MessageController.update user messageId body now db),
     set_participants roster (snd (MessageController.update user messageId body now db))).
Proof.
  unfold MessageController.update, updateMessageValidator, valid_content,
    Message_find, Message_save, load_message, bind, bind_int, get, modify, ret, throw.
  destruct (String.length (Js.trim (UpdateMessage.content body)) <? 1)%nat;
    [reflexivity|].
  destruct (sql_int messageId) as [n|]; [|reflexivity].
  cbn [messages set_participants set_messages fst snd].
  destruct (find (fun r => Message.id r =? n) (messages db)) as [m|]; [|reflexivity].
  destruct (Js.strict_neq (Js.Num (Message.userId m)) (Js.Num (User.id user)));
    reflexivity.
Qed.

Lemma destroy_ignores_roster (user : User.t) (messageId : Js.value) (db : Db)
    (roster : list ConversationParticipant.t) :
  MessageController.destroy user messageId (set_participants roster db)
  = (fst (MessageController.destroy user messageId db),
     set_participants roster (snd (MessageController.destroy user messageId db))).
Proof.
  unfold MessageController.destroy, Message_find, Message_delete,
    bind, bind_int, get, modify, ret, throw.
  destruct (sql_int messageId) as [n|]; [|reflexivity].
  cbn [messages set_participants set_messages fst snd].
  destruct (find (fun r => Message.id r =? n) (messages db)) as [m|]; [|reflexivity].
  destruct (Js.strict_neq (Js.Num (Message.userId m)) (Js.Num (User.id user)));
    reflexivity.
Qed.

(** The edit of a message by its author, with a content that passes the
    validator: [save] refuses the [Date] assigned to [editedAt] before
    any query is sent. *)
Lemma author_update_run (db : Db) (user : User.t) (v : Js.value) (n : Z)
    (m : Message.t) (content : string) (now : Z) :
  sql_int v = Some n ->
  find (fun r => Message.id r =? n) (messages db) = Some m ->
  Message.userId m = User.id user ->
  content_ok content ->
  MessageController.update user v (UpdateMessage.mk content) now db
  = (Throw (E_INVALID_DATE_COLUMN_VALUE "Message.editedAt"), db).
Proof.
  intros Hid Hfind Hauthor Hcontent.
  unfold MessageController.update, updateMessageValidator.
  rewrite (bind_ret_run _ _ _ _ _
             (bind_ret_run _ _ _ _ _ (valid_content_run _ _ Hcontent))).
  unfold ret at 1. cbn [UpdateMessage.content].
  rewrite (bind_ret_run _ _ db db (Some m)).
  2:{ unfold Message_find. rewrite (bind_ret_run _ _ _ _ _ (bind_int_run _ _ _ Hid)).
      unfold bind, get, ret. now rewrite Hfind. }
  rewrite <- Hauthor, strict_neq_same. reflexivity.
Qed.

(** C3, as amended: the edit of a message by its author is not stopped by
    any check of the roster.  [update] looks the message up and compares
    its author with the caller; it never calls [ensureParticipant] and
    never reads the roster: whatever the roster is, the request is
    answered the same and writes the same, and the author, with a content
    that passes the validator, is refused by none of the checks (not 403,
    not 404, not 422).  What becomes of the edit once the checks are
    passed is not part of the statement. *)
Theorem C3_author_update_needs_no_participant_row (db : Db) (user : User.t)
    (messageId : Js.value) (n : Z) (m : Message.t) (content : string) (now : Z)
    (roster : list ConversationParticipant.t) :
  sql_int messageId = Some n ->
  find (fun r => Message.id r =? n) (messages db) = Some m ->
  Message.userId m = User.id user ->
  content_ok content ->
  let body := UpdateMessage.mk content in
  let out := serve (MessageController.update user messageId body now) db in
  serve (MessageController.update user messageId body now) (set_participants roster db)
  = (fst out, set_participants roster (snd out))
  /\ status (fst out) <> 403
  /\ status (fst out) <> 404
  /\ status (fst out) <> 422.
Proof.
  intros Hid Hfind Hauthor Hcontent body out. split.
  - subst out. unfold serve.
    rewrite (update_ignores_roster user messageId body now db roster).
    now destruct (MessageController.update user messageId body now db) as [[r|e] db1].
  - subst out body. unfold serve.
    rewrite (author_update_run db user messageId n m content now
               Hid Hfind Hauthor Hcontent).
    cbn. repeat split; discriminate.
Qed.

Lemma C3_author_update_needs_no_participant_row_witness :
  let body := UpdateMessage.mk "hello again" in
  let out := serve (MessageController.update Sample.alice (Js.Str "1") body 300)
               Sample.db in
  participant Sample.db 1 (User.id Sample.alice) = true
  /\ set_participants (conversation_participants AuthorLeft.db) Sample.db
     = AuthorLeft.db
  /\ participant AuthorLeft.db 1 (User.id Sample.alice) = false
  /\ serve (MessageController.update Sample.alice (Js.Str "1") body 300)
       (set_participants (conversation_participants AuthorLeft.db) Sample.db)
     = (fst out, set_participants (conversation_participants AuthorLeft.db) (snd out))
  /\ status (fst out) <> 403
  /\ status (fst out) <> 404
  /\ status (fst out) <> 422.
Proof.
  split; [reflexivity|]. split; [reflexivity|]. split; [reflexivity|].
  apply (C3_author_update_needs_no_participant_row Sample.db Sample.alice
           (Js.Str "1") 1 Sample.hello "hello again" 300
           (conversation_participants AuthorLeft.db)).
  - reflexivity.
  - reflexivity.
  - reflexivity.
  - unfold content_ok. simpl. lia.
Defined.

Example author_left_roster :
  map pair_of (conversation_participants AuthorLeft.db) = [(1, 2); (2, 2); (2, 3)].
Proof. reflexivity. Qed.

(** Alice wrote message 1 and has no Participant row left in its
    conversation.  Her edit is not blocked by a check of the roster: it
    is not answered 403, and it is answered what it is answered on the
    store where she still is a participant.  (That answer is the 500 of
    the exception [save] throws, for every author.) *)
Lemma C3_counterexample :
  Message.userId Sample.hello = User.id Sample.alice /\
  find (fun r => Message.id r =? 1) (messages AuthorLeft.db) = Some Sample.hello /\
  participant AuthorLeft.db (Message.conversationId Sample.hello)
    (User.id Sample.alice) = false /\
  participant Sample.db (Message.conversationId Sample.hello)
    (User.id Sample.alice) = true /\
  let request := MessageController.update Sample.alice (Js.Str "1")
                   (UpdateMessage.mk "hello again") 300 in
  fst (serve request AuthorLeft.db)
  <> forbidden (JsonText "You are not a participant in this conversation") /\
  status (fst (serve request AuthorLeft.db)) <> 403 /\
  fst (serve request AuthorLeft.db) = fst (serve request Sample.db) /\
  fst (serve request AuthorLeft.db) = internalServerError /\
  snd (serve request AuthorLeft.db) = AuthorLeft.db.
Proof. repeat split; try reflexivity; cbn; discriminate. Qed.

Lemma clear_reply_id (gone : Z -> bool) (x : Message.t) :
  Message.id (clear_reply gone x) = Message.id x.
Proof.
  unfold clear_reply. destruct (Message.replyToId x) as [t|]; [|reflexivity].
  now destruct (gone t).
Qed.

Lemma clear_reply_ext (g1 g2 : Z -> bool) (x : Message.t) :
  (forall t, g1 t = g2 t) -> clear_reply g1 x = clear_reply g2 x.
Proof.
  intros H. unfold clear_reply.
  destruct (Message.replyToId x) as [t|]; [|reflexivity]. now rewrite H.
Qed.

(** The ids of the rows removed by [DELETE ... WHERE id = n]. *)
Lemma removed_ids (n t : Z) (l : list Message.t) (m : Message.t) :
  find (fun x => Message.id x =? n) l = Some m ->
  existsb (fun x => Message.id x =? t) (filter (fun x => Message.id x =? n) l)
  = (t =? n).
Proof.
  intros Hfind. apply find_some in Hfind. destruct Hfind as [Hin Hn].
  destruct (Z.eqb_spec t n) as [->|Hne].
  - apply existsb_exists. exists m. split; [|exact Hn].
    apply filter_In. now split.
  - destruct (existsb _ _) eqn:E; [|reflexivity].
    apply existsb_exists in E. destruct E as [x [Hx Ht]].
    apply filter_In in Hx. destruct Hx as [_ Hx].
    apply Z.eqb_eq in Hx, Ht. congruence.
Qed.

Lemma find_kept (f : Message.t -> Message.t) (n j : Z) (l : list Message.t) :
  (forall x, Message.id (f x) = Message.id x) ->
  j <> n ->
  find (fun x => Message.id x =? j)
       (map f (filter (fun x => negb (Message.id x =? n)) l))
  = option_map f (find (fun x => Message.id x =? j) l).
Proof.
  intros Hf Hne. induction l as [|x l IH]; simpl; [reflexivity|].
  destruct (Z.eqb_spec (Message.id x) n) as [Hx|Hx]; simpl.
  - destruct (Z.eqb_spec (Message.id x) j); [congruence | exact IH].
  - rewrite Hf. destruct (Message.id x =? j); [reflexivity | exact IH].
Qed.

Lemma find_removed (f : Message.t -> Message.t) (n : Z) (l : list Message.t) :
  (forall x, Message.id (f x) = Message.id x) ->
  find (fun x => Message.id x =? n)
       (map f (filter (fun x => negb (Message.id x =? n)) l))
  = None.
Proof.
  intros Hf. induction l as [|x l IH]; simpl; [reflexivity|].
  destruct (Z.eqb_spec (Message.id x) n) as [Hx|Hx]; simpl; [exact IH|].
  rewrite Hf. destruct (Z.eqb_spec (Message.id x) n); [contradiction | exact IH].
Qed.

(** C8: when its author deletes a message [m] that another message [r]
    replies to, the answer is 204, [m] is gone, and [r] is still there
    with its reply reference cleared; every message other than [m] stays,
    changed at most in that reference. *)
Theorem C8_replies_survive_delete (db : Db) (user : User.t)
    (messageId : Js.value) (n k : Z) (m r : Message.t) :
  sql_int messageId = Some n ->
  find (fun x => Message.id x =? n) (messages db) = Some m ->
  Message.userId m = User.id user ->
  find (fun x => Message.id x =? k) (messages db) = Some r ->
  k <> n ->
  Message.replyToId r = Some n ->
  exists db',
    MessageController.destroy user messageId db = (Ret noContent, db')
    /\ find (fun x => Message.id x =? n) (messages db') = None
    /\ find (fun x => Message.id x =? k) (messages db') = Some (unthreaded r)
    /\ forall j x,
         j <> n ->
         find (fun x => Message.id x =? j) (messages db) = Some x ->
         find (fun x => Message.id x =? j) (messages db')
         = Some (clear_reply (fun t => t =? n) x).
Proof.
  intros Hid Hm Hauthor Hr Hk Hreply.
  pose proof (find_message_id _ _ _ Hm) as Hmid.
  unfold MessageController.destroy.
  rewrite (bind_ret_run _ _ db db (Some m)).
  2:{ unfold Message_find. rewrite (bind_ret_run _ _ _ _ _ (bind_int_run _ _ _ Hid)).
      unfold bind, get, ret. now rewrite Hm. }
  rewrite <- Hauthor, strict_neq_same.
  unfold Message_delete, bind, modify, ret. eexists. split; [reflexivity|].
  cbn [messages set_messages]. unfold delete_messages. rewrite Hmid.
  assert (Hall : forall j x, j <> n ->
            find (fun x => Message.id x =? j) (messages db) = Some x ->
            find (fun x => Message.id x =? j)
              (map (clear_reply (fun t => existsb (fun r0 => Message.id r0 =? t)
                                   (filter (fun r0 => Message.id r0 =? n) (messages db))))
                 (filter (fun r0 => negb (Message.id r0 =? n)) (messages db)))
            = Some (clear_reply (fun t => t =? n) x)).
  { intros j x Hj Hx. rewrite find_kept; [|apply clear_reply_id|exact Hj].
    rewrite Hx. simpl. f_equal. apply clear_reply_ext.
    intros t. now apply removed_ids with (m := m). }
  split; [apply find_removed, clear_reply_id|].
  split; [|exact Hall].
  rewrite (Hall k r Hk Hr). unfold clear_reply, unthreaded.
  now rewrite Hreply, Z.eqb_refl.
Qed.

Lemma C8_replies_survive_delete_witness :
  exists db',
    MessageController.destroy Sample.alice (Js.Str "1") Thread.db = (Ret noContent, db')
    /\ find (fun x => Message.id x =? 1) (messages db') = None
    /\ find (fun x => Message.id x =? 3) (messages db') = Some (unthreaded Thread.reply)
    /\ forall j x,
         j <> 1 ->
         find (fun x => Message.id x =? j) (messages Thread.db) = Some x ->
         find (fun x => Message.id x =? j) (messages db')
         = Some (clear_reply (fun t => t =? 1) x).
Proof.
  apply (C8_replies_survive_delete Thread.db Sample.alice (Js.Str "1") 1 3
           Sample.hello Thread.reply).
  - reflexivity.
  - reflexivity.
  - reflexivity.
  - reflexivity.
  - lia.
  - reflexivity.
Defined.

(** ** The creator gate *)

Lemma isCreator_run (v : Js.value) (c u : Z) (db : Db) :
  sql_int v = Some c ->
  ConversationAuthorizationService.isCreator v u db =
  (Ret (match find (fun r => Conversation.id r =? c) (conversations db) with
        | Some conv => Conversation.createdBy conv =? u
        | None => false
        end), db).
Proof.
  intros H. unfold ConversationAuthorizationService.isCreator, Conversation_find.
  rewrite (bind_ret_run _ _ db db
             (find (fun r => Conversation.id r =? c) (conversations db))).
  - reflexivity.
  - rewrite (bind_ret_run _ _ _ _ _ (bind_int_run _ _ _ H)). reflexivity.
Qed.

(** The creator gate refuses whoever is not recorded as the creator:
    the conversation is missing, or it has another creator. *)
Lemma ensureCreator_refuses (v : Js.value) (c u : Z) (db : Db) :
  sql_int v = Some c ->
  match find (fun r => Conversation.id r =? c) (conversations db) with
  | Some conv => Conversation.createdBy conv <> u
  | None => True
  end ->
  ConversationAuthorizationService.ensureCreator v u db =
  (Throw (Error "User is not the creator of this conversation"), db).
Proof.
  intros H Hc. unfold ConversationAuthorizationService.ensureCreator.
  rewrite (bind_ret_run _ _ _ _ _ (isCreator_run _ _ _ _ H)).
  destruct (find _ (conversations db)) as [conv|]; [|reflexivity].
  apply Z.eqb_neq in Hc. now rewrite Hc.
Qed.

Lemma update_refused (user : User.t) (v : Js.value) (c : Z)
    (patch : UpdateConversation.t) (now : Z) (db : Db) :
  sql_int v = Some c ->
  match find (fun r => Conversation.id r =? c) (conversations db) with
  | Some conv => Conversation.createdBy conv <> User.id user
  | None => True
  end ->
  ConversationController.update user v patch now db =
  (Ret (forbidden (JsonText "Only the creator can update this conversation")), db).
Proof.
  intros H Hc. unfold ConversationController.update, updateConversationValidator.
  rewrite (bind_ret_run _ _ db db patch eq_refl).
  erewrite try_throw_run.
  2:{ apply bind_throw_run. now apply ensureCreator_refuses with (c := c). }
  reflexivity.
Qed.

Lemma destroy_refused (user : User.t) (v : Js.value) (c : Z) (db : Db) :
  sql_int v = Some c ->
  match find (fun r => Conversation.id r =? c) (conversations db) with
  | Some conv => Conversation.createdBy conv <> User.id user
  | None => True
  end ->
  ConversationController.destroy user v db =
  (Ret (forbidden (JsonText "Only the creator can delete this conversation")), db).
Proof.
  intros H Hc. unfold ConversationController.destroy.
  erewrite try_throw_run.
  2:{ apply bind_throw_run. now apply ensureCreator_refuses with (c := c). }
  reflexivity.
Qed.

(** C10, as amended: on an id within the range of the id column that
    refers to no conversation, [isCreator] answers false, and both the
    update and the delete of the conversation answer 403 with the
    not-the-creator message, never 404, and write nothing; the answer is
    the one given for an existing conversation that the caller did not
    create. *)
Theorem C10_missing_conversation_is_not_creator (db : Db) (user : User.t)
    (conversationId : Js.value) (c : Z) (patch : UpdateConversation.t) (now : Z) :
  sql_int conversationId = Some c ->
  int4 c ->
  find (fun r => Conversation.id r =? c) (conversations db) = None ->
  ConversationAuthorizationService.isCreator conversationId (User.id user) db
  = (Ret false, db)
  /\ serve (ConversationController.update user conversationId patch now) db
     = (forbidden (JsonText "Only the creator can update this conversation"), db)
  /\ serve (ConversationController.destroy user conversationId) db
     = (forbidden (JsonText "Only the creator can delete this conversation"), db)
  /\ forall db2 conv,
       find (fun r => Conversation.id r =? c) (conversations db2) = Some conv ->
       Conversation.createdBy conv <> User.id user ->
       fst (serve (ConversationController.update user conversationId patch now) db2)
       = fst (serve (ConversationController.update user conversationId patch now) db)
       /\ fst (serve (ConversationController.destroy user conversationId) db2)
          = fst (serve (ConversationController.destroy user conversationId) db).
Proof.
  intros H _ Hnone.
  assert (Hu : ConversationController.update user conversationId patch now db =
    (Ret (forbidden (JsonText "Only the creator can update this conversation")), db)).
  { apply update_refused with (c := c); [exact H | now rewrite Hnone]. }
  assert (Hd : ConversationController.destroy user conversationId db =
    (Ret (forbidden (JsonText "Only the creator can delete this conversation")), db)).
  { apply destroy_refused with (c := c); [exact H | now rewrite Hnone]. }
  split; [|split; [|split]].
  - rewrite (isCreator_run _ _ _ _ H). now rewrite Hnone.
  - unfold serve. now rewrite Hu.
  - unfold serve. now rewrite Hd.
  - intros db2 conv Hconv Hother. unfold serve. rewrite Hu, Hd.
    rewrite (update_refused user conversationId c patch now db2 H).
    2:{ now rewrite Hconv. }
    rewrite (destroy_refused user conversationId c db2 H).
    2:{ now rewrite Hconv. }
    split; reflexivity.
Qed.

Lemma C10_missing_conversation_is_not_creator_witness :
  ConversationAuthorizationService.isCreator (Js.Str "99") (User.id Sample.alice)
    Sample.db = (Ret false, Sample.db)
  /\ serve (ConversationController.update Sample.alice (Js.Str "99")
              (UpdateConversation.mk (Some "Z") None) 300) Sample.db
     = (forbidden (JsonText "Only the creator can update this conversation"),
        Sample.db)
  /\ serve (ConversationController.destroy Sample.alice (Js.Str "99")) Sample.db
     = (forbidden (JsonText "Only the creator can delete this conversation"),
        Sample.db).
Proof.
  pose proof (C10_missing_conversation_is_not_creator Sample.db Sample.alice
                (Js.Str "99") 99 (UpdateConversation.mk (Some "Z") None) 300
                eq_refl (int4_of_b 99 eq_refl) eq_refl) as [H1 [H2 [H3 _]]].
  split; [exact H1 | split; [exact H2 | exact H3]].
Defined.

(** No conversation has the id 2147483648, which is beyond the range of
    the id column: the database refuses the lookup of [isCreator], the
    error is none of those the handlers catch, and both the update and
    the delete are answered 500, not 403. *)
Lemma C10_counterexample :
  find (fun r => Conversation.id r =? 2147483648) (conversations Sample.db) = None /\
  fst (ConversationAuthorizationService.isCreator (Js.Str "2147483648")
         (User.id Sample.alice) Sample.db)
  = Throw (DatabaseError NumericValueOutOfRange) /\
  serve (ConversationController.update Sample.alice (Js.Str "2147483648")
           (UpdateConversation.mk (Some "Z") None) 300) Sample.db
  = (internalServerError, Sample.db) /\
  serve (ConversationController.destroy Sample.alice (Js.Str "2147483648")) Sample.db
  = (internalServerError, Sample.db) /\
  fst (serve (ConversationController.update Sample.alice (Js.Str "2147483648")
                (UpdateConversation.mk (Some "Z") None) 300) Sample.db)
  <> forbidden (JsonText "Only the creator can update this conversation") /\
  fst (serve (ConversationController.destroy Sample.alice (Js.Str "2147483648"))
         Sample.db)
  <> forbidden (JsonText "Only the creator can delete this conversation").
Proof. repeat split; try reflexivity; vm_compute; discriminate. Qed.

(** ** The roster *)

Lemma NoDup_map_eq {A B} (f : A -> B) (l : list A) (x y : A) :
  NoDup (map f l) -> In x l -> In y l -> f x = f y -> x = y.
Proof.
  induction l as [|a l IH]; simpl; [contradiction|].
  intros Hnd Hx Hy Hf. inversion Hnd as [|? ? Hnotin Hnd']; subst.
  destruct Hx as [->|Hx], Hy as [->|Hy]; trivial.
  - exfalso. apply Hnotin. rewrite Hf. now apply in_map.
  - exfalso. apply Hnotin. rewrite <- Hf. now apply in_map.
  - now apply IH.
Qed.

Lemma is_pair_spec (c u : Z) (p : ConversationParticipant.t) :
  is_pair c u p = true <-> pair_of p = (c, u).
Proof.
  unfold is_pair, pair_of. rewrite andb_true_iff, !Z.eqb_eq.
  split; [intros [-> ->]; reflexivity | intros H; now inversion H].
Qed.

(** After [DELETE ... WHERE id = p.id], no row is left for the pair of
    [p]. *)
Lemma pair_gone (l : list ConversationParticipant.t) (c t : Z)
    (p : ConversationParticipant.t) :
  NoDup (map pair_of l) ->
  find (is_pair c t) l = Some p ->
  existsb (is_pair c t)
    (filter (fun r => negb (ConversationParticipant.id r =? ConversationParticipant.id p)) l)
  = false.
Proof.
  intros Hnd Hfind. apply find_some in Hfind. destruct Hfind as [Hin Hp].
  destruct (existsb _ _) eqn:E; [|reflexivity].
  apply existsb_exists in E. destruct E as [x [Hx Hxp]].
  apply filter_In in Hx. destruct Hx as [Hx Hid].
  apply is_pair_spec in Hp, Hxp.
  assert (x = p) by (apply (NoDup_map_eq pair_of l); congruence).
  subst x. now rewrite Z.eqb_refl in Hid.
Qed.

(** ... and the rows of the other pairs all stay. *)
Lemma pair_kept (l : list ConversationParticipant.t) (c t u : Z)
    (p : ConversationParticipant.t) :
  NoDup (map ConversationParticipant.id l) ->
  find (is_pair c t) l = Some p ->
  t <> u ->
  existsb (is_pair c u) l = true ->
  existsb (is_pair c u)
    (filter (fun r => negb (ConversationParticipant.id r =? ConversationParticipant.id p)) l)
  = true.
Proof.
  intros Hnd Hfind Hne Hex. apply find_some in Hfind. destruct Hfind as [Hin Hp].
  apply existsb_exists in Hex. destruct Hex as [q [Hq Hqu]].
  apply existsb_exists. exists q. split; [|exact Hqu].
  apply filter_In. split; [exact Hq|].
  apply negb_true_iff, Z.eqb_neq. intros Hid.
  assert (q = p) by (apply (NoDup_map_eq ConversationParticipant.id l); assumption).
  subst q. apply is_pair_spec in Hp, Hqu. congruence.
Qed.

Lemma first_run (vc vu : Js.value) (c u : Z) (db : Db) :
  sql_int vc = Some c -> sql_int vu = Some u ->
  ConversationParticipant_first vc vu db
  = (Ret (find (is_pair c u) (conversation_participants db)), db).
Proof.
  intros Hc Hu. unfold ConversationParticipant_first.
  rewrite (bind_ret_run _ _ _ _ _ (bind_int_run _ _ _ Hc)).
  rewrite (bind_ret_run _ _ _ _ _ (bind_int_run _ _ _ Hu)).
  reflexivity.
Qed.

(** One call of [removeParticipant] by a participant, on a pair that has
    a row. *)
Lemma removeParticipant_removes (db : Db) (user : User.t) (vc vt : Js.value)
    (c t : Z) (p : ConversationParticipant.t) :
  sql_int vc = Some c -> sql_int vt = Some t ->
  participant db c (User.id user) = true ->
  find (is_pair c t) (conversation_participants db) = Some p ->
  ConversationController.removeParticipant user vc vt db
  = (Ret (ok (JsonText "Participant removed successfully")),
     set_participants
       (filter (fun r => negb (ConversationParticipant.id r =? ConversationParticipant.id p))
               (conversation_participants db)) db).
Proof.
  intros Hc Ht Hu Hp. unfold ConversationController.removeParticipant.
  apply try_ret_run.
  rewrite (bind_ret_run _ _ db db tt).
  2:{ rewrite (ensureParticipant_run _ _ _ _ Hc). now rewrite Hu. }
  rewrite (bind_ret_run _ _ _ _ _ (first_run _ _ _ _ _ Hc Ht)).
  rewrite Hp. reflexivity.
Qed.

Lemma removeParticipant_not_participant (db : Db) (user : User.t)
    (vc vt : Js.value) (c : Z) :
  sql_int vc = Some c ->
  participant db c (User.id user) = false ->
  ConversationController.removeParticipant user vc vt db
  = (Ret (forbidden (JsonText "You are not a participant in this conversation")), db).
Proof.
  intros Hc Hu. unfold ConversationController.removeParticipant.
  erewrite try_throw_run.
  2:{ apply bind_throw_run. rewrite (ensureParticipant_run _ _ _ _ Hc).
      now rewrite Hu. }
  reflexivity.
Qed.

Lemma removeParticipant_no_row (db : Db) (user : User.t) (vc vt : Js.value)
    (c t : Z) :
  sql_int vc = Some c -> sql_int vt = Some t ->
  participant db c (User.id user) = true ->
  participant db c t = false ->
  ConversationController.removeParticipant user vc vt db
  = (Ret (notFound (JsonText "Participant not found")), db).
Proof.
  intros Hc Ht Hu Hnone. unfold ConversationController.removeParticipant.
  apply try_ret_run.
  rewrite (bind_ret_run _ _ db db tt).
  2:{ rewrite (ensureParticipant_run _ _ _ _ Hc). now rewrite Hu. }
  rewrite (bind_ret_run _ _ _ _ _ (first_run _ _ _ _ _ Hc Ht)).
  unfold participant in Hnone. rewrite <- find_is_existsb in Hnone.
  destruct (find _ _); [discriminate | reflexivity].
Qed.

(** C7, as amended: a participant removes a participant twice in
    succession.  The first call succeeds and leaves no row for the pair.
    The second call answers ParticipantNotFound when the target is
    another user than the caller; when the caller removed themselves, the
    second call is refused at the participant gate (NotAParticipant).
    The second call writes nothing. *)
Theorem C7_remove_twice (db : Db) (user : User.t) (conversationId userId : Js.value)
    (c t : Z) :
  sql_int conversationId = Some c ->
  sql_int userId = Some t ->
  participants_unique db ->
  participant db c (User.id user) = true ->
  participant db c t = true ->
  exists db1,
    serve (ConversationController.removeParticipant user conversationId userId) db
    = (ok (JsonText "Participant removed successfully"), db1)
    /\ participant db1 c t = false
    /\ serve (ConversationController.removeParticipant user conversationId userId) db1
       = (if t =? User.id user
          then forbidden (JsonText "You are not a participant in this conversation")
          else notFound (JsonText "Participant not found"),
          db1).
Proof.
  intros Hc Ht [Hids Hpairs] Hu Htp.
  pose proof Htp as Hfind. unfold participant in Hfind.
  rewrite <- find_is_existsb in Hfind.
  destruct (find (is_pair c t) (conversation_participants db)) as [p|] eqn:Hp;
    [clear Hfind | discriminate].
  eexists. unfold serve at 1.
  rewrite (removeParticipant_removes db user _ _ c t p Hc Ht Hu Hp).
  split; [reflexivity|].
  assert (Hgone : participant
            (set_participants
               (filter (fun r => negb (ConversationParticipant.id r
                                       =? ConversationParticipant.id p))
                       (conversation_participants db)) db) c t = false).
  { unfold participant. cbn [conversation_participants set_participants].
    now apply pair_gone. }
  split; [exact Hgone|].
  unfold serve. destruct (Z.eqb_spec t (User.id user)) as [Heq|Hne].
  - rewrite (removeParticipant_not_participant _ user _ _ c Hc); [reflexivity|].
    now rewrite <- Heq.
  - rewrite (removeParticipant_no_row _ user _ _ c t Hc Ht); [reflexivity| |exact Hgone].
    unfold participant. cbn [conversation_participants set_participants].
    now apply pair_kept with (t := t).
Qed.

Lemma sample_participants_unique : participants_unique Sample.db.
Proof.
  split; cbn; repeat constructor; cbv; intuition congruence.
Defined.

Lemma C7_remove_twice_witness :
  exists db1,
    serve (ConversationController.removeParticipant Sample.alice
             (Js.Str "1") (Js.Str "2")) Sample.db
    = (ok (JsonText "Participant removed successfully"), db1)
    /\ participant db1 1 2 = false
    /\ serve (ConversationController.removeParticipant Sample.alice
                (Js.Str "1") (Js.Str "2")) db1
       = (if 2 =? User.id Sample.alice
          then forbidden (JsonText "You are not a participant in this conversation")
          else notFound (JsonText "Participant not found"),
          db1).
Proof.
  apply (C7_remove_twice Sample.db Sample.alice (Js.Str "1") (Js.Str "2") 1 2).
  - reflexivity.
  - reflexivity.
  - exact sample_participants_unique.
  - reflexivity.
  - reflexivity.
Defined.

(** Bob, a participant of conversation 1, removes himself from it, twice:
    the second call answers 403 (not a participant), not 404. *)
Lemma C7_counterexample :
  participant Sample.db 1 (User.id Sample.bob) = true /\
  let first := serve (ConversationController.removeParticipant Sample.bob
                        (Js.Str "1") (Js.Str "2")) Sample.db in
  let second := serve (ConversationController.removeParticipant Sample.bob
                         (Js.Str "1") (Js.Str "2")) (snd first) in
  fst first = ok (JsonText "Participant removed successfully") /\
  fst second = forbidden (JsonText "You are not a participant in this conversation") /\
  fst second <> notFound (JsonText "Participant not found").
Proof. repeat split. vm_compute. discriminate. Qed.

(** ** Creating a conversation *)





Lemma NoDup_map_filter {Row Key} (key : Row -> Key) (keep : Row -> bool)
    (rows : list Row) (Hkeys : NoDup (map key rows)) :
  NoDup (map key (filter keep rows)).
Proof.
  induction rows as [|x rows IH]; simpl; [exact Hkeys|].
  inversion Hkeys as [|? ? Hnotin Hnd]; subst.
  destruct (keep x); simpl; [|now apply IH].
  constructor; [|now apply IH].
  intros Hin. apply Hnotin. apply in_map_iff in Hin.
  destruct Hin as [y [Hy Hin]]. apply filter_In in Hin.
  apply in_map_iff. exists y. tauto.
Qed.









Lemma sample_roster_references : roster_references Sample.db.
Proof. unfold roster_references. cbn. repeat constructor. Defined.





Lemma filter_none {A} (f : A -> bool) (l : list A) :
  existsb f l = false -> filter f l = [].
Proof.
  induction l as [|x l IH]; simpl; [reflexivity|].
  intros H. apply orb_false_iff in H. destruct H as [Hx Hl].
  rewrite Hx. now apply IH.
Qed.







(** ** Adding a participant *)

(** The steps of a request, run one after the other with no other request
    in between, are the handler. *)
Lemma alone_is_addParticipant (user : User.t) (v : Js.value) (t now : Z)
    (db db' : Db) (r : response) :
  serve (ConversationController.addParticipant user v t now) db = (r, db') ->
  exists inserting,
    Concurrent.alone user v t now db = (Concurrent.Answered r inserting, db').
Proof.
  unfold Concurrent.alone, Concurrent.step, Concurrent.thrown, serve,
    ConversationController.addParticipant, try_catch, bind.
  destruct (ConversationAuthorizationService.ensureParticipant v (User.id user) db)
    as [[[]|e] db1].
  2:{ destruct (ConversationController.not_participant_catch e db1) as [[r'|e'] db2];
        intros H; injection H as <- <-; eexists; reflexivity. }
  unfold bind_number, bind, get.
  destruct (bound (has_user db1) t); cbv beta iota.
  2:{ destruct (ConversationController.not_participant_catch
                  (DatabaseError NumericValueOutOfRange) db1) as [[r'|e'] db2];
        intros H; injection H as <- <-; eexists; reflexivity. }
  change (@ret Js.value (Js.Num t) db1) with (@Ret Js.value (Js.Num t), db1).
  cbv beta iota.
  destruct (ConversationParticipant_first v (Js.Num t) db1) as [[[p|]|e] db2].
  1:{ intros H; injection H as <- <-; eexists; reflexivity. }
  2:{ destruct (ConversationController.not_participant_catch e db2) as [[r'|e'] db3];
        intros H; injection H as <- <-; eexists; reflexivity. }
  destruct (User_find (Js.Num t) db2) as [[[u|]|e] db3].
  2:{ intros H; injection H as <- <-; eexists; reflexivity. }
  2:{ destruct (ConversationController.not_participant_catch e db3) as [[r'|e'] db4];
        intros H; injection H as <- <-; eexists; reflexivity. }
  destruct (ConversationParticipant_create v t now db3) as [[p|e] db4].
  1:{ intros H; injection H as <- <-; eexists; reflexivity. }
  destruct (ConversationController.not_participant_catch e db4) as [[r'|e'] db5];
    intros H; injection H as <- <-; eexists; reflexivity.
Qed.

Lemma participant_create_ok (v : Js.value) (c u now : Z) (db : Db) :
  sql_int v = Some c ->
  participant db c u = false ->
  has_conversation db c = true ->
  has_user db u = true ->
  ConversationParticipant_create v u now db
  = (Ret (added_row db c u now), after_add db c u now).
Proof.
  intros Hc Hfree Hconv Hu. unfold ConversationParticipant_create.
  rewrite (bind_ret_run _ _ _ _ _ (bind_int_run _ _ _ Hc)).
  unfold bind, get, modify, ret. unfold participant in Hfree.
  rewrite Hfree, Hconv, Hu. reflexivity.
Qed.

Lemma participant_create_duplicate (v : Js.value) (c u now : Z) (db : Db) :
  sql_int v = Some c ->
  participant db c u = true ->
  ConversationParticipant_create v u now db
  = (Throw (DatabaseError UniqueViolation), db).
Proof.
  intros Hc Hdup. unfold ConversationParticipant_create.
  rewrite (bind_ret_run _ _ _ _ _ (bind_int_run _ _ _ Hc)).
  unfold bind, get, throw. unfold participant in Hdup.
  now rewrite Hdup.
Qed.

Lemma participant_after_add (db : Db) (c t now : Z) :
  participant (after_add db c t now) c t = true.
Proof.
  unfold participant, after_add. cbn [conversation_participants].
  rewrite existsb_app. cbn [existsb]. unfold is_pair, added_row.
  cbn [ConversationParticipant.conversationId ConversationParticipant.userId].
  now rewrite !Z.eqb_refl, orb_true_r.
Qed.

Lemma participant_kept_by_add (db : Db) (c t now u : Z) :
  participant db c u = true -> participant (after_add db c t now) c u = true.
Proof.
  unfold participant, after_add. cbn [conversation_participants].
  intros H. now rewrite existsb_app, H.
Qed.

Lemma rows_after_add (db : Db) (c t now : Z) :
  participant db c t = false -> rows_of (after_add db c t now) c t = 1%nat.
Proof.
  intros Hfree. unfold rows_of, after_add. cbn [conversation_participants].
  rewrite filter_app, length_app. unfold participant in Hfree.
  rewrite (filter_none _ _ Hfree). cbn [filter]. unfold is_pair, added_row.
  cbn [ConversationParticipant.conversationId ConversationParticipant.userId].
  now rewrite !Z.eqb_refl.
Qed.

Lemma User_find_run (db : Db) (t : Z) :
  has_user db t = true ->
  exists u, User_find (Js.Num t) db = (Ret (Some u), db).
Proof.
  intros Ht. unfold User_find, bind, bind_int, get, ret. cbn [sql_int].
  unfold has_user in Ht. rewrite <- find_is_existsb in Ht.
  destruct (find _ (users db)) as [u|]; [now exists u | discriminate].
Qed.

Lemma first_found (v : Js.value) (c t : Z) (db : Db) :
  sql_int v = Some c ->
  participant db c t = true ->
  exists p, ConversationParticipant_first v (Js.Num t) db = (Ret (Some p), db).
Proof.
  intros Hc Hp. rewrite (first_run v (Js.Num t) c t db Hc eq_refl).
  unfold participant in Hp. rewrite <- find_is_existsb in Hp.
  destruct (find _ _) as [p|]; [now exists p | discriminate].
Qed.

Lemma first_not_found (v : Js.value) (c t : Z) (db : Db) :
  sql_int v = Some c ->
  participant db c t = false ->
  ConversationParticipant_first v (Js.Num t) db = (Ret None, db).
Proof.
  intros Hc Hp. rewrite (first_run v (Js.Num t) c t db Hc eq_refl).
  unfold participant in Hp. rewrite <- find_is_existsb in Hp.
  destruct (find _ _); [discriminate | reflexivity].
Qed.

Section Race.

Variables (db : Db) (v : Js.value) (c t : Z).
Hypothesis Hv : sql_int v = Some c.
Hypothesis Hconv : has_conversation db c = true.
Hypothesis Hfree : participant db c t = false.
Hypothesis Ht : has_user db t = true.

(** A step taken while the user is not in the roster. *)
Lemma step_before (user : User.t) (now : Z) (s : Concurrent.stage) :
  participant db c (User.id user) = true ->
  Concurrent.step user v t now s db
  = (next_before s,
     match s with
     | Concurrent.AtInsert => after_add db c t now
     | _ => db
     end).
Proof.
  intros Hu. destruct s; cbn [Concurrent.step next_before].
  - rewrite (ensureParticipant_run _ _ _ _ Hv). now rewrite Hu.
  - rewrite (bind_ret_run _ _ _ _ _
               (bind_number_run has_user t db (bound_held _ _ Ht))).
    now rewrite (first_not_found _ _ _ _ Hv Hfree).
  - destruct (User_find_run db t Ht) as [u ->]. reflexivity.
  - now rewrite (participant_create_ok _ _ _ now _ Hv Hfree Hconv Ht).
  - reflexivity.
Qed.

(** A step taken once another request has put the user in the roster. *)
Lemma step_after (user : User.t) (now now' : Z) (s : Concurrent.stage) :
  participant db c (User.id user) = true ->
  Concurrent.step user v t now s (after_add db c t now')
  = (next_after s, after_add db c t now').
Proof.
  intros Hu. destruct s; cbn [Concurrent.step next_after].
  - rewrite (ensureParticipant_run _ _ _ _ Hv).
    now rewrite (participant_kept_by_add db c t now' _ Hu).
  - rewrite (bind_ret_run _ _ _ _ _
               (bind_number_run has_user t (after_add db c t now')
                  (bound_held (has_user (after_add db c t now')) t Ht))).
    destruct (first_found v c t _ Hv (participant_after_add db c t now')) as [p ->].
    reflexivity.
  - destruct (User_find_run (after_add db c t now') t Ht) as [u ->]. reflexivity.
  - now rewrite (participant_create_duplicate _ _ _ now _ Hv
                   (participant_after_add db c t now')).
  - reflexivity.
Qed.

Lemma lost_next_after (s : Concurrent.stage) : lost s -> lost (next_after s).
Proof.
  unfold lost. intros [Hw|[E|E]]; [|subst s; now right; left | subst s; now right; right].
  destruct s; cbn; try discriminate; auto.
Qed.

Variables (user1 user2 : User.t) (now1 now2 : Z).
Hypothesis H1 : participant db c (User.id user1) = true.
Hypothesis H2 : participant db c (User.id user2) = true.

Lemma first_steps (s1 s2 : Concurrent.stage) (d : Db) :
  race_invariant db c t now1 now2 s1 s2 d ->
  race_invariant db c t now1 now2
    (fst (Concurrent.step user1 v t now1 s1 d)) s2
    (snd (Concurrent.step user1 v t now1 s1 d)).
Proof.
  intros [[Hd [W1 W2]]|[[Hd [Hs L2]]|[Hd [Hs L1]]]]; subst.
  - rewrite (step_before user1 now1 s1 H1). cbn [fst snd].
    destruct s1; try discriminate; cbn [next_before].
    + left. auto.
    + left. auto.
    + left. auto.
    + right. left. split; [reflexivity|]. split; [reflexivity|]. now left.
  - right. left. cbn [Concurrent.step fst snd]. auto.
  - rewrite (step_after user1 now1 now2 s1 H1). cbn [fst snd].
    right. right. split; [reflexivity|]. split; [reflexivity|].
    now apply lost_next_after.
Qed.

Lemma second_steps (s1 s2 : Concurrent.stage) (d : Db) :
  race_invariant db c t now1 now2 s1 s2 d ->
  race_invariant db c t now1 now2 s1
    (fst (Concurrent.step user2 v t now2 s2 d))
    (snd (Concurrent.step user2 v t now2 s2 d)).
Proof.
  intros [[Hd [W1 W2]]|[[Hd [Hs L2]]|[Hd [Hs L1]]]]; subst.
  - rewrite (step_before user2 now2 s2 H2). cbn [fst snd].
    destruct s2; try discriminate; cbn [next_before].
    + left. auto.
    + left. auto.
    + left. auto.
    + right. right. split; [reflexivity|]. split; [reflexivity|]. now left.
  - rewrite (step_after user2 now2 now1 s2 H2). cbn [fst snd].
    right. left. split; [reflexivity|]. split; [reflexivity|].
    now apply lost_next_after.
  - right. right. cbn [Concurrent.step fst snd]. auto.
Qed.

(** The invariant holds all along every schedule. *)
Lemma run_invariant (schedule : list bool) : forall s1 s2 d,
  race_invariant db c t now1 now2 s1 s2 d ->
  race_invariant db c t now1 now2
    (fst (fst (Concurrent.run user1 user2 v t now1 now2 schedule s1 s2 d)))
    (snd (fst (Concurrent.run user1 user2 v t now1 now2 schedule s1 s2 d)))
    (snd (Concurrent.run user1 user2 v t now1 now2 schedule s1 s2 d)).
Proof.
  induction schedule as [|[|] rest IH]; intros s1 s2 d Hinv; cbn [Concurrent.run].
  - exact Hinv.
  - pose proof (first_steps s1 s2 d Hinv) as Hstep.
    destruct (Concurrent.step user1 v t now1 s1 d) as [s1' d'].
    now apply IH.
  - pose proof (second_steps s1 s2 d Hinv) as Hstep.
    destruct (Concurrent.step user2 v t now2 s2 d) as [s2' d'].
    now apply IH.
Qed.

End Race.

(** C4, as amended: two requests add the same user to the same
    conversation, their queries interleaved in any order, and both are
    answered.  Exactly one Participant row is persisted for the pair and
    exactly one request is answered 200.  The other request, when it
    passed the not-already-a-participant check and attempted the insert,
    is refused by the uniqueness constraint of the roster: no handler
    catches that error and the request is answered with the generic 500,
    not with AlreadyParticipant.  AlreadyParticipant is the answer only
    when the check of the losing request ran after the insert of the
    other. *)
Theorem C4_concurrent_add (db : Db) (user1 user2 : User.t)
    (conversationId : Js.value) (c t now1 now2 : Z) (schedule : list bool)
    (r1 r2 : response) (inserting1 inserting2 : bool) (db' : Db) :
  sql_int conversationId = Some c ->
  has_conversation db c = true ->
  participant db c t = false ->
  has_user db t = true ->
  participant db c (User.id user1) = true ->
  participant db c (User.id user2) = true ->
  Concurrent.run user1 user2 conversationId t now1 now2 schedule
    Concurrent.AtEnsure Concurrent.AtEnsure db
  = (Concurrent.Answered r1 inserting1, Concurrent.Answered r2 inserting2, db') ->
  rows_of db' c t = 1%nat
  /\ ((r1 = added /\ inserting1 = true
       /\ r2 = (if inserting2 then internalServerError else already_participant))
      \/ (r2 = added /\ inserting2 = true
          /\ r1 = (if inserting1 then internalServerError else already_participant)))
  /\ internalServerError <> already_participant.
Proof.
  intros Hv Hconv Hfree Ht H1 H2 Hrun.
  assert (Hinv : race_invariant db c t now1 now2
                   Concurrent.AtEnsure Concurrent.AtEnsure db)
    by (left; auto).
  apply (run_invariant db conversationId c t Hv Hconv Hfree Ht
           user1 user2 now1 now2 H1 H2 schedule) in Hinv.
  rewrite Hrun in Hinv. cbn [fst snd] in Hinv.
  split; [|split; [|discriminate]].
  - destruct Hinv as [[_ [W _]]|[[Hd _]|[Hd _]]];
      [discriminate | subst db' | subst db']; now apply rows_after_add.
  - destruct Hinv as [[_ [W _]]|[[_ [E L]]|[_ [E L]]]]; [discriminate| |].
    + left. injection E as -> ->. split; [reflexivity|]. split; [reflexivity|].
      destruct L as [W|[E|E]]; [discriminate| |]; now injection E as -> ->.
    + right. injection E as -> ->. split; [reflexivity|]. split; [reflexivity|].
      destruct L as [W|[E|E]]; [discriminate| |]; now injection E as -> ->.
Qed.

Lemma C4_concurrent_add_witness :
  Concurrent.run Sample.alice Sample.bob (Js.Str "1") 3 300 301
    Concurrent.checks_first Concurrent.AtEnsure Concurrent.AtEnsure Sample.db
  = (Concurrent.Answered added true,
     Concurrent.Answered internalServerError true,
     after_add Sample.db 1 3 300)
  /\ rows_of (after_add Sample.db 1 3 300) 1 3 = 1%nat
  /\ ((added = added /\ true = true
       /\ internalServerError
          = (if true then internalServerError else already_participant))
      \/ (internalServerError = added /\ true = true
          /\ added = (if true then internalServerError else already_participant)))
  /\ internalServerError <> already_participant.
Proof.
  split; [reflexivity|].
  apply (C4_concurrent_add Sample.db Sample.alice Sample.bob (Js.Str "1") 1 3
           300 301 Concurrent.checks_first added internalServerError true true
           (after_add Sample.db 1 3 300));
    reflexivity.
Defined.

(** Alice and Bob both add Carol to conversation 1; both pass the checks
    and both attempt the insert.  One row is written; the request that
    inserts second is answered 500, which is not the answer given for a
    user that already is a participant. *)
Lemma C4_counterexample :
  Concurrent.run Sample.alice Sample.bob (Js.Str "1") 3 300 301
    Concurrent.checks_first Concurrent.AtEnsure Concurrent.AtEnsure Sample.db
  = (Concurrent.Answered added true,
     Concurrent.Answered internalServerError true,
     after_add Sample.db 1 3 300)
  /\ rows_of (after_add Sample.db 1 3 300) 1 3 = 1%nat
  /\ status internalServerError = 500
  /\ internalServerError <> already_participant.
Proof. repeat split. discriminate. Qed.

(** When the second request only starts once the first is answered, its
    check sees the row and it is answered AlreadyParticipant. *)
Example one_after_the_other :
  Concurrent.run Sample.alice Sample.bob (Js.Str "1") 3 300 301
    [true; true; true; true; false; false; false; false]
    Concurrent.AtEnsure Concurrent.AtEnsure Sample.db
  = (Concurrent.Answered added true,
     Concurrent.Answered already_participant false,
     after_add Sample.db 1 3 300).
Proof. reflexivity. Qed.

(** ... and when the second request inserts first, the first is the one
    answered 500. *)
Example second_inserts_first :
  Concurrent.run Sample.alice Sample.bob (Js.Str "1") 3 300 301
    [true; false; true; false; true; false; false; true]
    Concurrent.AtEnsure Concurrent.AtEnsure Sample.db
  = (Concurrent.Answered internalServerError true,
     Concurrent.Answered added true,
     after_add Sample.db 1 3 301).
Proof. reflexivity. Qed.

(** Without the race the second request is answered AlreadyParticipant:
    its check sees the row of the first. *)
Lemma addParticipant_twice_in_sequence (db : Db) (user1 user2 : User.t)
    (v : Js.value) (c t now1 now2 : Z) :
  sql_int v = Some c ->
  has_conversation db c = true ->
  participant db c (User.id user1) = true ->
  participant db c (User.id user2) = true ->
  participant db c t = false ->
  has_user db t = true ->
  serve (ConversationController.addParticipant user1 v t now1) db
  = (added, after_add db c t now1)
  /\ serve (ConversationController.addParticipant user2 v t now2) (after_add db c t now1)
     = (already_participant, after_add db c t now1).
Proof.
  intros Hc Hconv H1 H2 Hfree Ht. split.
  - unfold serve, ConversationController.addParticipant.
    rewrite (try_ret_run _ _ db (after_add db c t now1) added); [reflexivity|].
    rewrite (bind_ret_run _ _ db db tt).
    2:{ rewrite (ensureParticipant_run _ _ _ _ Hc). now rewrite H1. }
    rewrite (bind_ret_run _ _ _ _ _
               (bind_number_run has_user t db (bound_held _ _ Ht))).
    rewrite (bind_ret_run _ _ _ _ _ (first_not_found _ _ _ _ Hc Hfree)).
    destruct (User_find_run db t Ht) as [u Hu].
    rewrite (bind_ret_run _ _ _ _ _ Hu).
    now rewrite (bind_ret_run _ _ _ _ _
                   (participant_create_ok _ _ _ now1 _ Hc Hfree Hconv Ht)).
  - unfold serve, ConversationController.addParticipant.
    rewrite (try_ret_run _ _ _ (after_add db c t now1) already_participant);
      [reflexivity|].
    rewrite (bind_ret_run _ _ (after_add db c t now1) (after_add db c t now1) tt).
    2:{ rewrite (ensureParticipant_run _ _ _ _ Hc).
        now rewrite (participant_kept_by_add db c t now1 _ H2). }
    rewrite (bind_ret_run _ _ _ _ _
               (bind_number_run has_user t (after_add db c t now1)
                  (bound_held (has_user (after_add db c t now1)) t Ht))).
    destruct (first_found v c t _ Hc (participant_after_add db c t now1)) as [p Hp].
    now rewrite (bind_ret_run _ _ _ _ _ Hp).
Qed.

(** ** Listing the messages of a conversation *)

Lemma insert_desc_perm (m : Message.t) (l : list Message.t) :
  Permutation (insert_desc m l) (m :: l).
Proof.
  induction l as [|x l IH]; simpl; [apply Permutation_refl|].
  destruct (Message.createdAt x <=? Message.createdAt m).
  - apply Permutation_refl.
  - apply Permutation_trans with (x :: m :: l).
    + now apply perm_skip.
    + apply perm_swap.
Qed.

Lemma orderBy_perm (l : list Message.t) :
  Permutation (orderBy_created_at_desc l) l.
Proof.
  induction l as [|x l IH]; simpl; [apply Permutation_refl|].
  apply Permutation_trans with (x :: orderBy_created_at_desc l).
  - apply insert_desc_perm.
  - now apply perm_skip.
Qed.

Lemma orderBy_length (l : list Message.t) :
  List.length (orderBy_created_at_desc l) = List.length l.
Proof. apply Permutation_length, orderBy_perm. Qed.

Lemma insert_desc_sorted (m : Message.t) (l : list Message.t) :
  StronglySorted newer_first l -> StronglySorted newer_first (insert_desc m l).
Proof.
  induction l as [|x l IH]; intros Hs; simpl.
  - constructor; constructor.
  - inversion Hs as [|? ? Hl Hx]; subst.
    destruct (Z.leb_spec (Message.createdAt x) (Message.createdAt m)) as [Hle|Hgt].
    + constructor; [exact Hs|]. constructor; [exact Hle|].
      rewrite Forall_forall in *. intros y Hy. specialize (Hx y Hy).
      unfold newer_first in *. lia.
    + constructor; [now apply IH|].
      rewrite Forall_forall in *. intros y Hy.
      apply (Permutation_in _ (insert_desc_perm m l)) in Hy.
      destruct Hy as [<-|Hy]; [unfold newer_first; lia | now apply Hx].
Qed.

Lemma orderBy_sorted (l : list Message.t) :
  StronglySorted newer_first (orderBy_created_at_desc l).
Proof.
  induction l as [|x l IH]; simpl; [constructor | now apply insert_desc_sorted].
Qed.

(** One page of the listing, as the handler answers it to a participant. *)
Lemma index_run (db : Db) (user : User.t) (v : Js.value) (c page limit : Z) :
  sql_int v = Some c ->
  participant db c (User.id user) = true ->
  1 <= page -> 0 <= limit ->
  limit <= 9223372036854775807 ->
  (page - 1) * limit <= 9223372036854775807 ->
  MessageController.index user v (Some page) (Some limit) db
  = (Ret (ok (JsonPage
       (Paginator.mk (Z.of_nat (List.length (listing db c))) limit page
          (map (preload_message db)
             (firstn (Z.to_nat limit)
                (skipn (Z.to_nat ((page - 1) * limit)) (listing db c))))))),
     db).
Proof.
  intros Hc Hu Hpage Hlimit Hmax Hoffset. unfold MessageController.index.
  apply try_ret_run.
  rewrite (bind_ret_run _ _ db db tt).
  2:{ rewrite (ensureParticipant_run _ _ _ _ Hc). now rewrite Hu. }
  erewrite bind_ret_run; [reflexivity|].
  unfold Message_paginate.
  rewrite (bind_ret_run _ _ _ _ _ (bind_int_run _ _ _ Hc)).
  unfold bind, get, ret.
  destruct (Z.ltb_spec page 1); [lia|].
  destruct (Z.ltb_spec limit 0); [lia|].
  destruct (Z.ltb_spec 9223372036854775807 limit); [lia|].
  destruct (Z.ltb_spec 9223372036854775807 ((page - 1) * limit)); [lia|].
  reflexivity.
Qed.

Lemma map_row_preload (db : Db) (l : list Message.t) :
  map MessageJson.row (map (preload_message db) l) = l.
Proof.
  induction l as [|x l IH]; simpl; [reflexivity | now rewrite IH].
Qed.

Lemma three_pages {A} (l : list A) :
  List.length l = 120%nat ->
  firstn 50 l ++ firstn 50 (skipn 50 l) ++ firstn 50 (skipn 100 l) = l.
Proof.
  intros H.
  rewrite (firstn_all2 (n := 50) (skipn 100 l)) by (rewrite length_skipn; lia).
  change 100%nat with (50 + 50)%nat. rewrite <- skipn_skipn.
  now rewrite !firstn_skipn.
Qed.

(** C9: a conversation holds 120 messages and a participant lists them
    50 a page.  Pages 1 and 2 hold 50 messages each and page 3 holds 20;
    the three pages, one after the other, are the messages of the
    conversation, each once, newest-created first; the total told is 120;
    and a request that gives no page size is answered as with 50. *)
Theorem C9_pagination (db : Db) (user : User.t) (conversationId : Js.value) (c : Z) :
  sql_int conversationId = Some c ->
  participant db c (User.id user) = true ->
  List.length (filter (fun r => Message.conversationId r =? c) (messages db))
  = 120%nat ->
  exists p1 p2 p3,
    MessageController.index user conversationId (Some 1) (Some 50) db
    = (Ret (ok (JsonPage p1)), db)
    /\ MessageController.index user conversationId (Some 2) (Some 50) db
       = (Ret (ok (JsonPage p2)), db)
    /\ MessageController.index user conversationId (Some 3) (Some 50) db
       = (Ret (ok (JsonPage p3)), db)
    /\ List.length (Paginator.data p1) = 50%nat
    /\ List.length (Paginator.data p2) = 50%nat
    /\ List.length (Paginator.data p3) = 20%nat
    /\ Paginator.total p1 = 120
    /\ StronglySorted newer_first
         (map MessageJson.row
            (Paginator.data p1 ++ Paginator.data p2 ++ Paginator.data p3))
    /\ Permutation
         (map MessageJson.row
            (Paginator.data p1 ++ Paginator.data p2 ++ Paginator.data p3))
         (filter (fun r => Message.conversationId r =? c) (messages db))
    /\ forall page,
         MessageController.index user conversationId page None db
         = MessageController.index user conversationId page (Some 50) db.
Proof.
  intros Hc Hu Hlen.
  assert (Hl : List.length (listing db c) = 120%nat)
    by (unfold listing; now rewrite orderBy_length).
  do 3 eexists.
  split; [apply (index_run db user _ c 1 50 Hc Hu); lia|].
  split; [apply (index_run db user _ c 2 50 Hc Hu); lia|].
  split; [apply (index_run db user _ c 3 50 Hc Hu); lia|].
  cbn [Paginator.data Paginator.total].
  change (Z.to_nat 50) with 50%nat.
  change (Z.to_nat ((1 - 1) * 50)) with 0%nat.
  change (Z.to_nat ((2 - 1) * 50)) with 50%nat.
  change (Z.to_nat ((3 - 1) * 50)) with 100%nat.
  rewrite !length_map, !length_firstn, !length_skipn, Hl.
  split; [reflexivity|]. split; [reflexivity|]. split; [reflexivity|].
  split; [reflexivity|].
  rewrite <- !map_app, map_row_preload.
  change (skipn 0 (listing db c)) with (listing db c).
  rewrite (three_pages _ Hl).
  split; [apply orderBy_sorted|]. split; [apply orderBy_perm|].
  reflexivity.
Qed.

Example busy_page_1 :
  Busy.ids (MessageController.index Sample.bob (Js.Str "1") (Some 1) (Some 50) Busy.db)
  = map Z.of_nat (rev (seq 71 50)).
Proof. vm_compute. reflexivity. Qed.

Example busy_page_3 :
  Busy.ids (MessageController.index Sample.bob (Js.Str "1") (Some 3) None Busy.db)
  = map Z.of_nat (rev (seq 1 20)).
Proof. vm_compute. reflexivity. Qed.

Lemma C9_pagination_witness :
  exists p1 p2 p3,
    MessageController.index Sample.bob (Js.Str "1") (Some 1) (Some 50) Busy.db
    = (Ret (ok (JsonPage p1)), Busy.db)
    /\ MessageController.index Sample.bob (Js.Str "1") (Some 2) (Some 50) Busy.db
       = (Ret (ok (JsonPage p2)), Busy.db)
    /\ MessageController.index Sample.bob (Js.Str "1") (Some 3) (Some 50) Busy.db
       = (Ret (ok (JsonPage p3)), Busy.db)
    /\ List.length (Paginator.data p1) = 50%nat
    /\ List.length (Paginator.data p2) = 50%nat
    /\ List.length (Paginator.data p3) = 20%nat
    /\ Paginator.total p1 = 120
    /\ StronglySorted newer_first
         (map MessageJson.row
            (Paginator.data p1 ++ Paginator.data p2 ++ Paginator.data p3))
    /\ Permutation
         (map MessageJson.row
            (Paginator.data p1 ++ Paginator.data p2 ++ Paginator.data p3))
         (filter (fun r => Message.conversationId r =? 1) (messages Busy.db))
    /\ forall page,
         MessageController.index Sample.bob (Js.Str "1") page None Busy.db
         = MessageController.index Sample.bob (Js.Str "1") page (Some 50) Busy.db.
Proof.
  apply (C9_pagination Busy.db Sample.bob (Js.Str "1") 1).
  - reflexivity.
  - reflexivity.
  - vm_compute. reflexivity.
Defined.

(** ** The invariants of the store are kept *)

Lemma keeps_ret (P : Db -> Prop) {A} (a : A) : keeps P (ret a).
Proof. intros db H. exact H. Qed.

Lemma keeps_throw (P : Db -> Prop) {A} (e : exn) : keeps P (@throw A e).
Proof. intros db H. exact H. Qed.

Lemma keeps_get (P : Db -> Prop) : keeps P get.
Proof. intros db H. exact H. Qed.

Lemma keeps_bind (P : Db -> Prop) {A B} (m : M A) (k : A -> M B) :
  keeps P m -> (forall a, keeps P (k a)) -> keeps P (bind m k).
Proof.
  intros Hm Hk db H. unfold bind. specialize (Hm db H).
  destruct (m db) as [[a|e] db1]; cbn [snd] in *; [now apply Hk | exact Hm].
Qed.

Lemma keeps_try (P : Db -> Prop) {A} (m : M A) (h : exn -> M A) :
  keeps P m -> (forall e, keeps P (h e)) -> keeps P (try_catch m h).
Proof.
  intros Hm Hh db H. unfold try_catch. specialize (Hm db H).
  destruct (m db) as [[a|e] db1]; cbn [snd] in *; [exact Hm | now apply Hh].
Qed.

Lemma keeps_bind_int (P : Db -> Prop) (v : Js.value) : keeps P (bind_int v).
Proof. unfold bind_int. destruct (sql_int v); [apply keeps_ret | apply keeps_throw]. Qed.

(** A step that reads the store and decides on what it read. *)
Lemma keeps_read (P : Db -> Prop) {A} (k : Db -> M A) :
  (forall db, P db -> P (snd (k db db))) -> keeps P (bind get k).
Proof. intros H db Hdb. unfold bind, get. now apply H. Qed.

Lemma keeps_serve (P : Db -> Prop) (h : M response) :
  keeps P h -> forall db, P db -> P (snd (serve h db)).
Proof.
  intros Hh db H. unfold serve. specialize (Hh db H).
  now destruct (h db) as [[r|e] db1].
Qed.

Lemma NoDup_snoc {A} (x : A) (l : list A) :
  NoDup l -> ~ In x l -> NoDup (l ++ [x]).
Proof.
  intros Hl Hx. apply (Permutation_NoDup (Permutation_cons_append l x)).
  now constructor.
Qed.

(** The invariants only speak of the users, the conversations, the
    roster and their sequences. *)
Lemma store_ok_same (db db' : Db) :
  users db' = users db ->
  conversations db' = conversations db ->
  conversation_participants db' = conversation_participants db ->
  next_conversation_id db' = next_conversation_id db ->
  next_participant_id db' = next_participant_id db ->
  store_ok db -> store_ok db'.
Proof.
  unfold store_ok, participants_unique, participant_ids_issued, users_unique,
    roster_references, conversation_ids_issued, has_conversation.
  intros -> -> -> -> ->. trivial.
Qed.

Lemma keeps_participant_create (v : Js.value) (u now : Z) :
  keeps store_ok (ConversationParticipant_create v u now).
Proof.
  unfold ConversationParticipant_create.
  apply keeps_bind; [apply keeps_bind_int|]. intros c.
  apply keeps_read. intros db Hok.
  destruct (existsb (is_pair c u) (conversation_participants db)) eqn:Hfree;
    [exact Hok|].
  destruct (has_conversation db c && has_user db u) eqn:Hfk; cbn [negb];
    [|exact Hok].
  apply andb_true_iff in Hfk. destruct Hfk as [Hconv _].
  destruct Hok as [[Hids Hpairs] [Hissued [Husers [Href Hseq]]]].
  unfold bind, modify, ret. cbn [snd].
  unfold store_ok, participants_unique, participant_ids_issued, users_unique,
    roster_references, conversation_ids_issued, has_conversation in *.
  cbn [users conversations conversation_participants next_conversation_id
       next_participant_id].
  rewrite !map_app. cbn [map].
  repeat split.
  - apply NoDup_snoc; [exact Hids|]. cbn [ConversationParticipant.id].
    intros Hin. apply in_map_iff in Hin. destruct Hin as [p [Hp Hin]].
    rewrite Forall_forall in Hissued. specialize (Hissued p Hin). lia.
  - apply NoDup_snoc; [exact Hpairs|]. intros Hin.
    apply in_map_iff in Hin. destruct Hin as [p [Hp Hin]].
    assert (E : existsb (is_pair c u) (conversation_participants db) = true).
    { apply existsb_exists. exists p. split; [exact Hin|]. now apply is_pair_spec. }
    congruence.
  - apply Forall_app. split.
    + apply (Forall_impl _ (fun p H => Z.lt_trans _ _ _ H (Z.lt_succ_diag_r _)) Hissued).
    + constructor; [|constructor]. cbn [ConversationParticipant.id]. lia.
  - exact Husers.
  - apply Forall_app. split; [exact Href|]. constructor; [exact Hconv|constructor].
  - exact Hseq.
Qed.

Lemma keeps_createMany_rows (v : Js.value) (now : Z) (ids : list Z) :
  keeps store_ok (createMany_rows v ids now).
Proof.
  induction ids as [|u rest IH]; cbn [createMany_rows].
  - apply keeps_ret.
  - apply keeps_bind; [apply keeps_participant_create|]. intros p.
    apply keeps_bind; [exact IH|]. intros ps. apply keeps_ret.
Qed.

Lemma keeps_createMany (v : Js.value) (now : Z) (ids : list Z) :
  keeps store_ok (ConversationParticipant_createMany v ids now).
Proof.
  intros db Hok. unfold ConversationParticipant_createMany.
  pose proof (keeps_createMany_rows v now ids db Hok) as H.
  now destruct (createMany_rows v ids now db) as [[ps|e] db1].
Qed.

Lemma keeps_participant_delete (p : ConversationParticipant.t) :
  keeps store_ok (ConversationParticipant_delete p).
Proof.
  intros db [[Hids Hpairs] [Hissued [Husers [Href Hseq]]]].
  unfold ConversationParticipant_delete, modify. cbn [snd].
  unfold store_ok, participants_unique, participant_ids_issued, users_unique,
    roster_references, conversation_ids_issued, has_conversation, set_participants in *.
  cbn [users conversations conversation_participants next_conversation_id
       next_participant_id].
  repeat split.
  - now apply NoDup_map_filter.
  - now apply NoDup_map_filter.
  - rewrite Forall_forall in *. intros x Hx. apply filter_In in Hx. now apply Hissued.
  - exact Husers.
  - rewrite Forall_forall in *. intros x Hx. apply filter_In in Hx. now apply Href.
  - exact Hseq.
Qed.

Lemma keeps_conversation_create (name description : option string) (u now : Z) :
  keeps store_ok (Conversation_create name description u now).
Proof.
  unfold Conversation_create. apply keeps_read. intros db Hok.
  destruct (conversation_references_ok db u); cbn [negb]; [|exact Hok].
  destruct Hok as [[Hids Hpairs] [Hissued [Husers [Href Hseq]]]].
  unfold bind, modify, ret. cbn [snd].
  unfold store_ok, participants_unique, participant_ids_issued, users_unique,
    roster_references, conversation_ids_issued, has_conversation in *.
  cbn [users conversations conversation_participants next_conversation_id
       next_participant_id].
  repeat split; trivial.
  - rewrite Forall_forall in *. intros p Hp. specialize (Href p Hp).
    rewrite existsb_app, Href. reflexivity.
  - apply Forall_app. split.
    + apply (Forall_impl _ (fun p H => Z.lt_trans _ _ _ H (Z.lt_succ_diag_r _)) Hseq).
    + constructor; [|constructor]. cbn [Conversation.id]. lia.
Qed.

Lemma existsb_conversation_map (f : Conversation.t -> Conversation.t) (x : Z)
    (l : list Conversation.t) :
  (forall r, Conversation.id (f r) = Conversation.id r) ->
  existsb (fun r => Conversation.id r =? x) (map f l)
  = existsb (fun r => Conversation.id r =? x) l.
Proof.
  intros Hf. induction l as [|r l IH]; simpl; [reflexivity|].
  now rewrite Hf, IH.
Qed.

Lemma keeps_conversation_save (original c : Conversation.t) (now : Z) :
  keeps store_ok (Conversation_save original c now).
Proof.
  unfold Conversation_save. destruct (dirty original c); [|apply keeps_ret].
  intros db [[Hids Hpairs] [Hissued [Husers [Href Hseq]]]].
  unfold bind, modify, ret. cbn [snd].
  set (row := Conversation.mk (Conversation.id c) (Conversation.name c)
                (Conversation.description c) (Conversation.createdBy c)
                (Conversation.createdAt c) (Some now)).
  set (f := fun r : Conversation.t =>
              if Conversation.id r =? Conversation.id c then row else r).
  assert (Hf : forall r, Conversation.id (f r) = Conversation.id r).
  { intros r. unfold f. destruct (Z.eqb_spec (Conversation.id r) (Conversation.id c));
      [now subst row | reflexivity]. }
  unfold store_ok, participants_unique, participant_ids_issued, users_unique,
    roster_references, conversation_ids_issued, has_conversation, set_conversations in *.
  cbn [users conversations conversation_participants next_conversation_id
       next_participant_id].
  repeat split; trivial.
  - rewrite Forall_forall in *. intros p Hp.
    rewrite (existsb_conversation_map f _ _ Hf). now apply Href.
  - rewrite Forall_forall in *. intros r Hr. apply in_map_iff in Hr.
    destruct Hr as [r0 [<- Hr0]]. rewrite Hf. now apply Hseq.
Qed.

Lemma keeps_conversation_delete (c : Conversation.t) :
  keeps store_ok (Conversation_delete c).
Proof.
  intros db [[Hids Hpairs] [Hissued [Husers [Href Hseq]]]].
  unfold Conversation_delete, modify. cbn [snd].
  unfold store_ok, participants_unique, participant_ids_issued, users_unique,
    roster_references, conversation_ids_issued, has_conversation in *.
  cbn [users conversations conversation_participants next_conversation_id
       next_participant_id].
  repeat split.
  - now apply NoDup_map_filter.
  - now apply NoDup_map_filter.
  - rewrite Forall_forall in *. intros x Hx. apply filter_In in Hx. now apply Hissued.
  - exact Husers.
  - rewrite Forall_forall in *. intros p Hp. apply filter_In in Hp.
    destruct Hp as [Hp Hne]. specialize (Href p Hp).
    apply existsb_exists in Href. destruct Href as [r [Hr Hid]].
    apply existsb_exists. exists r. split; [|exact Hid].
    apply filter_In. split; [exact Hr|].
    apply Z.eqb_eq in Hid. now rewrite Hid.
  - rewrite Forall_forall in *. intros r Hr. apply filter_In in Hr. now apply Hseq.
Qed.

Lemma keeps_message_create (v : Js.value) (u : Z) (content : string)
    (r : option Z) (now : Z) :
  keeps store_ok (Message_create v u content r now).
Proof.
  unfold Message_create. apply keeps_bind; [apply keeps_bind_int|]. intros c.
  apply keeps_read. intros db Hok.
  destruct (message_references_ok db c u r); cbn [negb]; [|exact Hok].
  now apply (store_ok_same db).
Qed.

Lemma keeps_message_save (m : Message.t) (editedAt : option assigned) (now : Z) :
  keeps store_ok (Message_save m editedAt now).
Proof.
  intros db Hok. destruct editedAt as [[t|t]|]; [| exact Hok |];
    now apply (store_ok_same db).
Qed.

Lemma keeps_message_delete (m : Message.t) : keeps store_ok (Message_delete m).
Proof. intros db Hok. now apply (store_ok_same db). Qed.

Create HintDb keeps.
#[local] Hint Resolve keeps_participant_create keeps_createMany
  keeps_participant_delete keeps_conversation_create keeps_conversation_save
  keeps_conversation_delete keeps_message_create keeps_message_save
  keeps_message_delete : keeps.

(** Walks through a handler: its binds, its [try] blocks and its
    branches; the writes are settled by the lemmas above. *)
Ltac keeps_walk :=
  repeat first
    [ apply keeps_ret | apply keeps_throw | apply keeps_get | apply keeps_bind_int
    | solve [auto with keeps]
    | apply keeps_bind; [|intros ?]
    | apply keeps_try; [|intros ?]
    | match goal with
      | |- keeps _ (match ?x with _ => _ end) => destruct x
      | |- keeps _ (let _ := _ in _) => cbv zeta
      end ].

Ltac keeps_handler :=
  unfold ConversationAuthorizationService.ensureParticipant,
    ConversationAuthorizationService.ensureCreator,
    ConversationAuthorizationService.isParticipant,
    ConversationAuthorizationService.isCreator,
    MessageController.not_participant_catch,
    ConversationController.not_participant_catch,
    MessageController.check_reply,
    createMessageValidator, updateMessageValidator, valid_content,
    createConversationValidator, updateConversationValidator,
    ConversationParticipant_first, User_find, User_whereIn, Conversation_find,
    Conversation_findOrFail, Message_find, Message_paginate, load_message,
    load_conversation;
  keeps_walk.

(** Every handler keeps the invariants of the store, whatever it is given
    and whatever it answers. *)
Lemma handlers_keep_store_ok :
  (forall user v page limit, keeps store_ok (MessageController.index user v page limit))
  /\ (forall user v body now, keeps store_ok (MessageController.store user v body now))
  /\ (forall user v body now, keeps store_ok (MessageController.update user v body now))
  /\ (forall user v, keeps store_ok (MessageController.destroy user v))
  /\ (forall user body now, keeps store_ok (ConversationController.store user body now))
  /\ (forall user v body now, keeps store_ok (ConversationController.update user v body now))
  /\ (forall user v, keeps store_ok (ConversationController.destroy user v))
  /\ (forall user v t now, keeps store_ok (ConversationController.addParticipant user v t now))
  /\ (forall user v t, keeps store_ok (ConversationController.removeParticipant user v t)).
Proof.
  repeat match goal with |- _ /\ _ => split end; intros.
  - unfold MessageController.index. keeps_handler.
  - unfold MessageController.store. keeps_handler.
  - unfold MessageController.update. keeps_handler.
  - unfold MessageController.destroy. keeps_handler.
  - unfold ConversationController.store. keeps_handler.
  - unfold ConversationController.update. keeps_handler.
  - unfold ConversationController.destroy. keeps_handler.
  - unfold ConversationController.addParticipant. keeps_handler.
  - unfold ConversationController.removeParticipant. keeps_handler.
Qed.

Lemma sample_store_ok : store_ok Sample.db.
Proof.
  unfold store_ok, participants_unique, participant_ids_issued, users_unique,
    roster_references, conversation_ids_issued.
  cbn. repeat split; repeat constructor; cbv; intuition congruence.
Qed.

(** * Further properties of the handlers *)

(** ** The participant gate *)

Lemma serve_ret (h : M response) (db db' : Db) (r : response) :
  h db = (Ret r, db') -> serve h db = (r, db').
Proof. intros H. unfold serve. now rewrite H. Qed.

Lemma ensureParticipant_refuses (v : Js.value) (c u : Z) (db : Db) :
  sql_int v = Some c ->
  participant db c u = false ->
  ConversationAuthorizationService.ensureParticipant v u db
  = (Throw (Error "User is not a participant in this conversation"), db).
Proof.
  intros Hv Hp. rewrite (ensureParticipant_run _ _ _ _ Hv). now rewrite Hp.
Qed.

Lemma ensureParticipant_passes (v : Js.value) (c u : Z) (db : Db) :
  sql_int v = Some c ->
  participant db c u = true ->
  ConversationAuthorizationService.ensureParticipant v u db = (Ret tt, db).
Proof.
  intros Hv Hp. rewrite (ensureParticipant_run _ _ _ _ Hv). now rewrite Hp.
Qed.

Lemma index_not_participant (db : Db) (user : User.t) (v : Js.value) (c : Z)
    (page limit : option Z) :
  sql_int v = Some c ->
  participant db c (User.id user) = false ->
  MessageController.index user v page limit db
  = (Ret (forbidden (JsonText "You are not a participant in this conversation")), db).
Proof.
  intros Hv Hp. unfold MessageController.index.
  erewrite try_throw_run;
    [|apply bind_throw_run; exact (ensureParticipant_refuses _ _ _ _ Hv Hp)].
  reflexivity.
Qed.

Lemma message_store_not_participant (db : Db) (user : User.t) (v : Js.value) (c : Z)
    (content : string) (replyToId : option Z) (now : Z) :
  sql_int v = Some c ->
  participant db c (User.id user) = false ->
  content_ok content ->
  MessageController.store user v (CreateMessage.mk content replyToId) now db
  = (Ret (forbidden (JsonText "You are not a participant in this conversation")), db).
Proof.
  intros Hv Hp Hcontent. unfold MessageController.store, createMessageValidator.
  rewrite (bind_ret_run _ _ _ _ _
             (bind_ret_run _ _ _ _ _ (valid_content_run _ _ Hcontent))).
  unfold ret at 1.
  erewrite try_throw_run;
    [|apply bind_throw_run; exact (ensureParticipant_refuses _ _ _ _ Hv Hp)].
  reflexivity.
Qed.

Lemma addParticipant_not_participant (db : Db) (user : User.t) (v : Js.value)
    (c t now : Z) :
  sql_int v = Some c ->
  participant db c (User.id user) = false ->
  ConversationController.addParticipant user v t now db
  = (Ret (forbidden (JsonText "You are not a participant in this conversation")), db).
Proof.
  intros Hv Hp. unfold ConversationController.addParticipant.
  erewrite try_throw_run;
    [|apply bind_throw_run; exact (ensureParticipant_refuses _ _ _ _ Hv Hp)].
  reflexivity.
Qed.

(** Whoever has no roster row in a conversation, named by an id within
    the range of the id column, is answered 403 by every handler that
    works on the conversation's messages or roster, and nothing is
    written: whatever page is asked for, whatever message is replied to
    and whatever user is to be added or removed, none of which is looked
    at.  The content of a new message is looked at before: it is one
    that passes the validator. *)
Theorem participant_gate (db : Db) (user : User.t) (conversationId : Js.value)
    (c : Z) (page limit : option Z) (content : string) (replyToId : option Z)
    (userId now : Z) (target : Js.value) :
  sql_int conversationId = Some c ->
  int4 c ->
  participant db c (User.id user) = false ->
  content_ok content ->
  let refused :=
    (forbidden (JsonText "You are not a participant in this conversation"), db) in
  serve (MessageController.index user conversationId page limit) db = refused
  /\ serve (MessageController.store user conversationId
              (CreateMessage.mk content replyToId) now) db = refused
  /\ serve (ConversationController.addParticipant user conversationId userId now) db
     = refused
  /\ serve (ConversationController.removeParticipant user conversationId target) db
     = refused.
Proof.
  intros Hv _ Hp Hcontent refused. subst refused.
  repeat match goal with |- _ /\ _ => split end; apply serve_ret.
  - now apply index_not_participant with (c := c).
  - now apply message_store_not_participant with (c := c).
  - now apply addParticipant_not_participant with (c := c).
  - now apply removeParticipant_not_participant with (c := c).
Qed.

Lemma participant_gate_witness :
  serve (MessageController.index Sample.carol (Js.Str "1") None None) Sample.db
  = (forbidden (JsonText "You are not a participant in this conversation"), Sample.db)
  /\ serve (MessageController.store Sample.carol (Js.Str "1")
              (CreateMessage.mk "hi" (Some 1)) 200) Sample.db
     = (forbidden (JsonText "You are not a participant in this conversation"), Sample.db)
  /\ serve (ConversationController.addParticipant Sample.carol (Js.Str "1") 3 200)
       Sample.db
     = (forbidden (JsonText "You are not a participant in this conversation"), Sample.db)
  /\ serve (ConversationController.removeParticipant Sample.carol (Js.Str "1")
              (Js.Str "2")) Sample.db
     = (forbidden (JsonText "You are not a participant in this conversation"), Sample.db).
Proof.
  apply (participant_gate Sample.db Sample.carol (Js.Str "1") 1 None None "hi"
           (Some 1) 3 200 (Js.Str "2")).
  - reflexivity.
  - unfold int4. lia.
  - reflexivity.
  - unfold content_ok. simpl. lia.
Defined.

(** ** Showing a conversation *)

Lemma Conversation_find_run (v : Js.value) (c : Z) (db : Db) :
  sql_int v = Some c ->
  Conversation_find v db
  = (Ret (find (fun r => Conversation.id r =? c) (conversations db)), db).
Proof.
  intros Hv. unfold Conversation_find.
  rewrite (bind_ret_run _ _ _ _ _ (bind_int_run _ _ _ Hv)). reflexivity.
Qed.

Lemma show_missing (db : Db) (user : User.t) (v : Js.value) (c : Z) :
  sql_int v = Some c ->
  find (fun r => Conversation.id r =? c) (conversations db) = None ->
  ConversationController.show user v db
  = (Ret (notFound (JsonText "Conversation not found")), db).
Proof.
  intros Hv Hfind. unfold ConversationController.show,
    ConversationAuthorizationService.getConversationForUser.
  erewrite try_throw_run.
  2:{ apply bind_throw_run.
      rewrite (bind_ret_run _ _ _ _ _ (Conversation_find_run _ _ _ Hv)).
      rewrite Hfind. reflexivity. }
  reflexivity.
Qed.

Lemma show_not_participant (db : Db) (user : User.t) (v : Js.value) (c : Z)
    (conversation : Conversation.t) :
  sql_int v = Some c ->
  find (fun r => Conversation.id r =? c) (conversations db) = Some conversation ->
  participant db c (User.id user) = false ->
  ConversationController.show user v db
  = (Ret (forbidden (JsonText "You are not a participant in this conversation")), db).
Proof.
  intros Hv Hfind Hp. unfold ConversationController.show,
    ConversationAuthorizationService.getConversationForUser.
  erewrite try_throw_run.
  2:{ apply bind_throw_run.
      rewrite (bind_ret_run _ _ _ _ _ (Conversation_find_run _ _ _ Hv)).
      rewrite Hfind. apply bind_throw_run.
      exact (ensureParticipant_refuses _ _ _ _ Hv Hp). }
  reflexivity.
Qed.

Lemma show_participant (db : Db) (user : User.t) (v : Js.value) (c : Z)
    (conversation : Conversation.t) :
  sql_int v = Some c ->
  find (fun r => Conversation.id r =? c) (conversations db) = Some conversation ->
  participant db c (User.id user) = true ->
  ConversationController.show user v db
  = (Ret (ok (JsonConversation (conversation_json db conversation))), db).
Proof.
  intros Hv Hfind Hp. unfold ConversationController.show,
    ConversationAuthorizationService.getConversationForUser.
  apply try_ret_run.
  erewrite bind_ret_run.
  2:{ rewrite (bind_ret_run _ _ _ _ _ (Conversation_find_run _ _ _ Hv)).
      rewrite Hfind.
      rewrite (bind_ret_run _ _ _ _ _ (ensureParticipant_passes _ _ _ _ Hv Hp)).
      reflexivity. }
  reflexivity.
Qed.

(** [show] looks the conversation up before it looks at the roster: on
    an id within the range of the id column, a missing conversation is
    answered 404 whoever asks, an existing one 403 to whoever has no
    roster row in it, and 200 with its creator and its roster to a
    participant.  Nothing is written. *)
Theorem show_answers (db : Db) (user : User.t) (conversationId : Js.value) (c : Z) :
  sql_int conversationId = Some c ->
  int4 c ->
  serve (ConversationController.show user conversationId) db
  = (match find (fun r => Conversation.id r =? c) (conversations db) with
     | None => notFound (JsonText "Conversation not found")
     | Some conversation =>
         if participant db c (User.id user)
         then ok (JsonConversation (conversation_json db conversation))
         else forbidden (JsonText "You are not a participant in this conversation")
     end, db).
Proof.
  intros Hv _. apply serve_ret.
  destruct (find (fun r => Conversation.id r =? c) (conversations db))
    as [conversation|] eqn:Hfind.
  - destruct (participant db c (User.id user)) eqn:Hp.
    + now apply show_participant with (c := c).
    + now apply show_not_participant with (c := c) (conversation := conversation).
  - now apply show_missing with (c := c).
Qed.

Lemma show_answers_witness :
  serve (ConversationController.show Sample.carol (Js.Str "1")) Sample.db
  = (match find (fun r => Conversation.id r =? 1) (conversations Sample.db) with
     | None => notFound (JsonText "Conversation not found")
     | Some conversation =>
         if participant Sample.db 1 (User.id Sample.carol)
         then ok (JsonConversation (conversation_json Sample.db conversation))
         else forbidden (JsonText "You are not a participant in this conversation")
     end, Sample.db).
Proof.
  apply (show_answers Sample.db Sample.carol (Js.Str "1") 1).
  - reflexivity.
  - unfold int4. lia.
Defined.

Example show_missing_conversation :
  fst (serve (ConversationController.show Sample.alice (Js.Str "99")) Sample.db)
  = notFound (JsonText "Conversation not found").
Proof. reflexivity. Qed.

(** A conversation that does not exist has no roster row, the roster
    referencing conversations. *)
Lemma missing_conversation_has_no_row (db : Db) (c u : Z) :
  roster_references db ->
  has_conversation db c = false ->
  participant db c u = false.
Proof.
  intros Href Hmissing. unfold participant.
  destruct (existsb _ _) eqn:E; [|reflexivity].
  apply existsb_exists in E. destruct E as [p [Hp Hpair]].
  apply is_pair_spec in Hpair. injection Hpair as Hc _.
  unfold roster_references in Href. rewrite Forall_forall in Href.
  specialize (Href p Hp). congruence.
Qed.

(** On an id of no conversation, within the range of the id column,
    [show] answers 404 and the handlers behind the participant gate
    answer 403 (the new message having a content that passes the
    validator): they do not look the conversation up, and it has no
    roster row. *)
Theorem missing_conversation_answers (db : Db) (user : User.t)
    (conversationId : Js.value) (c : Z) (page limit : option Z)
    (content : string) (replyToId : option Z) (userId now : Z) (target : Js.value) :
  sql_int conversationId = Some c ->
  int4 c ->
  roster_references db ->
  has_conversation db c = false ->
  content_ok content ->
  serve (ConversationController.show user conversationId) db
  = (notFound (JsonText "Conversation not found"), db)
  /\ status (fst (serve (MessageController.index user conversationId page limit) db))
     = 403
  /\ status (fst (serve (MessageController.store user conversationId
                           (CreateMessage.mk content replyToId) now) db)) = 403
  /\ status (fst (serve (ConversationController.addParticipant user conversationId
                           userId now) db)) = 403
  /\ status (fst (serve (ConversationController.removeParticipant user conversationId
                           target) db)) = 403.
Proof.
  intros Hv _ Href Hmissing Hcontent.
  pose proof (missing_conversation_has_no_row db c (User.id user) Href Hmissing) as Hp.
  split; [|split; [|split; [|split]]].
  - apply serve_ret. apply show_missing with (c := c); [exact Hv|].
    unfold has_conversation in Hmissing. rewrite <- find_is_existsb in Hmissing.
    destruct (find _ (conversations db)); [discriminate | reflexivity].
  - unfold serve. now rewrite (index_not_participant db user _ c page limit Hv Hp).
  - unfold serve.
    now rewrite (message_store_not_participant db user _ c content replyToId now
                   Hv Hp Hcontent).
  - unfold serve. now rewrite (addParticipant_not_participant db user _ c userId now Hv Hp).
  - unfold serve. now rewrite (removeParticipant_not_participant db user _ target c Hv Hp).
Qed.

Lemma missing_conversation_answers_witness :
  serve (ConversationController.show Sample.alice (Js.Str "99")) Sample.db
  = (notFound (JsonText "Conversation not found"), Sample.db)
  /\ status (fst (serve (MessageController.index Sample.alice (Js.Str "99") None None)
                    Sample.db)) = 403
  /\ status (fst (serve (MessageController.store Sample.alice (Js.Str "99")
                           (CreateMessage.mk "hi" None) 200) Sample.db)) = 403
  /\ status (fst (serve (ConversationController.addParticipant Sample.alice
                           (Js.Str "99") 2 200) Sample.db)) = 403
  /\ status (fst (serve (ConversationController.removeParticipant Sample.alice
                           (Js.Str "99") (Js.Str "2")) Sample.db)) = 403.
Proof.
  apply (missing_conversation_answers Sample.db Sample.alice (Js.Str "99") 99
           None None "hi" None 2 200 (Js.Str "2")).
  - reflexivity.
  - unfold int4. lia.
  - exact sample_roster_references.
  - reflexivity.
  - unfold content_ok. simpl. lia.
Defined.

(** ** The ownership gate *)

Lemma Message_find_run (v : Js.value) (n : Z) (db : Db) :
  sql_int v = Some n ->
  Message_find v db = (Ret (find (fun r => Message.id r =? n) (messages db)), db).
Proof.
  intros Hv. unfold Message_find.
  rewrite (bind_ret_run _ _ _ _ _ (bind_int_run _ _ _ Hv)). reflexivity.
Qed.

Lemma strict_neq_numbers (a b : Z) :
  a <> b -> Js.strict_neq (Js.Num a) (Js.Num b) = true.
Proof.
  intros H. unfold Js.strict_neq. simpl. now apply negb_true_iff, Z.eqb_neq.
Qed.

(** Whoever is not the author of a message is answered 403 on its edit
    and on its deletion, a participant of its conversation like anybody
    else, and the message stays as it is. *)
Theorem ownership_gate (db : Db) (user : User.t) (messageId : Js.value) (n : Z)
    (m : Message.t) (content : string) (now : Z) :
  sql_int messageId = Some n ->
  find (fun r => Message.id r =? n) (messages db) = Some m ->
  Message.userId m <> User.id user ->
  content_ok content ->
  serve (MessageController.update user messageId (UpdateMessage.mk content) now) db
  = (forbidden (JsonText "You can only edit your own messages"), db)
  /\ serve (MessageController.destroy user messageId) db
     = (forbidden (JsonText "You can only delete your own messages"), db).
Proof.
  intros Hv Hm Hother Hcontent. split; apply serve_ret.
  - unfold MessageController.update, updateMessageValidator.
    rewrite (bind_ret_run _ _ _ _ _
               (bind_ret_run _ _ _ _ _ (valid_content_run _ _ Hcontent))).
    unfold ret at 1.
    rewrite (bind_ret_run _ _ _ _ _ (Message_find_run _ _ _ Hv)), Hm.
    now rewrite (strict_neq_numbers _ _ Hother).
  - unfold MessageController.destroy.
    rewrite (bind_ret_run _ _ _ _ _ (Message_find_run _ _ _ Hv)), Hm.
    now rewrite (strict_neq_numbers _ _ Hother).
Qed.

Lemma ownership_gate_witness :
  participant Sample.db (Message.conversationId Sample.hello) (User.id Sample.bob)
  = true
  /\ serve (MessageController.update Sample.bob (Js.Str "1")
              (UpdateMessage.mk "mine now") 300) Sample.db
     = (forbidden (JsonText "You can only edit your own messages"), Sample.db)
  /\ serve (MessageController.destroy Sample.bob (Js.Str "1")) Sample.db
     = (forbidden (JsonText "You can only delete your own messages"), Sample.db).
Proof.
  split; [reflexivity|].
  apply (ownership_gate Sample.db Sample.bob (Js.Str "1") 1 Sample.hello
           "mine now" 300).
  - reflexivity.
  - reflexivity.
  - simpl. lia.
  - unfold content_ok. simpl. lia.
Defined.

(** On an id of no message, within the range of the id column, the
    three handlers of one message answer 404 and write nothing, the edit
    having a content that passes the validator. *)
Theorem missing_message_answers (db : Db) (user : User.t) (messageId : Js.value)
    (n : Z) (content : string) (now : Z) :
  sql_int messageId = Some n ->
  int4 n ->
  has_message db n = false ->
  content_ok content ->
  serve_answer (MessageController.show user messageId) db
  = (Plain (notFound (JsonText "Message not found")), db)
  /\ serve (MessageController.update user messageId (UpdateMessage.mk content) now) db
     = (notFound (JsonText "Message not found"), db)
  /\ serve (MessageController.destroy user messageId) db
     = (notFound (JsonText "Message not found"), db).
Proof.
  intros Hv _ Hmissing Hcontent.
  unfold has_message in Hmissing. rewrite <- find_is_existsb in Hmissing.
  destruct (find (fun r => Message.id r =? n) (messages db)) eqn:Hm;
    [discriminate|].
  split; [|split].
  - unfold serve_answer, MessageController.show.
    now rewrite (bind_ret_run _ _ _ _ _ (Message_find_run _ _ _ Hv)), Hm.
  - apply serve_ret. unfold MessageController.update, updateMessageValidator.
    rewrite (bind_ret_run _ _ _ _ _
               (bind_ret_run _ _ _ _ _ (valid_content_run _ _ Hcontent))).
    unfold ret at 1.
    now rewrite (bind_ret_run _ _ _ _ _ (Message_find_run _ _ _ Hv)), Hm.
  - apply serve_ret. unfold MessageController.destroy.
    now rewrite (bind_ret_run _ _ _ _ _ (Message_find_run _ _ _ Hv)), Hm.
Qed.

Lemma missing_message_answers_witness :
  serve_answer (MessageController.show Sample.alice (Js.Str "77")) Sample.db
  = (Plain (notFound (JsonText "Message not found")), Sample.db)
  /\ serve (MessageController.update Sample.alice (Js.Str "77")
              (UpdateMessage.mk "x") 300) Sample.db
     = (notFound (JsonText "Message not found"), Sample.db)
  /\ serve (MessageController.destroy Sample.alice (Js.Str "77")) Sample.db
     = (notFound (JsonText "Message not found"), Sample.db).
Proof.
  apply (missing_message_answers Sample.db Sample.alice (Js.Str "77") 77 "x" 300).
  - reflexivity.
  - unfold int4. lia.
  - reflexivity.
  - unfold content_ok. simpl. lia.
Defined.

(** ** Showing a message *)

(** An existing message is shown, with its author, its conversation and
    the message it replies to, to the participants of its conversation
    and to them only, the author included: who has no roster row is
    answered 403.  Nothing is written. *)
Theorem message_show_answers (db : Db) (user : User.t) (messageId : Js.value)
    (n : Z) (m : Message.t) :
  sql_int messageId = Some n ->
  find (fun r => Message.id r =? n) (messages db) = Some m ->
  serve_answer (MessageController.show user messageId) db
  = (if participant db (Message.conversationId m) (User.id user)
     then Json 200
            (MessageDetail.mk
               (MessageJson.mk m (user_summary db (Message.userId m))
                  (match or_null (Message.replyToId m) with
                   | Some t => Loaded (reply_summary db (Some t))
                   | None => NotLoaded
                   end))
               (MessageController.conversation_summary db (Message.conversationId m)))
     else Plain (forbidden (JsonText "You are not a participant in this conversation")),
     db).
Proof.
  intros Hv Hm. unfold serve_answer, MessageController.show.
  rewrite (bind_ret_run _ _ _ _ _ (Message_find_run _ _ _ Hv)), Hm.
  destruct (participant db (Message.conversationId m) (User.id user)) eqn:Hp.
  - erewrite try_ret_run; [reflexivity|].
    rewrite (bind_ret_run _ _ _ _ _
               (ensureParticipant_passes (Js.Num (Message.conversationId m)) _ _ _
                  eq_refl Hp)).
    reflexivity.
  - erewrite try_throw_run.
    2:{ apply bind_throw_run.
        exact (ensureParticipant_refuses (Js.Num (Message.conversationId m)) _ _ _
                 eq_refl Hp). }
    reflexivity.
Qed.

Lemma message_show_answers_witness :
  participant AuthorLeft.db (Message.conversationId Sample.hello)
    (User.id Sample.alice) = false
  /\ serve_answer (MessageController.show Sample.alice (Js.Str "1")) AuthorLeft.db
     = (if participant AuthorLeft.db (Message.conversationId Sample.hello)
             (User.id Sample.alice)
        then Json 200
               (MessageDetail.mk
                  (MessageJson.mk Sample.hello
                     (user_summary AuthorLeft.db (Message.userId Sample.hello))
                     (match or_null (Message.replyToId Sample.hello) with
                      | Some t => Loaded (reply_summary AuthorLeft.db (Some t))
                      | None => NotLoaded
                      end))
                  (MessageController.conversation_summary AuthorLeft.db
                     (Message.conversationId Sample.hello)))
        else Plain (forbidden
               (JsonText "You are not a participant in this conversation")),
        AuthorLeft.db).
Proof.
  split; [reflexivity|].
  apply (message_show_answers AuthorLeft.db Sample.alice (Js.Str "1") 1 Sample.hello);
    reflexivity.
Defined.

(** ** The creator of a conversation *)

(** Whoever is not the creator of a conversation is answered 403 on its
    update and on its deletion, a participant like anybody else, and
    nothing is written. *)
Theorem creator_gate (db : Db) (user : User.t) (conversationId : Js.value) (c : Z)
    (conversation : Conversation.t) (patch : UpdateConversation.t) (now : Z) :
  sql_int conversationId = Some c ->
  find (fun r => Conversation.id r =? c) (conversations db) = Some conversation ->
  Conversation.createdBy conversation <> User.id user ->
  serve (ConversationController.update user conversationId patch now) db
  = (forbidden (JsonText "Only the creator can update this conversation"), db)
  /\ serve (ConversationController.destroy user conversationId) db
     = (forbidden (JsonText "Only the creator can delete this conversation"), db).
Proof.
  intros Hv Hfind Hother. split; apply serve_ret.
  - apply update_refused with (c := c); [exact Hv | now rewrite Hfind].
  - apply destroy_refused with (c := c); [exact Hv | now rewrite Hfind].
Qed.

Lemma creator_gate_witness :
  participant Sample.db 1 (User.id Sample.bob) = true
  /\ serve (ConversationController.update Sample.bob (Js.Str "1")
              (UpdateConversation.mk (Some "Z") None) 300) Sample.db
     = (forbidden (JsonText "Only the creator can update this conversation"),
        Sample.db)
  /\ serve (ConversationController.destroy Sample.bob (Js.Str "1")) Sample.db
     = (forbidden (JsonText "Only the creator can delete this conversation"),
        Sample.db).
Proof.
  split; [reflexivity|].
  apply (creator_gate Sample.db Sample.bob (Js.Str "1") 1
           (Conversation.mk 1 (Some "X") None 1 10 (Some 10))
           (UpdateConversation.mk (Some "Z") None) 300).
  - reflexivity.
  - reflexivity.
  - simpl. lia.
Defined.

Lemma ensureCreator_passes (v : Js.value) (c u : Z) (conversation : Conversation.t)
    (db : Db) :
  sql_int v = Some c ->
  find (fun r => Conversation.id r =? c) (conversations db) = Some conversation ->
  Conversation.createdBy conversation = u ->
  ConversationAuthorizationService.ensureCreator v u db = (Ret tt, db).
Proof.
  intros Hv Hfind Hu. unfold ConversationAuthorizationService.ensureCreator.
  rewrite (bind_ret_run _ _ _ _ _ (isCreator_run _ _ _ _ Hv)).
  now rewrite Hfind, Hu, Z.eqb_refl.
Qed.

Lemma find_conversation_id (n : Z) (l : list Conversation.t) (c : Conversation.t) :
  find (fun r => Conversation.id r =? n) l = Some c -> Conversation.id c = n.
Proof.
  intros H. apply find_some in H. destruct H as [_ H]. now apply Z.eqb_eq in H.
Qed.







Example update_changes_description :
  let conversation := Conversation.mk 1 (Some "X") None 1 10 (Some 10) in
  let patch := UpdateConversation.mk None (Some "about X") in
  changes conversation patch = true
  /\ updated conversation patch 300
     = Conversation.mk 1 (Some "X") (Some "about X") 1 10 (Some 300)
  /\ snd (serve (ConversationController.update Sample.alice (Js.Str "1") patch 300)
            Sample.db)
     = after_update Sample.db conversation patch 300.
Proof. repeat split. Qed.

Lemma participant_after_cascade (l : list ConversationParticipant.t) (c c' u : Z) :
  existsb (is_pair c' u)
    (filter (fun r => negb (ConversationParticipant.conversationId r =? c)) l)
  = if c' =? c then false else existsb (is_pair c' u) l.
Proof.
  induction l as [|p l IH]; simpl; [now destruct (c' =? c)|].
  destruct (Z.eqb_spec (ConversationParticipant.conversationId p) c) as [Hp|Hp]; simpl.
  - rewrite IH. destruct (Z.eqb_spec c' c) as [->|Hc]; [reflexivity|].
    unfold is_pair at 2. rewrite Hp.
    destruct (Z.eqb_spec c c'); [congruence | reflexivity].
  - rewrite IH. destruct (Z.eqb_spec c' c) as [->|Hc]; [|reflexivity].
    unfold is_pair.
    destruct (Z.eqb_spec (ConversationParticipant.conversationId p) c);
      [contradiction | reflexivity].
Qed.

Lemma find_conversation_after_delete (l : list Conversation.t) (c j : Z) :
  find (fun r => Conversation.id r =? j)
       (filter (fun r => negb (Conversation.id r =? c)) l)
  = if j =? c then None else find (fun r => Conversation.id r =? j) l.
Proof.
  induction l as [|x l IH]; simpl; [now destruct (j =? c)|].
  destruct (Z.eqb_spec (Conversation.id x) c) as [Hx|Hx]; simpl.
  - rewrite IH. destruct (Z.eqb_spec j c) as [Hj|Hj]; [reflexivity|].
    destruct (Z.eqb_spec (Conversation.id x) j); [congruence | reflexivity].
  - rewrite IH. destruct (Z.eqb_spec j c) as [Hj|Hj]; [|reflexivity].
    destruct (Z.eqb_spec (Conversation.id x) j); [congruence | reflexivity].
Qed.

Lemma destroy_by_creator (db : Db) (user : User.t) (v : Js.value) (c : Z)
    (conversation : Conversation.t) :
  sql_int v = Some c ->
  find (fun r => Conversation.id r =? c) (conversations db) = Some conversation ->
  Conversation.createdBy conversation = User.id user ->
  ConversationController.destroy user v db
  = (Ret noContent,
     mkDb (users db)
          (filter (fun r => negb (Conversation.id r =? c)) (conversations db))
          (filter (fun r => negb (ConversationParticipant.conversationId r =? c))
                  (conversation_participants db))
          (cascade_messages c (messages db))
          (next_conversation_id db) (next_participant_id db) (next_message_id db)).
Proof.
  intros Hv Hfind Hcreator.
  pose proof (find_conversation_id _ _ _ Hfind) as Hid.
  unfold ConversationController.destroy.
  apply try_ret_run.
  rewrite (bind_ret_run _ _ _ _ _ (ensureCreator_passes _ _ _ _ _ Hv Hfind Hcreator)).
  erewrite bind_ret_run.
  2:{ unfold Conversation_findOrFail.
      rewrite (bind_ret_run _ _ _ _ _ (Conversation_find_run _ _ _ Hv)).
      rewrite Hfind. reflexivity. }
  unfold Conversation_delete, bind, modify, ret. rewrite Hid. reflexivity.
Qed.

(** The creator of a conversation deletes it, a participant or not: the
    answer is 204, the conversation is gone and so is its whole roster;
    the other conversations and their rosters stay as they are. *)
Theorem creator_deletes (db : Db) (user : User.t) (conversationId : Js.value)
    (c : Z) (conversation : Conversation.t) :
  sql_int conversationId = Some c ->
  find (fun r => Conversation.id r =? c) (conversations db) = Some conversation ->
  Conversation.createdBy conversation = User.id user ->
  exists db',
    serve (ConversationController.destroy user conversationId) db = (noContent, db')
    /\ find (fun r => Conversation.id r =? c) (conversations db') = None
    /\ (forall u, participant db' c u = false)
    /\ (forall j, j <> c ->
          find (fun r => Conversation.id r =? j) (conversations db')
          = find (fun r => Conversation.id r =? j) (conversations db))
    /\ (forall j u, j <> c -> participant db' j u = participant db j u)
    /\ users db' = users db.
Proof.
  intros Hv Hfind Hcreator.
  pose proof (find_conversation_id _ _ _ Hfind) as Hid.
  eexists. split.
  - apply serve_ret. now apply destroy_by_creator with (c := c) (conversation := conversation).
  - cbn [conversations conversation_participants users]. unfold participant.
    cbn [conversation_participants].
    split; [|split; [|split; [|split]]].
    + rewrite find_conversation_after_delete. now rewrite Z.eqb_refl.
    + intros u. rewrite participant_after_cascade. now rewrite Z.eqb_refl.
    + intros j Hj. rewrite find_conversation_after_delete.
      now destruct (Z.eqb_spec j c).
    + intros j u Hj. rewrite participant_after_cascade.
      now destruct (Z.eqb_spec j c).
    + reflexivity.
Qed.

Lemma creator_deletes_witness :
  exists db',
    serve (ConversationController.destroy Sample.bob (Js.Str "2")) Sample.db
    = (noContent, db')
    /\ find (fun r => Conversation.id r =? 2) (conversations db') = None
    /\ (forall u, participant db' 2 u = false)
    /\ (forall j, j <> 2 ->
          find (fun r => Conversation.id r =? j) (conversations db')
          = find (fun r => Conversation.id r =? j) (conversations Sample.db))
    /\ (forall j u, j <> 2 -> participant db' j u = participant Sample.db j u)
    /\ users db' = users Sample.db.
Proof.
  apply (creator_deletes Sample.db Sample.bob (Js.Str "2") 2
           (Conversation.mk 2 (Some "Y") None 2 20 (Some 20)));
    reflexivity.
Defined.

(** ** Adding and removing participants *)

(** A roster row is a row of an existing conversation. *)
Lemma participant_has_conversation (db : Db) (c u : Z) :
  roster_references db ->
  participant db c u = true ->
  has_conversation db c = true.
Proof.
  intros Href Hp. destruct (has_conversation db c) eqn:Hc; [reflexivity|].
  rewrite (missing_conversation_has_no_row db c u Href Hc) in Hp. discriminate.
Qed.

Lemma User_find_none (db : Db) (t : Z) :
  has_user db t = false ->
  User_find (Js.Num t) db = (Ret None, db).
Proof.
  intros Ht. unfold User_find, bind, bind_int, get, ret. cbn [sql_int].
  unfold has_user in Ht. rewrite <- find_is_existsb in Ht.
  destruct (find _ (users db)); [discriminate | reflexivity].
Qed.

Lemma addParticipant_already (db : Db) (user : User.t) (v : Js.value) (c t now : Z) :
  sql_int v = Some c ->
  bound (has_user db) t = true ->
  participant db c (User.id user) = true ->
  participant db c t = true ->
  ConversationController.addParticipant user v t now db
  = (Ret already_participant, db).
Proof.
  intros Hv Hb Hu Ht. unfold ConversationController.addParticipant.
  apply try_ret_run.
  rewrite (bind_ret_run _ _ _ _ _ (ensureParticipant_passes _ _ _ _ Hv Hu)).
  rewrite (bind_ret_run _ _ _ _ _ (bind_number_run has_user t db Hb)).
  destruct (first_found v c t db Hv Ht) as [p Hp].
  now rewrite (bind_ret_run _ _ _ _ _ Hp).
Qed.

Lemma addParticipant_unknown_user (db : Db) (user : User.t) (v : Js.value)
    (c t now : Z) :
  sql_int v = Some c ->
  bound (has_user db) t = true ->
  participant db c (User.id user) = true ->
  participant db c t = false ->
  has_user db t = false ->
  ConversationController.addParticipant user v t now db
  = (Ret (notFound (JsonText "User not found")), db).
Proof.
  intros Hv Hb Hu Hfree Ht. unfold ConversationController.addParticipant.
  apply try_ret_run.
  rewrite (bind_ret_run _ _ _ _ _ (ensureParticipant_passes _ _ _ _ Hv Hu)).
  rewrite (bind_ret_run _ _ _ _ _ (bind_number_run has_user t db Hb)).
  rewrite (bind_ret_run _ _ _ _ _ (first_not_found _ _ _ _ Hv Hfree)).
  now rewrite (bind_ret_run _ _ _ _ _ (User_find_none _ _ Ht)).
Qed.

Lemma addParticipant_adds (db : Db) (user : User.t) (v : Js.value) (c t now : Z) :
  sql_int v = Some c ->
  has_conversation db c = true ->
  participant db c (User.id user) = true ->
  participant db c t = false ->
  has_user db t = true ->
  ConversationController.addParticipant user v t now db
  = (Ret added, after_add db c t now).
Proof.
  intros Hv Hc Hu Hfree Ht. unfold ConversationController.addParticipant.
  apply try_ret_run.
  rewrite (bind_ret_run _ _ _ _ _ (ensureParticipant_passes _ _ _ _ Hv Hu)).
  rewrite (bind_ret_run _ _ _ _ _
             (bind_number_run has_user t db (bound_held _ _ Ht))).
  rewrite (bind_ret_run _ _ _ _ _ (first_not_found _ _ _ _ Hv Hfree)).
  destruct (User_find_run db t Ht) as [u Hfound].
  rewrite (bind_ret_run _ _ _ _ _ Hfound).
  now rewrite (bind_ret_run _ _ _ _ _
                 (participant_create_ok _ _ _ now _ Hv Hfree Hc Ht)).
Qed.

(** The roster after a row for [(c, t)] is added: that pair and the pairs
    that were there. *)
Lemma participant_after_add_any (db : Db) (c t now c' u : Z) :
  participant (after_add db c t now) c' u
  = participant db c' u || ((c' =? c) && (u =? t)).
Proof.
  unfold participant, after_add. cbn [conversation_participants].
  rewrite existsb_app. cbn [existsb]. unfold is_pair at 2, added_row.
  cbn [ConversationParticipant.conversationId ConversationParticipant.userId].
  now rewrite orb_false_r, (Z.eqb_sym c c'), (Z.eqb_sym t u).
Qed.

(** What a participant is answered who adds user [t] to the conversation,
    [t] being within the range of the id column: 400 when [t] already has
    a row, 404 when there is no user [t], and 200 otherwise; the first
    two write nothing and the third writes one row, after which the
    roster is what it was and the pair [(c, t)], once. *)
Theorem addParticipant_answers (db : Db) (user : User.t) (conversationId : Js.value)
    (c t now : Z) :
  sql_int conversationId = Some c ->
  int4 t ->
  roster_references db ->
  participant db c (User.id user) = true ->
  serve (ConversationController.addParticipant user conversationId t now) db
  = (if participant db c t then (already_participant, db)
     else if has_user db t then (added, after_add db c t now)
     else (notFound (JsonText "User not found"), db))
  /\ (participant db c t = false ->
      rows_of (after_add db c t now) c t = 1%nat
      /\ forall c' u,
           participant (after_add db c t now) c' u
           = participant db c' u || ((c' =? c) && (u =? t))).
Proof.
  intros Hv Hrange Href Hu. split.
  - destruct (participant db c t) eqn:Ht; [|destruct (has_user db t) eqn:Hexists];
      apply serve_ret.
    + apply addParticipant_already with (c := c); trivial. now apply bound_int4.
    + apply addParticipant_adds; trivial.
      exact (participant_has_conversation db c _ Href Hu).
    + apply addParticipant_unknown_user with (c := c); trivial. now apply bound_int4.
  - intros Hfree. split; [now apply rows_after_add|].
    intros c' u. apply participant_after_add_any.
Qed.

Lemma addParticipant_answers_witness :
  serve (ConversationController.addParticipant Sample.alice (Js.Str "1") 3 300) Sample.db
  = (added, after_add Sample.db 1 3 300)
  /\ serve (ConversationController.addParticipant Sample.alice (Js.Str "1") 2 300)
       Sample.db
     = (already_participant, Sample.db)
  /\ serve (ConversationController.addParticipant Sample.alice (Js.Str "1") 9 300)
       Sample.db
     = (notFound (JsonText "User not found"), Sample.db).
Proof.
  split; [|split].
  - exact (proj1 (addParticipant_answers Sample.db Sample.alice (Js.Str "1") 1 3 300
                    eq_refl (int4_of_b 3 eq_refl) sample_roster_references eq_refl)).
  - exact (proj1 (addParticipant_answers Sample.db Sample.alice (Js.Str "1") 1 2 300
                    eq_refl (int4_of_b 2 eq_refl) sample_roster_references eq_refl)).
  - exact (proj1 (addParticipant_answers Sample.db Sample.alice (Js.Str "1") 1 9 300
                    eq_refl (int4_of_b 9 eq_refl) sample_roster_references eq_refl)).
Defined.

Lemma find_pair_last (l : list ConversationParticipant.t) (c t : Z)
    (p : ConversationParticipant.t) :
  existsb (is_pair c t) l = false ->
  is_pair c t p = true ->
  find (is_pair c t) (l ++ [p]) = Some p.
Proof.
  intros Hfree Hp. induction l as [|x l IH]; simpl in *.
  - now rewrite Hp.
  - apply orb_false_iff in Hfree. destruct Hfree as [Hx Hl].
    rewrite Hx. now apply IH.
Qed.

Lemma filter_fresh_id (l : list ConversationParticipant.t) (k : Z) :
  Forall (fun p => ConversationParticipant.id p < k) l ->
  filter (fun r => negb (ConversationParticipant.id r =? k)) l = l.
Proof.
  induction 1 as [|x l Hx Hl IH]; simpl; [reflexivity|].
  destruct (Z.eqb_spec (ConversationParticipant.id x) k); [lia|].
  simpl. now rewrite IH.
Qed.

(** Adding a user and removing them again gives the roster back as it
    was, row for row; the id of the row that came and went is not issued
    again. *)
Theorem add_then_remove (db : Db) (user : User.t) (conversationId userId : Js.value)
    (c t now : Z) :
  sql_int conversationId = Some c ->
  sql_int userId = Some t ->
  roster_references db ->
  participant_ids_issued db ->
  participant db c (User.id user) = true ->
  participant db c t = false ->
  has_user db t = true ->
  exists db1 db2,
    serve (ConversationController.addParticipant user conversationId t now) db
    = (added, db1)
    /\ serve (ConversationController.removeParticipant user conversationId userId) db1
       = (ok (JsonText "Participant removed successfully"), db2)
    /\ conversation_participants db2 = conversation_participants db
    /\ users db2 = users db
    /\ conversations db2 = conversations db
    /\ messages db2 = messages db
    /\ next_participant_id db2 = next_participant_id db + 1.
Proof.
  intros Hv Hvt Href Hissued Hu Hfree Ht.
  exists (after_add db c t now). eexists.
  split.
  { apply serve_ret. apply addParticipant_adds; trivial.
    exact (participant_has_conversation db c _ Href Hu). }
  split.
  { apply serve_ret.
    apply (removeParticipant_removes _ user _ _ c t (added_row db c t now) Hv Hvt).
    - now apply participant_kept_by_add.
    - unfold after_add. cbn [conversation_participants].
      apply find_pair_last; [exact Hfree|].
      unfold is_pair, added_row.
      cbn [ConversationParticipant.conversationId ConversationParticipant.userId].
      now rewrite !Z.eqb_refl. }
  unfold set_participants, after_add, added_row.
  cbn [users conversations conversation_participants messages next_participant_id
       ConversationParticipant.id].
  repeat match goal with |- _ /\ _ => split end; try reflexivity.
  rewrite filter_app, (filter_fresh_id _ _ Hissued). cbn [filter].
  cbn [ConversationParticipant.id]. rewrite Z.eqb_refl. cbn [negb].
  apply app_nil_r.
Qed.

Lemma sample_participant_ids_issued : participant_ids_issued Sample.db.
Proof. repeat constructor. Qed.

Lemma add_then_remove_witness :
  exists db1 db2,
    serve (ConversationController.addParticipant Sample.alice (Js.Str "1") 3 300)
      Sample.db
    = (added, db1)
    /\ serve (ConversationController.removeParticipant Sample.alice (Js.Str "1")
                (Js.Str "3")) db1
       = (ok (JsonText "Participant removed successfully"), db2)
    /\ conversation_participants db2 = conversation_participants Sample.db
    /\ users db2 = users Sample.db
    /\ conversations db2 = conversations Sample.db
    /\ messages db2 = messages Sample.db
    /\ next_participant_id db2 = next_participant_id Sample.db + 1.
Proof.
  apply (add_then_remove Sample.db Sample.alice (Js.Str "1") (Js.Str "3") 1 3 300).
  - reflexivity.
  - reflexivity.
  - exact sample_roster_references.
  - exact sample_participant_ids_issued.
  - reflexivity.
  - reflexivity.
  - reflexivity.
Defined.

(** The roster after [DELETE ... WHERE id = p.id], [p] being the row of
    the pair [(c, t)]: every other pair is there as before. *)
Lemma roster_after_delete (l : list ConversationParticipant.t) (c t c' u : Z)
    (p : ConversationParticipant.t) :
  NoDup (map ConversationParticipant.id l) ->
  NoDup (map pair_of l) ->
  find (is_pair c t) l = Some p ->
  existsb (is_pair c' u)
    (filter (fun r => negb (ConversationParticipant.id r =? ConversationParticipant.id p)) l)
  = existsb (is_pair c' u) l && negb ((c' =? c) && (u =? t)).
Proof.
  intros Hids Hpairs Hfind.
  destruct (Z.eqb_spec c' c) as [Hc|Hc]; [destruct (Z.eqb_spec u t) as [Hu|Hu]|];
    cbn [andb negb]; rewrite ?andb_false_r, ?andb_true_r.
  - subst c' u. now apply pair_gone.
  - subst c'. destruct (existsb (is_pair c u) l) eqn:E.
    + apply pair_kept with (t := t); trivial. congruence.
    + destruct (existsb _ (filter _ l)) eqn:F; [|reflexivity].
      apply existsb_exists in F. destruct F as [q [Hq Hqu]].
      apply filter_In in Hq. destruct Hq as [Hq _].
      rewrite <- E. symmetry. apply existsb_exists. now exists q.
  - apply find_some in Hfind. destruct Hfind as [Hin Hp].
    destruct (existsb (is_pair c' u) l) eqn:E.
    + apply existsb_exists in E. destruct E as [q [Hq Hqu]].
      apply existsb_exists. exists q. split; [|exact Hqu].
      apply filter_In. split; [exact Hq|].
      apply negb_true_iff, Z.eqb_neq. intros Hid.
      assert (q = p) by (apply (NoDup_map_eq ConversationParticipant.id l); assumption).
      subst q. apply is_pair_spec in Hp, Hqu. congruence.
    + destruct (existsb _ (filter _ l)) eqn:F; [|reflexivity].
      apply existsb_exists in F. destruct F as [q [Hq Hqu]].
      apply filter_In in Hq. destruct Hq as [Hq _].
      rewrite <- E. symmetry. apply existsb_exists. now exists q.
Qed.

Lemma filter_other_ids (l : list ConversationParticipant.t) (k : Z) :
  ~ In k (map ConversationParticipant.id l) ->
  filter (fun r => negb (ConversationParticipant.id r =? k)) l = l.
Proof.
  induction l as [|x l IH]; simpl; [reflexivity|].
  intros Hk. destruct (Z.eqb_spec (ConversationParticipant.id x) k) as [Hx|Hx].
  - exfalso. apply Hk. now left.
  - simpl. rewrite IH; [reflexivity|]. intros Hin. apply Hk. now right.
Qed.

(** [DELETE ... WHERE id = p.id] removes one row, ids being a key. *)
Lemma one_row_deleted (l : list ConversationParticipant.t)
    (p : ConversationParticipant.t) :
  NoDup (map ConversationParticipant.id l) ->
  In p l ->
  S (List.length
       (filter (fun r => negb (ConversationParticipant.id r =? ConversationParticipant.id p))
               l))
  = List.length l.
Proof.
  induction l as [|x l IH]; simpl; [contradiction|].
  intros Hnd Hin. inversion Hnd as [|? ? Hnotin Hnd']; subst.
  destruct Hin as [Hx|Hin].
  - subst x. rewrite Z.eqb_refl. simpl. now rewrite (filter_other_ids _ _ Hnotin).
  - destruct (Z.eqb_spec (ConversationParticipant.id x) (ConversationParticipant.id p))
      as [Hid|Hid].
    + exfalso. apply Hnotin. rewrite Hid. now apply in_map.
    + simpl. now rewrite IH.
Qed.

(** A participant who removes the user [t] of the roster of a
    conversation removes one row: that pair has no row any more, every
    other pair of every conversation is in the roster as before, and the
    users, the conversations and the messages, those of [t] too, are not
    touched. *)
Theorem removeParticipant_removes_one (db : Db) (user : User.t)
    (conversationId userId : Js.value) (c t : Z) :
  sql_int conversationId = Some c ->
  sql_int userId = Some t ->
  participants_unique db ->
  participant db c (User.id user) = true ->
  participant db c t = true ->
  exists db',
    serve (ConversationController.removeParticipant user conversationId userId) db
    = (ok (JsonText "Participant removed successfully"), db')
    /\ (forall c' u,
          participant db' c' u
          = participant db c' u && negb ((c' =? c) && (u =? t)))
    /\ S (List.length (conversation_participants db'))
       = List.length (conversation_participants db)
    /\ users db' = users db
    /\ conversations db' = conversations db
    /\ messages db' = messages db.
Proof.
  intros Hv Hvt [Hids Hpairs] Hu Ht.
  unfold participant in Ht. rewrite <- find_is_existsb in Ht.
  destruct (find (is_pair c t) (conversation_participants db)) as [p|] eqn:Hp;
    [clear Ht | discriminate].
  eexists. split.
  { apply serve_ret. exact (removeParticipant_removes db user _ _ c t p Hv Hvt Hu Hp). }
  unfold participant, set_participants.
  cbn [users conversations conversation_participants messages].
  repeat match goal with |- _ /\ _ => split end; try reflexivity.
  - intros c' u. now apply roster_after_delete.
  - apply one_row_deleted; [exact Hids|]. apply find_some in Hp. tauto.
Qed.

Lemma removeParticipant_removes_one_witness :
  exists db',
    serve (ConversationController.removeParticipant Sample.bob (Js.Str "1") (Js.Str "1"))
      Sample.db
    = (ok (JsonText "Participant removed successfully"), db')
    /\ (forall c' u,
          participant db' c' u
          = participant Sample.db c' u && negb ((c' =? 1) && (u =? 1)))
    /\ S (List.length (conversation_participants db'))
       = List.length (conversation_participants Sample.db)
    /\ users db' = users Sample.db
    /\ conversations db' = conversations Sample.db
    /\ messages db' = messages Sample.db.
Proof.
  apply (removeParticipant_removes_one Sample.db Sample.bob (Js.Str "1") (Js.Str "1")
           1 1).
  - reflexivity.
  - reflexivity.
  - exact sample_participants_unique.
  - reflexivity.
  - reflexivity.
Defined.



(** ** Writing a message *)







(** A reply to a message that does not exist, named by an id within the
    range of the id column, is answered 404 and nothing is written. *)
Theorem reply_target_missing (db : Db) (user : User.t) (conversationId : Js.value)
    (c : Z) (content : string) (r now : Z) :
  sql_int conversationId = Some c ->
  content_ok content ->
  participant db c (User.id user) = true ->
  r <> 0 ->
  int4 r ->
  has_message db r = false ->
  serve (MessageController.store user conversationId
           (CreateMessage.mk content (Some r)) now) db
  = (notFound (JsonText "Message to reply to not found"), db).
Proof.
  intros Hv Hcontent Hu Hr Hrange Hmissing. apply serve_ret.
  unfold MessageController.store, createMessageValidator.
  rewrite (bind_ret_run _ _ _ _ _
             (bind_ret_run _ _ _ _ _ (valid_content_run _ _ Hcontent))).
  unfold ret at 1. cbn [CreateMessage.content CreateMessage.replyToId].
  apply try_ret_run.
  rewrite (bind_ret_run _ _ _ _ _ (ensureParticipant_passes _ _ _ _ Hv Hu)).
  rewrite (bind_ret_run _ _ db db
             (Some (notFound (JsonText "Message to reply to not found"))));
    [reflexivity|].
  unfold MessageController.check_reply. rewrite (or_null_nonzero _ Hr).
  rewrite (bind_ret_run _ _ _ _ _
             (bind_number_run has_message r db (bound_int4 _ _ Hrange))).
  rewrite (bind_ret_run _ _ _ _ _ (Message_find_run (Js.Num r) r db eq_refl)).
  unfold has_message in Hmissing. rewrite <- find_is_existsb in Hmissing.
  destruct (find _ (messages db)); [discriminate | reflexivity].
Qed.

Lemma reply_target_missing_witness :
  serve (MessageController.store Sample.alice (Js.Str "1")
           (CreateMessage.mk "re" (Some 77)) 300) Sample.db
  = (notFound (JsonText "Message to reply to not found"), Sample.db).
Proof.
  apply (reply_target_missing Sample.db Sample.alice (Js.Str "1") 1 "re" 77 300).
  - reflexivity.
  - unfold content_ok. simpl. lia.
  - reflexivity.
  - lia.
  - unfold int4. lia.
  - reflexivity.
Defined.

(** ** Validation comes first *)

Lemma blank_content_run (content : string) (db : Db) :
  blank content -> valid_content content db = (Throw E_VALIDATION_ERROR, db).
Proof.
  intros H. unfold valid_content, blank in *. rewrite H. reflexivity.
Qed.

(** A request whose body does not pass its validator is answered 422 and
    writes nothing, whoever sends it and whatever it names: a content
    that is blank once trimmed, for a new message and for an edit, and an
    empty list of participants for a new conversation.  The conversation,
    the message and the roster are not looked at. *)
Theorem validation_first (db : Db) (user : User.t) (v : Js.value) (content : string)
    (replyToId : option Z) (name description : option string) (now : Z) :
  blank content ->
  let invalid := (mkResponse 422 (JsonText "Validation failed"), db) in
  serve (MessageController.store user v (CreateMessage.mk content replyToId) now) db
  = invalid
  /\ serve (MessageController.update user v (UpdateMessage.mk content) now) db = invalid
  /\ serve (ConversationController.store user
              (CreateConversation.mk name description []) now) db = invalid.
Proof.
  intros Hblank invalid. subst invalid. split; [|split]; unfold serve.
  - unfold MessageController.store, createMessageValidator.
    now rewrite (bind_throw_run _ _ _ _ _
                   (bind_throw_run _ _ _ _ _ (blank_content_run _ db Hblank))).
  - unfold MessageController.update, updateMessageValidator.
    now rewrite (bind_throw_run _ _ _ _ _
                   (bind_throw_run _ _ _ _ _ (blank_content_run _ db Hblank))).
  - reflexivity.
Qed.

Lemma validation_first_witness :
  participant Sample.db 1 (User.id Sample.carol) = false
  /\ serve (MessageController.store Sample.carol (Js.Str "1")
              (CreateMessage.mk "   " None) 300) Sample.db
     = (mkResponse 422 (JsonText "Validation failed"), Sample.db)
  /\ serve (MessageController.update Sample.carol (Js.Str "1")
              (UpdateMessage.mk "   ") 300) Sample.db
     = (mkResponse 422 (JsonText "Validation failed"), Sample.db)
  /\ serve (ConversationController.store Sample.carol
              (CreateConversation.mk None None []) 300) Sample.db
     = (mkResponse 422 (JsonText "Validation failed"), Sample.db).
Proof.
  split; [reflexivity|].
  apply (validation_first Sample.db Sample.carol (Js.Str "1") "   " None None None 300).
  reflexivity.
Defined.

(** ** Any page of the listing *)

Lemma sorted_skipn {A} (R : A -> A -> Prop) (n : nat) : forall l,
  StronglySorted R l -> StronglySorted R (skipn n l).
Proof.
  induction n as [|n IH]; intros l Hs; [exact Hs|].
  destruct l as [|x l]; [constructor|].
  inversion Hs; subst. cbn [skipn]. now apply IH.
Qed.

Lemma sorted_firstn {A} (R : A -> A -> Prop) (n : nat) : forall l,
  StronglySorted R l -> StronglySorted R (firstn n l).
Proof.
  induction n as [|n IH]; intros l Hs; [constructor|].
  destruct l as [|x l]; [constructor|].
  inversion Hs as [|? ? Hl Hx]; subst. cbn [firstn]. constructor; [now apply IH|].
  rewrite Forall_forall in *. intros y Hy. apply Hx.
  rewrite <- (firstn_skipn n l). apply in_or_app. now left.
Qed.

Lemma In_page {A} (n k : nat) (l : list A) (x : A) :
  In x (firstn n (skipn k l)) -> In x l.
Proof.
  intros H. rewrite <- (firstn_skipn k l). apply in_or_app. right.
  rewrite <- (firstn_skipn n (skipn k l)). apply in_or_app. now left.
Qed.

(** Two stretches that follow each other are one stretch. *)
Lemma firstn_then {A} (n m : nat) : forall r : list A,
  firstn n r ++ firstn m (skipn n r) = firstn (n + m) r.
Proof.
  induction n as [|n IH]; intros r; [reflexivity|].
  destruct r as [|x r]; [now rewrite !firstn_nil|].
  cbn [firstn skipn app Nat.add]. now rewrite IH.
Qed.

(** One page of the listing and the page after it, for a page number, a
    limit and an offset of the next page that JavaScript holds as exact
    integers (up to 2^53 - 1).  A participant who asks for page [page]
    (1 or more) with [limit] messages a page (1 or more) is answered 200
    with at most [limit] messages, newest first, all of them messages of
    that conversation, as many as the conversation has from offset
    [(page - 1) * limit] on; the total told is the number of messages of
    the conversation whatever the page.  When no two messages of the
    conversation were created at the same time, the page and the page
    after it are the listing from that offset on, with no message left
    out or repeated.  Nothing is written. *)
Theorem pages_of_listing (db : Db) (user : User.t) (conversationId : Js.value)
    (c page limit : Z) :
  sql_int conversationId = Some c ->
  participant db c (User.id user) = true ->
  1 <= page <= MAX_SAFE_INTEGER ->
  1 <= limit <= MAX_SAFE_INTEGER ->
  page * limit <= MAX_SAFE_INTEGER ->
  exists p q,
    serve (MessageController.index user conversationId (Some page) (Some limit)) db
    = (ok (JsonPage p), db)
    /\ serve (MessageController.index user conversationId (Some (page + 1)) (Some limit))
         db
       = (ok (JsonPage q), db)
    /\ Paginator.total p
       = Z.of_nat (List.length
                     (filter (fun r => Message.conversationId r =? c) (messages db)))
    /\ Paginator.total q = Paginator.total p
    /\ Z.of_nat (List.length (Paginator.data p))
       = Z.max 0 (Z.min limit (Paginator.total p - (page - 1) * limit))
    /\ StronglySorted newer_first (map MessageJson.row (Paginator.data p))
    /\ (forall m, In m (map MessageJson.row (Paginator.data p)) ->
          In m (messages db) /\ Message.conversationId m = c)
    /\ (NoDup (map Message.createdAt
                  (filter (fun r => Message.conversationId r =? c) (messages db))) ->
        map MessageJson.row (Paginator.data p ++ Paginator.data q)
        = firstn (Z.to_nat (2 * limit))
            (skipn (Z.to_nat ((page - 1) * limit)) (listing db c))).
Proof.
  unfold MAX_SAFE_INTEGER. intros Hv Hu Hpage Hlimit Hnext. do 2 eexists.
  split; [apply serve_ret, (index_run db user _ c page limit Hv Hu); nia|].
  split; [apply serve_ret, (index_run db user _ c (page + 1) limit Hv Hu); nia|].
  cbn [Paginator.total Paginator.data].
  assert (Hl : List.length (listing db c)
               = List.length (filter (fun r => Message.conversationId r =? c)
                                (messages db)))
    by apply orderBy_length.
  rewrite <- map_app, !map_row_preload, length_map, length_firstn, length_skipn, Hl.
  assert (Hoffset : 0 <= (page - 1) * limit) by nia.
  repeat match goal with |- _ /\ _ => split end.
  - reflexivity.
  - reflexivity.
  - lia.
  - apply sorted_firstn, sorted_skipn, orderBy_sorted.
  - intros m Hm. apply In_page in Hm. unfold listing in Hm.
    apply (Permutation_in _ (orderBy_perm _)) in Hm.
    apply filter_In in Hm. destruct Hm as [Hm Hc]. now apply Z.eqb_eq in Hc.
  - intros _.
    replace (Z.to_nat ((page + 1 - 1) * limit))
      with (Z.to_nat limit + Z.to_nat ((page - 1) * limit))%nat
      by (replace ((page + 1 - 1) * limit) with ((page - 1) * limit + limit) by ring;
          lia).
    rewrite <- skipn_skipn, firstn_then. f_equal. lia.
Qed.

Lemma pages_of_listing_witness :
  exists p q,
    serve (MessageController.index Sample.bob (Js.Str "1") (Some 2) (Some 50)) Busy.db
    = (ok (JsonPage p), Busy.db)
    /\ serve (MessageController.index Sample.bob (Js.Str "1") (Some (2 + 1)) (Some 50))
         Busy.db
       = (ok (JsonPage q), Busy.db)
    /\ Paginator.total p
       = Z.of_nat (List.length
                     (filter (fun r => Message.conversationId r =? 1) (messages Busy.db)))
    /\ Paginator.total q = Paginator.total p
    /\ Z.of_nat (List.length (Paginator.data p))
       = Z.max 0 (Z.min 50 (Paginator.total p - (2 - 1) * 50))
    /\ StronglySorted newer_first (map MessageJson.row (Paginator.data p))
    /\ (forall m, In m (map MessageJson.row (Paginator.data p)) ->
          In m (messages Busy.db) /\ Message.conversationId m = 1)
    /\ (NoDup (map Message.createdAt
                  (filter (fun r => Message.conversationId r =? 1) (messages Busy.db))) ->
        map MessageJson.row (Paginator.data p ++ Paginator.data q)
        = firstn (Z.to_nat (2 * 50))
            (skipn (Z.to_nat ((2 - 1) * 50)) (listing Busy.db 1))).
Proof.
  apply (pages_of_listing Busy.db Sample.bob (Js.Str "1") 1 2 50).
  - reflexivity.
  - reflexivity.
  - unfold MAX_SAFE_INTEGER. lia.
  - unfold MAX_SAFE_INTEGER. lia.
  - unfold MAX_SAFE_INTEGER. lia.
Defined.

Lemma distinct_NoDup (l : list Z) : distinct l = true -> NoDup l.
Proof.
  induction l as [|x l IH]; cbn [distinct]; [constructor|].
  rewrite andb_true_iff, negb_true_iff. intros [Hx Hl].
  constructor; [|now apply IH].
  intros Hin. assert (Hex : existsb (Z.eqb x) l = true)
    by (apply existsb_exists; exists x; split; [exact Hin | apply Z.eqb_refl]).
  congruence.
Qed.

(** The messages of conversation 1 of the busy store were created at
    different times. *)
Example busy_times_distinct :
  NoDup (map Message.createdAt
           (filter (fun r => Message.conversationId r =? 1) (messages Busy.db))).
Proof. apply distinct_NoDup. vm_compute. reflexivity. Qed.

(** ** The conversations of a user *)

Lemma insert_conversation_perm (c : Conversation.t) (l : list Conversation.t) :
  Permutation (insert_conversation_desc c l) (c :: l).
Proof.
  induction l as [|x l IH]; cbn [insert_conversation_desc]; [reflexivity|].
  destruct (Conversation.createdAt x <=? Conversation.createdAt c); [reflexivity|].
  rewrite IH. apply perm_swap.
Qed.

Lemma orderBy_conversation_perm (l : list Conversation.t) :
  Permutation (orderBy_conversation_created_at_desc l) l.
Proof.
  induction l as [|x l IH]; [reflexivity|].
  unfold orderBy_conversation_created_at_desc in *. cbn [fold_right].
  now rewrite insert_conversation_perm, IH.
Qed.

Lemma insert_conversation_sorted (c : Conversation.t) (l : list Conversation.t) :
  StronglySorted newer_conversation_first l ->
  StronglySorted newer_conversation_first (insert_conversation_desc c l).
Proof.
  induction 1 as [|x l Hl IH Hx]; cbn [insert_conversation_desc].
  - repeat constructor.
  - destruct (Z.leb_spec (Conversation.createdAt x) (Conversation.createdAt c))
      as [Hle|Hgt].
    + constructor; [now constructor|]. constructor; [exact Hle|].
      apply (Forall_impl _ (fun y (Hy : newer_conversation_first x y) =>
                              Z.le_trans _ _ _ Hy Hle) Hx).
    + constructor; [exact IH|].
      apply (Permutation_Forall (Permutation_sym (insert_conversation_perm c l))).
      constructor; [unfold newer_conversation_first; lia | exact Hx].
Qed.

Lemma orderBy_conversation_sorted (l : list Conversation.t) :
  StronglySorted newer_conversation_first (orderBy_conversation_created_at_desc l).
Proof.
  induction l as [|x l IH]; [constructor|].
  now apply insert_conversation_sorted.
Qed.

Lemma map_row_conversation_json (db : Db) (l : list Conversation.t) :
  map ConversationJson.row (map (conversation_json db) l) = l.
Proof.
  rewrite map_map. apply map_id.
Qed.

(** The rows of the list a user gets of their conversations. *)
Lemma conversations_listed (db : Db) (u : Z) (conversation : Conversation.t) :
  In conversation
     (orderBy_conversation_created_at_desc
        (filter (has_participant db u) (conversations db)))
  <-> In conversation (conversations db)
      /\ participant db (Conversation.id conversation) u = true.
Proof.
  change (participant db (Conversation.id conversation) u)
    with (has_participant db u conversation).
  rewrite <- filter_In. split; apply Permutation_in.
  - apply orderBy_conversation_perm.
  - apply Permutation_sym, orderBy_conversation_perm.
Qed.

(** The list of conversations a user asks for holds the conversations
    that have a roster row of the user, each once, and no other; they
    come newest-created first, each with its creator and its whole
    roster.  The creator of a conversation who
    has no row in its roster does not get it.  Nothing is written. *)
Theorem conversations_of_user (db : Db) (user : User.t) :
  exists l,
    serve_answer (ConversationController.index user) db = (Json 200 l, db)
    /\ Permutation (map ConversationJson.row l)
         (filter (fun c => participant db (Conversation.id c) (User.id user))
                 (conversations db))
    /\ StronglySorted newer_conversation_first (map ConversationJson.row l)
    /\ (forall conversation,
          In conversation (map ConversationJson.row l)
          <-> In conversation (conversations db)
              /\ participant db (Conversation.id conversation) (User.id user) = true)
    /\ Forall (fun json => json = conversation_json db (ConversationJson.row json)) l.
Proof.
  eexists. split; [reflexivity|].
  rewrite map_row_conversation_json.
  repeat match goal with |- _ /\ _ => split end.
  - apply orderBy_conversation_perm.
  - apply orderBy_conversation_sorted.
  - intros conversation. apply conversations_listed.
  - apply Forall_forall. intros json Hjson. apply in_map_iff in Hjson.
    now destruct Hjson as [conversation [<- _]].
Qed.

(** ** A new conversation *)







(** ** Requests, one after the other *)

Lemma keeps_answer (P : Db -> Prop) {A} (m : M A) (f : A -> Router.reply) :
  keeps P m -> keeps P (bind m (fun a => ret (f a))).
Proof.
  intros Hm. apply keeps_bind; [exact Hm|]. intros a. apply keeps_ret.
Qed.

Lemma keeps_unchanged (P : Db -> Prop) {A} (m : M A) :
  (forall db, snd (m db) = db) -> keeps P m.
Proof. intros Hm db H. now rewrite Hm. Qed.

Lemma conversation_index_unchanged (user : User.t) (db : Db) :
  snd (ConversationController.index user db) = db.
Proof. reflexivity. Qed.

Lemma keeps_conversation_show (user : User.t) (v : Js.value) :
  keeps store_ok (ConversationController.show user v).
Proof.
  unfold ConversationController.show,
    ConversationAuthorizationService.getConversationForUser.
  keeps_handler.
Qed.

Lemma keeps_message_show (user : User.t) (v : Js.value) :
  keeps store_ok (MessageController.show user v).
Proof. unfold MessageController.show. keeps_handler. Qed.

Lemma keeps_handler_of_route (user : User.t) (now : Z) (q : Router.request) :
  keeps store_ok (Router.handler user now q).
Proof.
  destruct handlers_keep_store_ok
    as [Hindex [Hstore [Hupdate [Hdestroy [Hcreate [Hput [Hdelete [Hadd Hremove]]]]]]]].
  destruct q; cbn [Router.handler]; apply keeps_answer; trivial.
  - apply keeps_unchanged, conversation_index_unchanged.
  - apply keeps_conversation_show.
  - apply keeps_message_show.
Qed.

Lemma keeps_dispatch (user : User.t) (now : Z) (q : Router.request) (db : Db) :
  store_ok db -> store_ok (snd (Router.dispatch user now q db)).
Proof.
  intros Hok. unfold Router.dispatch.
  pose proof (keeps_handler_of_route user now q db Hok) as H.
  now destruct (Router.handler user now q db) as [[r|e] db'].
Qed.

Lemma at_most_one_row (db : Db) (c u : Z) :
  participants_unique db -> (rows_of db c u <= 1)%nat.
Proof.
  intros [_ Hpairs]. unfold rows_of.
  induction (conversation_participants db) as [|p l IH]; cbn [filter]; [cbn; lia|].
  inversion Hpairs as [|? ? Hnotin Hnd]; subst.
  destruct (is_pair c u p) eqn:Hp; [|now apply IH].
  cbn [List.length]. apply is_pair_spec in Hp.
  destruct (filter (is_pair c u) l) as [|q r] eqn:Hq; [cbn; lia|].
  exfalso. apply Hnotin. rewrite Hp.
  assert (Hin : In q (filter (is_pair c u) l)) by (rewrite Hq; now left).
  apply filter_In in Hin. destruct Hin as [Hin Hpair].
  apply is_pair_spec in Hpair. rewrite <- Hpair. now apply in_map.
Qed.

(** Whatever requests are served one after the other, by whatever users
    and in whatever order, the store keeps its invariants: the ids of the
    roster rows stay a key, no (conversation, user) pair ever has two
    roster rows, every roster row is a row of an existing conversation,
    and every id in use is below the next of its sequence. *)
Theorem requests_keep_store_ok (qs : list (User.t * Z * Router.request)) :
  forall db,
    store_ok db ->
    store_ok (Router.dispatch_all qs db)
    /\ (forall c u, (rows_of (Router.dispatch_all qs db) c u <= 1)%nat)
    /\ (forall c u, participant (Router.dispatch_all qs db) c u = true ->
                    has_conversation (Router.dispatch_all qs db) c = true).
Proof.
  induction qs as [|[[user now] q] rest IH]; intros db Hok.
  - cbn [Router.dispatch_all]. split; [exact Hok|]. split.
    + intros c u. apply at_most_one_row. apply Hok.
    + intros c u. apply participant_has_conversation. apply Hok.
  - cbn [Router.dispatch_all]. apply IH. now apply keeps_dispatch.
Qed.

Lemma requests_keep_store_ok_witness :
  let qs :=
    [(Sample.alice, 300, Router.PostParticipants (Js.Str "1") 3);
     (Sample.carol, 301, Router.PostParticipants (Js.Str "1") 3);
     (Sample.carol, 302, Router.PostMessages (Js.Str "1") (CreateMessage.mk "hi" None));
     (Sample.bob, 303, Router.DeleteParticipant (Js.Str "1") (Js.Str "1"));
     (Sample.alice, 304, Router.DeleteConversation (Js.Str "1"))] in
  store_ok (Router.dispatch_all qs Sample.db)
  /\ (forall c u, (rows_of (Router.dispatch_all qs Sample.db) c u <= 1)%nat)
  /\ (forall c u, participant (Router.dispatch_all qs Sample.db) c u = true ->
                  has_conversation (Router.dispatch_all qs Sample.db) c = true).
Proof.
  intros qs. apply (requests_keep_store_ok qs Sample.db). exact sample_store_ok.
Defined.

(** ** The errors of the authorization service are caught *)

Lemma escapes_ret (Q : exn -> Prop) {A} (a : A) : escapes Q (ret a).
Proof. intros db e db' H. discriminate. Qed.

Lemma escapes_get (Q : exn -> Prop) : escapes Q get.
Proof. intros db e db' H. discriminate. Qed.

Lemma escapes_modify (Q : exn -> Prop) (f : Db -> Db) : escapes Q (modify f).
Proof. intros db e db' H. discriminate. Qed.

Lemma escapes_throw (Q : exn -> Prop) {A} (e : exn) : Q e -> escapes Q (@throw A e).
Proof. intros He db e' db' H. injection H as <- _. exact He. Qed.

Lemma escapes_bind (Q : exn -> Prop) {A B} (m : M A) (k : A -> M B) :
  escapes Q m -> (forall a, escapes Q (k a)) -> escapes Q (bind m k).
Proof.
  intros Hm Hk db e db'. unfold bind.
  destruct (m db) as [[a|e1] db1] eqn:E; intros H.
  - exact (Hk a db1 e db' H).
  - injection H as <- _. exact (Hm db e1 db1 E).
Qed.

Lemma escapes_try (Q' Q : exn -> Prop) {A} (m : M A) (h : exn -> M A) :
  escapes Q' m -> (forall e, Q' e -> escapes Q (h e)) -> escapes Q (try_catch m h).
Proof.
  intros Hm Hh db e db'. unfold try_catch.
  destruct (m db) as [[a|e1] db1] eqn:E; intros H; [discriminate|].
  exact (Hh e1 (Hm db e1 db1 E) db1 e db' H).
Qed.

Lemma escapes_weaken (Q Q' : exn -> Prop) {A} (m : M A) :
  (forall e, Q e -> Q' e) -> escapes Q m -> escapes Q' m.
Proof. intros HQ Hm db e db' H. exact (HQ e (Hm db e db' H)). Qed.

Lemma service_or_database (ms : list string) (e : dberror) :
  service_or ms (DatabaseError e).
Proof. now left. Qed.

Lemma service_or_head (m : string) (ms : list string) : service_or (m :: ms) (Error m).
Proof. right. exists m. split; [now left | reflexivity]. Qed.

Lemma service_or_next (m m' : string) (ms : list string) :
  service_or ms (Error m) -> service_or (m' :: ms) (Error m).
Proof.
  intros [H|[x [Hx Heq]]]; [contradiction|].
  right. exists x. split; [now right | exact Heq].
Qed.

(** Walks through a step: what it throws is of the kind asked for. *)
Ltac escapes_walk :=
  repeat first
    [ apply escapes_ret | apply escapes_get | apply escapes_modify
    | apply escapes_throw;
      first [ exact I | now left | apply service_or_head
            | apply service_or_next, service_or_head ]
    | apply escapes_bind; [|intros ?]
    | match goal with
      | |- escapes _ (match ?x with _ => _ end) => destruct x
      | |- escapes _ (let _ := _ in _) => cbv zeta
      end ].

(** The queries throw errors of the database and of the ORM only. *)
Lemma escapes_createMany (Q : exn -> Prop) (v : Js.value) (ids : list Z) (now : Z) :
  (forall e, Q (DatabaseError e)) ->
  escapes Q (ConversationParticipant_createMany v ids now).
Proof.
  intros HQ.
  assert (Hrows : escapes Q (createMany_rows v ids now)).
  { induction ids as [|u rest IH]; cbn [createMany_rows]; [apply escapes_ret|].
    apply escapes_bind.
    - unfold ConversationParticipant_create, bind_int.
      repeat first
        [ apply escapes_ret | apply escapes_get | apply escapes_modify
        | apply escapes_throw; apply HQ
        | apply escapes_bind; [|intros ?]
        | match goal with
          | |- escapes _ (match ?x with _ => _ end) => destruct x
          end ].
    - intros p. apply escapes_bind; [exact IH|]. intros ps. apply escapes_ret. }
  intros db e db'. unfold ConversationParticipant_createMany.
  destruct (createMany_rows v ids now db) as [[ps|e1] db1] eqn:E; intros H;
    [discriminate|].
  injection H as <- _. exact (Hrows db e1 db1 E).
Qed.

Ltac escapes_handler :=
  repeat progress unfold ConversationAuthorizationService.getConversationForUser,
    ConversationAuthorizationService.ensureParticipant,
    ConversationAuthorizationService.ensureCreator,
    ConversationAuthorizationService.isParticipant,
    ConversationAuthorizationService.isCreator,
    MessageController.check_reply,
    createMessageValidator, updateMessageValidator, valid_content,
    createConversationValidator, updateConversationValidator,
    ConversationParticipant_first, ConversationParticipant_create,
    ConversationParticipant_delete, User_find, User_whereIn, Conversation_find,
    Conversation_findOrFail, Conversation_create, Conversation_save,
    Conversation_delete, Message_find, Message_create, Message_save, Message_delete,
    Message_paginate, load_message, load_conversation, bind_int;
  escapes_walk.

(** A [catch] block that answers the errors of the service it is written
    for and throws the others on. *)
Ltac escapes_catch :=
  let e := fresh "e" in
  let He := fresh "He" in
  let m := fresh "m" in
  intros e He;
  destruct He as [He|[m [He ->]]];
  [ destruct e; [contradiction| | | |]; escapes_walk
  | repeat (destruct He as [<-|He]; [cbn; escapes_walk|]); contradiction ].

Lemma escapes_message_index (user : User.t) (v : Js.value) (page limit : option Z) :
  escapes not_of_service (MessageController.index user v page limit).
Proof.
  unfold MessageController.index.
  apply (escapes_try (service_or ["User is not a participant in this conversation"])).
  - escapes_handler.
  - unfold MessageController.not_participant_catch. escapes_catch.
Qed.

Lemma escapes_message_store (user : User.t) (v : Js.value) (body : CreateMessage.t)
    (now : Z) :
  escapes not_of_service (MessageController.store user v body now).
Proof.
  unfold MessageController.store. apply escapes_bind; [escapes_handler|]. intros payload.
  apply (escapes_try (service_or ["User is not a participant in this conversation"])).
  - escapes_handler.
  - unfold MessageController.not_participant_catch. escapes_catch.
Qed.

Lemma escapes_message_show (user : User.t) (v : Js.value) :
  escapes not_of_service (MessageController.show user v).
Proof.
  unfold MessageController.show. apply escapes_bind; [escapes_handler|].
  intros [m|]; [|apply escapes_ret].
  apply (escapes_try (service_or ["User is not a participant in this conversation"])).
  - escapes_handler.
  - escapes_catch.
Qed.

Lemma escapes_message_update (user : User.t) (v : Js.value) (body : UpdateMessage.t)
    (now : Z) :
  escapes not_of_service (MessageController.update user v body now).
Proof. unfold MessageController.update. escapes_handler. Qed.

Lemma escapes_message_destroy (user : User.t) (v : Js.value) :
  escapes not_of_service (MessageController.destroy user v).
Proof. unfold MessageController.destroy. escapes_handler. Qed.

Lemma escapes_conversation_store (user : User.t) (body : CreateConversation.t)
    (now : Z) :
  escapes not_of_service (ConversationController.store user body now).
Proof.
  unfold ConversationController.store.
  apply escapes_bind; [escapes_handler|]. intros payload.
  apply escapes_bind; [escapes_handler|]. intros conversation.
  apply escapes_bind; [escapes_handler|]. intros row.
  apply escapes_bind; [|intros early; escapes_handler].
  destruct (0 <? _)%nat; [|apply escapes_ret].
  apply escapes_bind; [escapes_handler|]. intros found.
  destruct (negb _); [apply escapes_ret|].
  apply escapes_bind; [|intros rows; apply escapes_ret].
  apply escapes_createMany. intros e. exact I.
Qed.

Lemma escapes_conversation_show (user : User.t) (v : Js.value) :
  escapes not_of_service (ConversationController.show user v).
Proof.
  unfold ConversationController.show.
  apply (escapes_try (service_or ["Conversation not found";
                                  "User is not a participant in this conversation"])).
  - escapes_handler.
  - escapes_catch.
Qed.

Lemma escapes_conversation_update (user : User.t) (v : Js.value)
    (body : UpdateConversation.t) (now : Z) :
  escapes not_of_service (ConversationController.update user v body now).
Proof.
  unfold ConversationController.update. apply escapes_bind; [escapes_handler|].
  intros payload.
  apply (escapes_try (service_or ["User is not the creator of this conversation"])).
  - escapes_handler.
  - escapes_catch.
Qed.

Lemma escapes_conversation_destroy (user : User.t) (v : Js.value) :
  escapes not_of_service (ConversationController.destroy user v).
Proof.
  unfold ConversationController.destroy.
  apply (escapes_try (service_or ["User is not the creator of this conversation"])).
  - escapes_handler.
  - escapes_catch.
Qed.

Lemma escapes_addParticipant (user : User.t) (v : Js.value) (t now : Z) :
  escapes not_of_service (ConversationController.addParticipant user v t now).
Proof.
  unfold ConversationController.addParticipant.
  apply (escapes_try (service_or ["User is not a participant in this conversation"])).
  - escapes_handler.
  - unfold ConversationController.not_participant_catch. escapes_catch.
Qed.

Lemma escapes_removeParticipant (user : User.t) (v t : Js.value) :
  escapes not_of_service (ConversationController.removeParticipant user v t).
Proof.
  unfold ConversationController.removeParticipant.
  apply (escapes_try (service_or ["User is not a participant in this conversation"])).
  - escapes_handler.
  - unfold ConversationController.not_participant_catch. escapes_catch.
Qed.

Lemma escapes_route (user : User.t) (now : Z) (q : Router.request) :
  escapes not_of_service (Router.handler user now q).
Proof.
  destruct q; cbn [Router.handler];
    (apply escapes_bind; [|intros ?; apply escapes_ret]).
  - unfold ConversationController.index. escapes_walk.
  - apply escapes_conversation_store.
  - apply escapes_conversation_show.
  - apply escapes_conversation_update.
  - apply escapes_conversation_destroy.
  - apply escapes_addParticipant.
  - apply escapes_removeParticipant.
  - apply escapes_message_index.
  - apply escapes_message_store.
  - apply escapes_message_show.
  - apply escapes_message_update.
  - apply escapes_message_destroy.
Qed.

(** No error thrown by the authorization service leaves a controller:
    each of its messages is the one the [catch] block of the caller
    compares with, letter for letter.  So whatever the handler of a route
    throws, on any store and for any request, is not an [Error] of the
    service. *)
Theorem service_errors_are_caught (user : User.t) (now : Z) (q : Router.request)
    (db db' : Db) (e : exn) :
  Router.handler user now q db = (Throw e, db') ->
  not_of_service e.
Proof.
  intros H. exact (escapes_route user now q db e db' H).
Qed.

Lemma service_errors_are_caught_witness :
  Router.handler Sample.alice 300
    (Router.PostMessages (Js.Str "1") (CreateMessage.mk "  " None)) Sample.db
  = (Throw E_VALIDATION_ERROR, Sample.db)
  /\ not_of_service E_VALIDATION_ERROR.
Proof.
  split; [reflexivity|].
  apply (service_errors_are_caught Sample.alice 300
           (Router.PostMessages (Js.Str "1") (CreateMessage.mk "  " None))
           Sample.db Sample.db E_VALIDATION_ERROR).
  reflexivity.
Defined.

(** ** Requests that are refused write nothing *)

Lemma unchanged_ret {A} (a : A) : unchanged (ret a).
Proof. intros db. reflexivity. Qed.

Lemma unchanged_throw {A} (e : exn) : unchanged (@throw A e).
Proof. intros db. reflexivity. Qed.

Lemma unchanged_get : unchanged get.
Proof. intros db. reflexivity. Qed.

Lemma unchanged_bind {A B} (m : M A) (k : A -> M B) :
  unchanged m -> (forall a, unchanged (k a)) -> unchanged (bind m k).
Proof.
  intros Hm Hk db. unfold bind. specialize (Hm db).
  destruct (m db) as [[a|e] db1]; cbn [snd] in *; subst db1; [apply Hk | reflexivity].
Qed.

Lemma unchanged_try {A} (m : M A) (h : exn -> M A) :
  unchanged m -> (forall e, unchanged (h e)) -> unchanged (try_catch m h).
Proof.
  intros Hm Hh db. unfold try_catch. specialize (Hm db).
  destruct (m db) as [[a|e] db1]; cbn [snd] in *; subst db1; [reflexivity | apply Hh].
Qed.

(** Walks through a step that only reads. *)
Ltac unchanged_walk :=
  repeat progress unfold ConversationAuthorizationService.getConversationForUser,
    ConversationAuthorizationService.ensureParticipant,
    ConversationAuthorizationService.ensureCreator,
    ConversationAuthorizationService.isParticipant,
    ConversationAuthorizationService.isCreator,
    MessageController.not_participant_catch,
    ConversationController.not_participant_catch,
    MessageController.check_reply,
    createMessageValidator, updateMessageValidator, valid_content,
    createConversationValidator, updateConversationValidator,
    ConversationParticipant_first, User_find, User_whereIn, Conversation_find,
    Conversation_findOrFail, Message_find, Message_paginate, load_message,
    load_conversation, bind_int;
  repeat first
    [ apply unchanged_ret | apply unchanged_throw | apply unchanged_get
    | apply unchanged_bind; [|intros ?]
    | apply unchanged_try; [|intros ?]
    | match goal with
      | |- unchanged (match ?x with _ => _ end) => destruct x
      | |- unchanged (let _ := _ in _) => cbv zeta
      end ].

Lemma clean_of_unchanged {A} (st : A -> Z) (m : M A) : unchanged m -> clean st m.
Proof.
  intros Hm db. specialize (Hm db). destruct (m db) as [[a|e] db1]; cbn [snd] in Hm;
    [intros _; exact Hm | exact Hm].
Qed.

Lemma clean_read {A B} (st : B -> Z) (m : M A) (k : A -> M B) :
  unchanged m -> (forall a, clean st (k a)) -> clean st (bind m k).
Proof.
  intros Hm Hk db. unfold bind. specialize (Hm db).
  destruct (m db) as [[a|e] db1]; cbn [snd] in Hm; subst db1; [apply Hk | reflexivity].
Qed.

Lemma clean_try {A} (st : A -> Z) (m : M A) (h : exn -> M A) :
  clean st m -> (forall e, clean st (h e)) -> clean st (try_catch m h).
Proof.
  intros Hm Hh db. unfold try_catch. specialize (Hm db).
  destruct (m db) as [[a|e] db1]; [exact Hm|]. subst db1. apply Hh.
Qed.

(** A write that either is refused by the database, the store staying as
    it is, or is followed by the answer of a success. *)
Lemma clean_write {A B} (st : B -> Z) (w : M A) (k : A -> M B) :
  (forall db e db', w db = (Throw e, db') -> db' = db) ->
  (forall a, succeeds st (k a)) ->
  clean st (bind w k).
Proof.
  intros Hw Hk db. unfold bind.
  destruct (w db) as [[a|e] db1] eqn:E.
  - destruct (Hk a db1) as [b [db2 [Hrun Hst]]]. rewrite Hrun. lia.
  - exact (Hw db e db1 E).
Qed.

Ltac refused_write :=
  let H := fresh "H" in
  intros ? ? ?;
  unfold ConversationParticipant_create, ConversationParticipant_delete,
    Conversation_save, Conversation_delete, Message_create, Message_save,
    Message_delete, bind, bind_int, get, modify, ret, throw;
  repeat (cbv beta iota zeta;
          match goal with
          | |- context [match sql_int ?v with _ => _ end] => destruct (sql_int v)
          | |- context [if ?b then _ else _] => destruct b
          end);
  cbv beta iota zeta; intros H; inversion H; reflexivity.

Ltac success :=
  intros ?; do 2 eexists; split; [reflexivity | cbn; lia].

(** Walks through a handler: reads, then one write and the answer of a
    success. *)
Ltac clean_walk :=
  repeat first
    [ apply clean_of_unchanged; solve [unchanged_walk]
    | apply clean_read; [solve [unchanged_walk] | intros ?]
    | apply clean_try; [|intros ?]
    | apply clean_write; [solve [refused_write] | intros ?; solve [success]]
    | match goal with
      | |- clean _ (match ?x with _ => _ end) => destruct x
      | |- clean _ (let _ := _ in _) => cbv zeta
      end ].

Lemma clean_message_store (user : User.t) (v : Js.value) (body : CreateMessage.t)
    (now : Z) :
  clean status (MessageController.store user v body now).
Proof. unfold MessageController.store. clean_walk. Qed.

Lemma clean_message_update (user : User.t) (v : Js.value) (body : UpdateMessage.t)
    (now : Z) :
  clean status (MessageController.update user v body now).
Proof. unfold MessageController.update. clean_walk. Qed.

Lemma clean_message_destroy (user : User.t) (v : Js.value) :
  clean status (MessageController.destroy user v).
Proof. unfold MessageController.destroy. clean_walk. Qed.

Lemma clean_conversation_update (user : User.t) (v : Js.value)
    (body : UpdateConversation.t) (now : Z) :
  clean status (ConversationController.update user v body now).
Proof. unfold ConversationController.update. clean_walk. Qed.

Lemma clean_conversation_destroy (user : User.t) (v : Js.value) :
  clean status (ConversationController.destroy user v).
Proof. unfold ConversationController.destroy. clean_walk. Qed.

Lemma clean_addParticipant (user : User.t) (v : Js.value) (t now : Z) :
  clean status (ConversationController.addParticipant user v t now).
Proof. unfold ConversationController.addParticipant. clean_walk. Qed.

Lemma clean_removeParticipant (user : User.t) (v t : Js.value) :
  clean status (ConversationController.removeParticipant user v t).
Proof. unfold ConversationController.removeParticipant. clean_walk. Qed.

Lemma clean_response (m : M response) :
  clean status m -> clean Router.status_of (bind m (fun r => ret (Router.Response r))).
Proof.
  intros Hm db. unfold bind. specialize (Hm db).
  now destruct (m db) as [[r|e] db1].
Qed.

Lemma unchanged_reading_route (user : User.t) (now : Z) (q : Router.request) :
  Router.reads q = true -> unchanged (Router.handler user now q).
Proof.
  destruct q; cbn [Router.reads]; try discriminate; intros _; cbn [Router.handler].
  - unfold ConversationController.index. unchanged_walk.
  - unfold ConversationController.show. unchanged_walk.
  - unfold MessageController.index. unchanged_walk.
  - unfold MessageController.show. unchanged_walk.
Qed.

Lemma clean_route (user : User.t) (now : Z) (q : Router.request) :
  (forall body, q <> Router.PostConversations body) ->
  clean Router.status_of (Router.handler user now q).
Proof.
  intros Hq.
  destruct q;
    try (apply clean_of_unchanged, unchanged_reading_route; reflexivity);
    cbn [Router.handler]; try apply clean_response.
  - exfalso. eapply Hq. reflexivity.
  - apply clean_conversation_update.
  - apply clean_conversation_destroy.
  - apply clean_addParticipant.
  - apply clean_removeParticipant.
  - apply clean_message_store.
  - apply clean_message_update.
  - apply clean_message_destroy.
Qed.

(** A request that is answered with a status of 400 or more has written
    nothing, on every route but the creation of a conversation: the
    checks of a handler all come before its one write, and a write the
    database refuses leaves the store as it is. *)
Theorem refused_requests_write_nothing (user : User.t) (now : Z) (q : Router.request)
    (db : Db) :
  (forall body, q <> Router.PostConversations body) ->
  400 <= Router.status_of (fst (Router.dispatch user now q db)) ->
  snd (Router.dispatch user now q db) = db.
Proof.
  intros Hq. pose proof (clean_route user now q Hq db) as H.
  unfold Router.dispatch.
  destruct (Router.handler user now q db) as [[r|e] db1]; cbn [fst snd]; [exact H|].
  intros _. exact H.
Qed.

Lemma refused_requests_write_nothing_witness :
  Router.status_of
    (fst (Router.dispatch Sample.alice 300
            (Router.PostParticipants (Js.Str "1") 9) Sample.db)) = 404
  /\ snd (Router.dispatch Sample.alice 300
            (Router.PostParticipants (Js.Str "1") 9) Sample.db) = Sample.db.
Proof.
  split; [reflexivity|].
  apply (refused_requests_write_nothing Sample.alice 300
           (Router.PostParticipants (Js.Str "1") 9) Sample.db).
  - discriminate.
  - cbn. lia.
Defined.

(** The [GET] routes write nothing, whatever they answer. *)
Theorem reading_requests_write_nothing (user : User.t) (now : Z) (q : Router.request)
    (db : Db) :
  Router.reads q = true ->
  snd (Router.dispatch user now q db) = db.
Proof.
  intros Hq. pose proof (unchanged_reading_route user now q Hq db) as H.
  unfold Router.dispatch.
  now destruct (Router.handler user now q db) as [[r|e] db1].
Qed.

Lemma reading_requests_write_nothing_witness :
  snd (Router.dispatch Sample.bob 300 (Router.GetMessages (Js.Str "1") None None)
         Sample.db) = Sample.db.
Proof.
  apply (reading_requests_write_nothing Sample.bob 300
           (Router.GetMessages (Js.Str "1") None None) Sample.db).
  reflexivity.
Defined.

(** ** Which lists of participants are accepted *)





(** ** The edit of a message *)

(** The edit of a message by its author, with a content that passes the
    validator, never succeeds: [update] assigns a [Date] of JavaScript to
    [editedAt], a column declared [dateTime], [save] refuses it with an
    exception before any query is sent, and no handler catches it.  The
    request is answered 500 and the store, the message included, stays
    as it is, whether or not the author is in the roster. *)
Theorem author_edit_fails (db : Db) (user : User.t) (messageId : Js.value) (n : Z)
    (m : Message.t) (content : string) (now : Z) :
  sql_int messageId = Some n ->
  find (fun r => Message.id r =? n) (messages db) = Some m ->
  Message.userId m = User.id user ->
  content_ok content ->
  MessageController.update user messageId (UpdateMessage.mk content) now db
  = (Throw (E_INVALID_DATE_COLUMN_VALUE "Message.editedAt"), db)
  /\ serve (MessageController.update user messageId (UpdateMessage.mk content) now) db
     = (internalServerError, db).
Proof.
  intros Hv Hfind Hauthor Hcontent.
  pose proof (author_update_run db user messageId n m content now
                Hv Hfind Hauthor Hcontent) as Hrun.
  split; [exact Hrun|]. unfold serve. now rewrite Hrun.
Qed.

Lemma author_edit_fails_witness :
  participant Sample.db 1 (User.id Sample.alice) = true
  /\ MessageController.update Sample.alice (Js.Str "1")
       (UpdateMessage.mk "hello, all") 300 Sample.db
     = (Throw (E_INVALID_DATE_COLUMN_VALUE "Message.editedAt"), Sample.db)
  /\ serve (MessageController.update Sample.alice (Js.Str "1")
              (UpdateMessage.mk "hello, all") 300) Sample.db
     = (internalServerError, Sample.db).
Proof.
  split; [reflexivity|].
  apply (author_edit_fails Sample.db Sample.alice (Js.Str "1") 1 Sample.hello
           "hello, all" 300).
  - reflexivity.
  - reflexivity.
  - reflexivity.
  - unfold content_ok. simpl. lia.
Defined.

(** ** A conversation nobody is in *)

(** When the only participant of a conversation leaves, the conversation
    stays in the store with an empty roster: it is in nobody's list,
    [show] refuses it to everybody, its creator included, and nobody can
    add a participant to it again. *)
Theorem last_participant_leaves (db : Db) (user : User.t)
    (conversationId userId : Js.value) (c : Z) (conversation : Conversation.t) :
  sql_int conversationId = Some c ->
  sql_int userId = Some (User.id user) ->
  participants_unique db ->
  find (fun r => Conversation.id r =? c) (conversations db) = Some conversation ->
  (forall u, participant db c u = (u =? User.id user)) ->
  exists db',
    serve (ConversationController.removeParticipant user conversationId userId) db
    = (ok (JsonText "Participant removed successfully"), db')
    /\ find (fun r => Conversation.id r =? c) (conversations db') = Some conversation
    /\ (forall member : User.t,
          serve (ConversationController.show member conversationId) db'
          = (forbidden (JsonText "You are not a participant in this conversation"), db')
          /\ (forall t now,
                serve (ConversationController.addParticipant member conversationId t now)
                  db'
                = (forbidden (JsonText "You are not a participant in this conversation"),
                   db'))
          /\ exists l,
               serve_answer (ConversationController.index member) db' = (Json 200 l, db')
               /\ ~ In conversation (map ConversationJson.row l)).
Proof.
  intros Hv Hvt [Hids Hpairs] Hfind Honly.
  pose proof (Honly (User.id user)) as Hu. rewrite Z.eqb_refl in Hu.
  pose proof Hu as Hrow. unfold participant in Hrow. rewrite <- find_is_existsb in Hrow.
  destruct (find (is_pair c (User.id user)) (conversation_participants db))
    as [p|] eqn:Hp; [clear Hrow | discriminate].
  set (db' := set_participants
                (filter (fun r => negb (ConversationParticipant.id r
                                        =? ConversationParticipant.id p))
                        (conversation_participants db)) db).
  assert (Hnone : forall u, participant db' c u = false).
  { intros u. unfold participant, db', set_participants. cbn [conversation_participants].
    rewrite (roster_after_delete _ c (User.id user) c u p Hids Hpairs Hp).
    fold (participant db c u). rewrite Honly, Z.eqb_refl. cbn [andb].
    now destruct (u =? User.id user). }
  exists db'. split; [|split; [exact Hfind|]].
  { apply serve_ret. exact (removeParticipant_removes db user _ _ c _ p Hv Hvt Hu Hp). }
  intros member. split; [|split].
  - apply serve_ret.
    now apply show_not_participant with (c := c) (conversation := conversation).
  - intros t now. apply serve_ret.
    now apply addParticipant_not_participant with (c := c).
  - eexists. split; [reflexivity|].
    rewrite map_row_conversation_json, conversations_listed.
    intros [_ Hin]. rewrite (find_conversation_id _ _ _ Hfind), Hnone in Hin.
    discriminate.
Qed.

Lemma last_participant_leaves_witness :
  let db := AuthorLeft.db in
  let conversation := Conversation.mk 1 (Some "X") None 1 10 (Some 10) in
  exists db',
    serve (ConversationController.removeParticipant Sample.bob (Js.Str "1") (Js.Str "2"))
      db
    = (ok (JsonText "Participant removed successfully"), db')
    /\ find (fun r => Conversation.id r =? 1) (conversations db') = Some conversation
    /\ (forall member : User.t,
          serve (ConversationController.show member (Js.Str "1")) db'
          = (forbidden (JsonText "You are not a participant in this conversation"), db')
          /\ (forall t now,
                serve (ConversationController.addParticipant member (Js.Str "1") t now)
                  db'
                = (forbidden (JsonText "You are not a participant in this conversation"),
                   db'))
          /\ exists l,
               serve_answer (ConversationController.index member) db' = (Json 200 l, db')
               /\ ~ In conversation (map ConversationJson.row l)).
Proof.
  apply (last_participant_leaves AuthorLeft.db Sample.bob (Js.Str "1") (Js.Str "2") 1
           (Conversation.mk 1 (Some "X") None 1 10 (Some 10))).
  - reflexivity.
  - reflexivity.
  - split; cbn; repeat constructor; cbv; intuition congruence.
  - reflexivity.
  - intros u. unfold participant.
    replace (conversation_participants AuthorLeft.db)
      with [ConversationParticipant.mk 2 1 2 10 10 (Some 10);
            ConversationParticipant.mk 3 2 2 20 20 (Some 20);
            ConversationParticipant.mk 4 2 3 20 20 (Some 20)] by reflexivity.
    unfold is_pair.
    cbn [existsb ConversationParticipant.conversationId ConversationParticipant.userId].
    change (1 =? 1) with true. change (2 =? 1) with false. cbn [andb orb].
    rewrite orb_false_r. apply Z.eqb_sym.
Defined.
